(** * gemini-pr-reviewer: the review pipeline of [src/main.js]

    A shallow embedding of the GitHub Action that fetches the diff of a pull
    request, asks a Gemini model for review findings and posts them.

    The program is effectful JavaScript.  It is modelled here in a small
    monad of exceptions and emitted events: a computation yields, in order,
    every outward interaction it made (log lines, HTTP requests, timers,
    GitHub calls).
    Whatever lives outside the repository (the Actions toolkit, octokit,
    [fetch], [JSON.parse], [JSON.stringify]) is an environment [Env] of
    handlers; a handler sees the history so far and its arguments, so the
    theorems hold for every deterministic environment. *)

From Stdlib Require Import String Ascii List ZArith Lia Bool DecimalString.
Import ListNotations.
Local Open Scope list_scope.
Local Open Scope string_scope.
Set Warnings "-register-all".

(* ===================================================================== *)
(** * JavaScript values *)
(* ===================================================================== *)

(** The values that [JSON.parse] and [response.json()] can deliver, plus
    [undefined].

    A text is held in UTF-8, one [ascii] per byte.

    [JNum n] is the Number that is an integer and whose shortest decimal
    expansion, the one [Number::toString] prints, has the value [n]; the
    two zeros are [JNum 0].  [JReal shown] is a Number that is not an
    integer (a fraction or an infinity), given by the text that
    [Number::toString] prints for it. *)
Inductive JValue : Type :=
| JUndefined
| JNull
| JBool (b : bool)
| JNum (n : Z)
| JReal (shown : string)
| JStr (s : string)
| JArr (elems : list JValue)
| JObj (fields : list (string * JValue)).

Definition dq : string := String "034"%char EmptyString.
Definition nl : string := String "010"%char EmptyString.

(** [lines.join('\n')] on text. *)
Definition unlines (ls : list string) : string := String.concat nl ls.

Definition string_of_Z (n : Z) : string := NilZero.string_of_int (Z.to_int n).
Definition string_of_nat (n : nat) : string := string_of_Z (Z.of_nat n).

(** The UTF-16 code units of the character that a UTF-8 byte starts: one
    for a character of up to three bytes, two (a surrogate pair) for one of
    four bytes, none for a continuation byte. *)
Definition code_units (c : ascii) : nat :=
  match c with
  | Ascii _ _ _ _ b4 b5 b6 b7 =>
      if negb b7 then 1
      else if negb b6 then 0
      else if b5 && b4 then 2
      else 1
  end.

(** [s.length]: the number of UTF-16 code units of a text. *)
Fixpoint js_length (s : string) : nat :=
  match s with
  | EmptyString => 0
  | String c rest => code_units c + js_length rest
  end.

(** A digit text without its trailing zeros. *)
Fixpoint strip_zeros (digits : string) : string :=
  match digits with
  | EmptyString => EmptyString
  | String c rest =>
      let rest' := strip_zeros rest in
      if (rest' =? EmptyString) && (c =? "0")%char then EmptyString
      else String c rest'
  end.

(** [Number::toString] on an integer: its digits below 10^21, and from
    there on the exponent form [d.ddde+x] of its significant digits. *)
Definition Number_toString (n : Z) : string :=
  if (Z.abs n <? 10 ^ 21)%Z then string_of_Z n
  else
    let digits := string_of_Z (Z.abs n) in
    (if (n <? 0)%Z then "-" else EmptyString)
    ++ match strip_zeros digits with
       | EmptyString => EmptyString
       | String d rest =>
           String d (if rest =? EmptyString then EmptyString else "." ++ rest)
       end
    ++ "e+" ++ string_of_nat (String.length digits - 1).

(** ECMAScript [ToBoolean]. *)
Definition truthy (v : JValue) : bool :=
  match v with
  | JUndefined | JNull => false
  | JBool b => b
  | JNum n => negb (n =? 0)%Z
  | JReal _ => true
  | JStr s => negb (s =? EmptyString)
  | JArr _ | JObj _ => true
  end.

Definition nullish (v : JValue) : bool :=
  match v with
  | JUndefined | JNull => true
  | _ => false
  end.

Fixpoint assoc (k : string) (fields : list (string * JValue)) : JValue :=
  match fields with
  | [] => JUndefined
  | (k', v) :: rest => if k =? k' then v else assoc k rest
  end.

(** [k] is an own key of the object with these fields. *)
Definition has_own (k : string) (fields : list (string * JValue)) : bool :=
  existsb (fun kv => k =? fst kv) fields.

(** [v.k] for a value that is not nullish, at the data properties this
    program reads ([candidates], [content], [parts], [text], [path],
    [line], [comment], [length]): an own property of an object, [length] of
    an array or a string, [undefined] anywhere else. *)
Definition prop (v : JValue) (k : string) : JValue :=
  match v with
  | JObj fields => assoc k fields
  | JArr elems => if k =? "length" then JNum (Z.of_nat (List.length elems)) else JUndefined
  | JStr s => if k =? "length" then JNum (Z.of_nat (js_length s)) else JUndefined
  | _ => JUndefined
  end.

(** [v[0]] for a value that is not nullish.  Of a text it is the text of
    its first code unit, here its first byte: the program tests it for
    truthiness and reads [content] or [text] of it, which a text of one
    code unit does not have. *)
Definition index0 (v : JValue) : JValue :=
  match v with
  | JObj fields => assoc "0" fields
  | JArr elems => match elems with x :: _ => x | [] => JUndefined end
  | JStr s => match s with String c _ => JStr (String c EmptyString) | EmptyString => JUndefined end
  | _ => JUndefined
  end.

(** Optional chaining: [v?.k] and [v?.[0]]. *)
Definition opt_prop (v : JValue) (k : string) : JValue :=
  if nullish v then JUndefined else prop v k.

Definition opt_index0 (v : JValue) : JValue :=
  if nullish v then JUndefined else index0 v.

(* ===================================================================== *)
(** * Errors, requests, events *)
(* ===================================================================== *)

(** A thrown error object: its class, its [message], and the [status] that
    octokit's request errors carry ([undefined] on plain errors). *)
Record JsError : Type := mkError {
  err_name : string;
  err_message : string;
  err_status : JValue
}.

(** [new Error(msg)] *)
Definition Error (msg : string) : JsError := mkError "Error" msg JUndefined.

(** The engine's [TypeError] for a property read on [undefined] or [null]. *)
Definition TypeError_read (v : JValue) (k : string) : JsError :=
  mkError "TypeError"
    ("Cannot read properties of "
     ++ match v with JNull => "null" | _ => "undefined" end
     ++ " (reading '" ++ k ++ "')")
    JUndefined.

Definition TypeError_not_a_function (what : string) : JsError :=
  mkError "TypeError" (what ++ " is not a function") JUndefined.

(** The engine's [TypeError] for an object that has no primitive value. *)
Definition TypeError_primitive : JsError :=
  mkError "TypeError" "Cannot convert object to primitive value" JUndefined.

(** Sequencing of steps that throw or return. *)
Definition and_then {A B} (r : JsError + A) (k : A -> JsError + B) : JsError + B :=
  match r with
  | inl e => inl e
  | inr a => k a
  end.

(** [elems.join(',')], with [element] converting an element to text:
    [undefined] and [null] elements give the empty text, and the join throws
    where the conversion of an element does. *)
Section Join.

Variable element : JValue -> JsError + string.

Fixpoint join (elems : list JValue) : JsError + string :=
  match elems with
  | [] => inr EmptyString
  | x :: tl =>
      and_then
        match x with
        | JUndefined | JNull => inr EmptyString
        | _ => element x
        end
        (fun sx =>
           match tl with
           | [] => inr sx
           | _ :: _ => and_then (join tl) (fun stl => inr (sx ++ "," ++ stl))
           end)
  end.

End Join.

(** ECMAScript [ToString], as applied by template literals, by [+] on a
    string and by [JSON.parse] to its argument.

    An object parsed from JSON inherits [Object.prototype.toString], which
    gives [[object Object]], unless it has an own [toString] key: the value
    under that key is data and cannot be called, [valueOf] does not give a
    primitive either, and the conversion throws a [TypeError].  An array
    is joined with commas. *)
Fixpoint ToString (v : JValue) : JsError + string :=
  match v with
  | JUndefined => inr "undefined"
  | JNull => inr "null"
  | JBool true => inr "true"
  | JBool false => inr "false"
  | JNum n => inr (Number_toString n)
  | JReal shown => inr shown
  | JStr s => inr s
  | JArr elems => join ToString elems
  | JObj fields =>
      if has_own "toString" fields then inl TypeError_primitive
      else inr "[object Object]"
  end.

Record Request : Type := mkRequest {
  req_url : string;
  req_method : string;
  req_headers : list (string * string);
  req_body : string
}.

(** What the program looks at in a [fetch] response; [resp_json] is the
    outcome of [response.json()]. *)
Record Response : Type := mkResponse {
  resp_ok : bool;
  resp_statusText : string;
  resp_json : JsError + JValue
}.

Record PullsGetArgs : Type := mkPullsGetArgs {
  pg_owner : string;
  pg_repo : string;
  pg_pull_number : Z;
  pg_headers : list (string * string)
}.

Record GithubComment : Type := mkGithubComment {
  gc_path : JValue;
  gc_line : JValue;
  gc_body : JValue
}.

Record ReviewArgs : Type := mkReviewArgs {
  rv_owner : string;
  rv_repo : string;
  rv_pull_number : Z;
  rv_event : string;
  rv_body : string;
  rv_comments : list GithubComment
}.

Record CommentArgs : Type := mkCommentArgs {
  cm_owner : string;
  cm_repo : string;
  cm_issue_number : Z;
  cm_body : string
}.

(** Everything the run does to the outside world, with the answer it got.
    In [EvPullsGet] the payload is [diffResponse.data]: the diff text, or
    [None] when the body is absent.  In [EvCreateReview] and
    [EvCreateComment], [None] means the call resolved. *)
Inductive Event : Type :=
| EvInfo (msg : string)
| EvWarning (msg : string)
| EvSetFailed (msg : string)
| EvPullsGet (args : PullsGetArgs) (res : JsError + option string)
| EvFetch (req : Request) (res : JsError + Response)
| EvSleep (ms : Z)
| EvCreateReview (args : ReviewArgs) (res : option JsError)
| EvCreateComment (args : CommentArgs) (res : option JsError).

Definition Trace : Type := list Event.

(** The authenticated client returned by [github.getOctokit]. *)
Record Octokit : Type := mkOctokit {
  pulls_get : Trace -> PullsGetArgs -> JsError + option string;
  pulls_createReview : Trace -> ReviewArgs -> option JsError;
  issues_createComment : Trace -> CommentArgs -> option JsError
}.

(** The surroundings of one run: the inputs and the event context of the
    workflow, the toolkit, the network and the JSON built-ins. *)
Record Env : Type := mkEnv {
  getInput : string -> string;
  context_owner : string;
  context_repo : string;
  context_issue_number : Z;
  context_eventName : string;
  getOctokit : string -> JsError + Octokit;
  fetch : Trace -> Request -> JsError + Response;
  JSON_parse : string -> JsError + JValue;
  JSON_stringify : JValue -> string
}.

(* ===================================================================== *)
(** * The monad: history, emitted events, one surviving local, exceptions *)
(* ===================================================================== *)

(** A computation reads the history of the run so far and the current
    value of [rawJsonText], and yields the events it emitted, the new value
    of [rawJsonText] and either a thrown error or a result.

    [rawJsonText] is the [let] of [getGeminiReview] that is assigned inside
    a [try] block and read in its [catch]: it has to survive a throw, so it
    is threaded next to the events. *)
Record Outcome (A : Type) : Type := mkOutcome {
  emitted : Trace;
  raw_after : JValue;
  result : JsError + A
}.
Arguments mkOutcome {A} _ _ _.
Arguments emitted {A} _.
Arguments raw_after {A} _.
Arguments result {A} _.

Definition M (A : Type) : Type := Trace -> JValue -> Outcome A.

Definition ret {A} (a : A) : M A := fun _ raw => mkOutcome [] raw (inr a).

Definition throw {A} (e : JsError) : M A := fun _ raw => mkOutcome [] raw (inl e).

Definition bind {A B} (m : M A) (k : A -> M B) : M B :=
  fun h raw =>
    match m h raw with
    | mkOutcome ev raw' (inr a) =>
        match k a (h ++ ev)%list raw' with
        | mkOutcome ev' raw'' r => mkOutcome (ev ++ ev')%list raw'' r
        end
    | mkOutcome ev raw' (inl e) => mkOutcome ev raw' (inl e)
    end.

Notation "x <- m ;; k" := (bind m (fun x => k))
  (at level 61, m at next level, right associativity).
Notation "m ;;; k" := (bind m (fun _ => k))
  (at level 61, right associativity).

(** [try { m } catch (error) { handler error }] *)
Definition try_catch {A} (m : M A) (handler : JsError -> M A) : M A :=
  fun h raw =>
    match m h raw with
    | mkOutcome ev raw' (inr a) => mkOutcome ev raw' (inr a)
    | mkOutcome ev raw' (inl e) =>
        match handler e (h ++ ev)%list raw' with
        | mkOutcome ev' raw'' r => mkOutcome (ev ++ ev')%list raw'' r
        end
    end.

Definition emit (ev : Event) : M unit := fun _ raw => mkOutcome [ev] raw (inr tt).

Definition set_rawJsonText (v : JValue) : M unit := fun _ _ => mkOutcome [] v (inr tt).

Definition get_rawJsonText : M JValue := fun _ raw => mkOutcome [] raw (inr raw).

(** Lifting the outcome of a call that either throws or returns. *)
Definition lift {A} (r : JsError + A) : M A :=
  match r with
  | inl e => throw e
  | inr a => ret a
  end.

(** The outcome of awaiting a call that returns nothing: [Some e] is a
    rejection with [e]. *)
Definition settled (r : option JsError) : JsError + unit :=
  match r with
  | Some e => inl e
  | None => inr tt
  end.

(** [v.k], throwing on [undefined] and [null]. *)
Definition member (v : JValue) (k : string) : M JValue :=
  if nullish v then throw (TypeError_read v k) else ret (prop v k).

Definition member0 (v : JValue) : M JValue :=
  if nullish v then throw (TypeError_read v "0") else ret (index0 v).

Fixpoint mapM {A B} (f : A -> M B) (l : list A) : M (list B) :=
  match l with
  | [] => ret []
  | x :: tl => y <- f x ;; ys <- mapM f tl ;; ret (y :: ys)
  end.

(* ===================================================================== *)
(** * Text helpers *)
(* ===================================================================== *)

(** [s.replace(pat, repl)] for a text pattern [pat] that is not empty and a
    replacement without [$]: the first occurrence only. *)
Definition replace_first (pat repl s : string) : string :=
  match index 0 pat s with
  | Some n =>
      substring 0 n s ++ repl ++
      substring (n + String.length pat) (String.length s - (n + String.length pat)) s
  | None => s
  end.

(** [!t] on a value that is a text or absent. *)
Definition falsy_text (t : option string) : bool :=
  match t with
  | None => true
  | Some s => s =? EmptyString
  end.

(** [t.length] on a text. *)
Definition text_length (t : option string) : nat :=
  match t with
  | None => 0
  | Some s => js_length s
  end.

(** The text itself, where [t] is known to be one. *)
Definition text_of (t : option string) : string :=
  match t with
  | None => EmptyString
  | Some s => s
  end.

(* ===================================================================== *)
(** * Constants of [main.js] *)
(* ===================================================================== *)

(** System instruction for Gemini to enforce structured JSON output. *)
Definition GEMINI_SYSTEM_PROMPT : string :=
  unlines
    [ EmptyString;
      "    You are an experienced Software Architect conducting a code review.";
      "    Your task is to analyze the provided code diff.";
      "    Return your feedback ONLY in the following JSON format, commenting on bugs, security vulnerabilities, and improvements directly on the affected line.";
      "    ";
      "    ***CRITICAL INSTRUCTION FOR LINE NUMBER***";
      "    The 'line' MUST be the line number in the TARGET FILE (after the change).";
      "    The line MUST be based on a line that starts with a PLUS sign (+) in the diff.";
      "    Ignore lines that were deleted (-) or context lines ( ).";
      "    You MUST derive the line number from the Hunk Header Information (e.g., '@@ -X,Y +A,B @@') by using the starting line (A) and the number of added lines (B).";
      "    ";
      "    If there are no comments, reply with an empty JSON list: [].";
      "    ";
      "    JSON Schema:";
      "    [";
      "      {";
      "        " ++ dq ++ "path" ++ dq ++ ": " ++ dq ++ "string" ++ dq ++ ", // The file path, e.g., " ++ dq ++ "src/server.js" ++ dq;
      "        " ++ dq ++ "line" ++ dq ++ ": " ++ dq ++ "number" ++ dq ++ ", // The line number in the NEW file (MUST be a line starting with '+ ').";
      "        " ++ dq ++ "comment" ++ dq ++ ": " ++ dq ++ "string" ++ dq ++ " // The detailed comment, in German.";
      "      }";
      "    ]";
      EmptyString ].

Definition responseSchema : JValue :=
  JObj
    [ ("type", JStr "ARRAY");
      ("items",
        JObj
          [ ("type", JStr "OBJECT");
            ("properties",
              JObj
                [ ("path", JObj [ ("type", JStr "STRING") ]);
                  ("line", JObj [ ("type", JStr "NUMBER") ]);
                  ("comment", JObj [ ("type", JStr "STRING") ]) ]);
            ("required", JArr [ JStr "path"; JStr "line"; JStr "comment" ]) ]) ].

Definition REVIEW_HEADING : string := "## ðŸ¤– AI Code Review by Gemini".

Definition NO_ISSUES_BODY : string :=
  unlines
    [ "## ðŸ¤– AI Code Review by Gemini";
      EmptyString;
      "No critical issues found. **Looks good!**" ].

(** The template literal [reviewSummary] of [postReviewComments]. *)
Definition reviewSummary (githubComments : list GithubComment) : string :=
  unlines
    [ EmptyString;
      "    ## ðŸ¤– AI Code Review by Gemini";
      "    ";
      "    I've left " ++ string_of_nat (List.length githubComments) ++ " specific comments on the changes. Please check the marked lines in the " ++ dq ++ "Files changed" ++ dq ++ " tab.";
      "    ";
      "    ---";
      "    ";
      "    *Please note: I am an AI, and my suggestions are recommendations only. A human review remains essential!*";
      "  " ].

(** One line of the fallback comment:
    [`- **${c.path} (Line ${c.line}):** ${c.body}`].  Each of the three
    conversions to text can throw. *)
Definition feedback_entry (c : GithubComment) : JsError + string :=
  and_then (ToString (gc_path c)) (fun path =>
  and_then (ToString (gc_line c)) (fun line =>
  and_then (ToString (gc_body c)) (fun body =>
  inr ("- **" ++ path ++ " (Line " ++ line ++ "):** " ++ body)))).

(** [githubComments.map((c) => `...`)] *)
Fixpoint feedback_entries (githubComments : list GithubComment)
  : JsError + list string :=
  match githubComments with
  | [] => inr []
  | c :: rest =>
      and_then (feedback_entry c) (fun entry =>
      and_then (feedback_entries rest) (fun entries =>
      inr (entry :: entries)))
  end.

(** The text of the template literal [fallbackBody] once its entries are
    there; [summary] is [reviewSummary]. *)
Definition fallback_text (summary : string) (entries : list string) : string :=
  unlines
    [ EmptyString;
      "        ## âš ï¸ AI Review Error (Fallback)";
      "        ";
      "        **The attempt to set line-specific comments failed due to invalid line numbers (422 error).**";
      "        ";
      "        Here is the generated feedback as a general comment:";
      "        ";
      "        ---";
      "        ";
      "        **Summary:** " ++ replace_first REVIEW_HEADING EmptyString summary ++ " ";
      "        ";
      "        **Feedback Details:**";
      "        " ++ String.concat nl entries;
      "      " ].

(** The template literal [fallbackBody]: it throws when an entry does. *)
Definition fallbackBody (summary : string) (githubComments : list GithubComment)
  : JsError + string :=
  and_then (feedback_entries githubComments) (fun entries =>
  inr (fallback_text summary entries)).

(** The fixed part of the error of [getGeminiReview] after the last try. *)
Definition EXHAUSTED_PREFIX : string :=
  "Gemini API request has failed after multiple tries. Last raw response: ".

(* ===================================================================== *)
(** * The program *)
(* ===================================================================== *)

(** What [initializeAction] hands to [run]. *)
Record Init : Type := mkInit {
  init_apiKey : string;
  init_githubToken : string;
  init_model : string;
  init_owner : string;
  init_repo : string;
  init_issueNumber : Z;
  init_octokit : Octokit
}.

Section Program.

Variable env : Env.

(** ** Calls into the surroundings *)

(** [JSON.parse(v)]: the argument is converted to a text first. *)
Definition JSON_parse_value (v : JValue) : JsError + JValue :=
  and_then (ToString v) (JSON_parse env).

Definition core_info (msg : string) : M unit := emit (EvInfo msg).
Definition core_warning (msg : string) : M unit := emit (EvWarning msg).
Definition core_setFailed (msg : string) : M unit := emit (EvSetFailed msg).

(** [await fetch(url, { method, headers, body })] *)
Definition await_fetch (req : Request) : M Response :=
  fun h raw =>
    let res := fetch env h req in
    mkOutcome [EvFetch req res] raw res.

(** [await new Promise((resolve) => setTimeout(resolve, ms))] *)
Definition await_timeout (ms : Z) : M unit := emit (EvSleep ms).

(** [await octokit.rest.pulls.get(args)], projected to [.data]. *)
Definition octokit_pulls_get (octokit : Octokit) (args : PullsGetArgs)
  : M (option string) :=
  fun h raw =>
    let res := pulls_get octokit h args in
    mkOutcome [EvPullsGet args res] raw res.

(** [await octokit.rest.pulls.createReview(args)] *)
Definition octokit_pulls_createReview (octokit : Octokit) (args : ReviewArgs)
  : M unit :=
  fun h raw =>
    let res := pulls_createReview octokit h args in
    mkOutcome [EvCreateReview args res] raw (settled res).

(** [await octokit.rest.issues.createComment(args)] *)
Definition octokit_issues_createComment (octokit : Octokit) (args : CommentArgs)
  : M unit :=
  fun h raw =>
    let res := issues_createComment octokit h args in
    mkOutcome [EvCreateComment args res] raw (settled res).

(** ** [initializeAction] *)

Definition initializeAction : M (option Init) :=
  let apiKey := getInput env "gemini-api-key" in
  let githubToken := getInput env "github-token" in
  let model := getInput env "model" in
  let owner := context_owner env in
  let repo := context_repo env in
  let issueNumber := context_issue_number env in
  if negb (context_eventName env =? "pull_request") then
    core_setFailed "This action is only available for pull requests!" ;;;
    ret None
  else
    octokit <- lift (getOctokit env githubToken) ;;
    ret (Some (mkInit apiKey githubToken model owner repo issueNumber octokit)).

(** ** [fetchCodeDiff] *)

Definition fetchCodeDiff (octokit : Octokit) (owner repo : string) (pull_number : Z)
  : M (option string) :=
  core_info "Fetching diffs from GitHub..." ;;;
  codeDiff <- octokit_pulls_get octokit
                (mkPullsGetArgs owner repo pull_number
                   [ ("Accept", "application/vnd.github.v3.diff") ]) ;;
  if falsy_text codeDiff || (text_length codeDiff <? 10)%nat then
    core_info "No significant diff found. Skipping validation." ;;;
    ret None
  else
    core_info ("Code diff successfully fetched. Size: "
               ++ string_of_nat (text_length codeDiff) ++ " Bytes.") ;;;
    ret codeDiff.

(** ** [getGeminiReview] *)

Definition apiUrl (model : string) : string :=
  "https://generativelanguage.googleapis.com/v1beta/models/" ++ model
  ++ ":generateContent".

Definition userQuery (codeDiff : string) : string :=
  "Please analyze the following code-diff and write the comments as JSON:"
  ++ nl ++ nl ++ codeDiff.

Definition payload (codeDiff : string) : JValue :=
  JObj
    [ ("contents",
        JArr [ JObj [ ("parts", JArr [ JObj [ ("text", JStr (userQuery codeDiff)) ] ]) ] ]);
      ("systemInstruction",
        JObj [ ("parts", JArr [ JObj [ ("text", JStr GEMINI_SYSTEM_PROMPT) ] ]) ]);
      ("generationConfig",
        JObj [ ("responseMimeType", JStr "application/json");
               ("responseSchema", responseSchema) ]) ].

(** The request of one attempt. *)
Definition gemini_request (apiKey model codeDiff : string) : Request :=
  mkRequest (apiUrl model) "POST"
    [ ("Content-Type", "application/json"); ("X-Goog-Api-Key", apiKey) ]
    (JSON_stringify env (payload codeDiff)).

(** The body of the [try] block; [Some comments] is [return comments]. *)
Definition gemini_try (apiKey model codeDiff : string) : M (option JValue) :=
  response <- await_fetch (gemini_request apiKey model codeDiff) ;;
  (if negb (resp_ok response)
   then throw (Error ("API error: " ++ resp_statusText response))
   else ret tt) ;;;
  result <- lift (resp_json response) ;;
  candidates <- member result "candidates" ;;
  let candidate := opt_index0 candidates in
  if truthy candidate
     && truthy (opt_prop (opt_index0 (opt_prop (prop candidate "content") "parts")) "text")
  then
    content <- member candidate "content" ;;
    parts <- member content "parts" ;;
    part <- member0 parts ;;
    text <- member part "text" ;;
    set_rawJsonText text ;;;
    raw <- get_rawJsonText ;;
    comments <- lift (JSON_parse_value raw) ;;
    len <- member comments "length" ;;
    shown <- lift (ToString len) ;;
    core_info ("Gemini has generated " ++ shown ++ " comments.") ;;;
    ret (Some comments)
  else
    throw (Error "No text found in Gemini response").

(** The [catch] block of iteration [i]; [None] lets the loop go on. *)
Definition gemini_catch (i : Z) (error : JsError) : M (option JValue) :=
  core_warning ("Try " ++ string_of_Z (i + 1) ++ " failed (Gemini/JSON-Parsing): "
                ++ err_message error) ;;;
  (if (i =? 2)%Z
   then
     raw <- get_rawJsonText ;;
     shown <- lift (ToString raw) ;;
     throw (Error (EXHAUSTED_PREFIX ++ shown))
   else ret tt) ;;;
  await_timeout (2000 * (i + 1)) ;;;
  ret None.

(** [for (let i = ...; i < 3; i++) { body }]; [fuel] bounds the unfolding
    and three iterations are all the loop can make from [i = 0].  Leaving
    the loop without a [return] gives [undefined]. *)
Fixpoint for_i_lt_3 (fuel : nat) (i : Z) (body : Z -> M (option JValue)) : M JValue :=
  match fuel with
  | O => ret JUndefined
  | S fuel' =>
      if (i <? 3)%Z then
        r <- body i ;;
        match r with
        | Some v => ret v
        | None => for_i_lt_3 fuel' (i + 1) body
        end
      else ret JUndefined
  end.

Definition getGeminiReview (apiKey model codeDiff : string) : M JValue :=
  core_info ("Sending structured JSON request to Gemini. Model: " ++ model ++ ".") ;;;
  set_rawJsonText (JStr EmptyString) ;;;
  for_i_lt_3 3 0
    (fun i => try_catch (gemini_try apiKey model codeDiff) (gemini_catch i)).

(** ** [postReviewComments] *)

(** [v.map(f)] on a parsed JSON value: only an array has a [map]. *)
Definition array_map {B} (what : string) (v : JValue) (f : JValue -> M B) : M (list B) :=
  match v with
  | JArr elems => mapM f elems
  | JUndefined | JNull => throw (TypeError_read v "map")
  | _ => throw (TypeError_not_a_function (what ++ ".map"))
  end.

Definition to_githubComment (c : JValue) : M GithubComment :=
  path <- member c "path" ;;
  line <- member c "line" ;;
  body <- member c "comment" ;;
  ret (mkGithubComment path line body).

(** [error.status === 422] *)
Definition status_is_422 (error : JsError) : bool :=
  match err_status error with
  | JNum n => (n =? 422)%Z
  | _ => false
  end.

Definition postReviewComments (octokit : Octokit) (owner repo : string)
    (pull_number issue_number : Z) (aiReviewComments : JValue) : M unit :=
  githubComments <- array_map "aiReviewComments" aiReviewComments to_githubComment ;;
  if (List.length githubComments =? 0)%nat then
    let body := NO_ISSUES_BODY in
    octokit_issues_createComment octokit (mkCommentArgs owner repo issue_number body) ;;;
    core_info "No comments generated; posted a positive summary comment." ;;;
    ret tt
  else
    let summary := reviewSummary githubComments in
    try_catch
      (octokit_pulls_createReview octokit
         (mkReviewArgs owner repo pull_number "COMMENT" summary githubComments) ;;;
       core_info "Review with line-specific comments successfully posted.")
      (fun error =>
         if status_is_422 error then
           core_warning "ERROR: The GitHub API rejected the review (422 Unprocessable Entity). This indicates the AI generated invalid line numbers." ;;;
           body <- lift (fallbackBody summary githubComments) ;;
           octokit_issues_createComment octokit
             (mkCommentArgs owner repo issue_number body) ;;;
           core_warning "Posted as a general comment. Action continues."
         else throw error).

(** ** [run] *)

Definition run : M unit :=
  try_catch
    (init <- initializeAction ;;
     match init with
     | None => ret tt
     | Some init =>
         let apiKey := init_apiKey init in
         let model := init_model init in
         let octokit := init_octokit init in
         let owner := init_owner init in
         let repo := init_repo init in
         let issueNumber := init_issueNumber init in
         codeDiff <- fetchCodeDiff octokit owner repo issueNumber ;;
         if falsy_text codeDiff then ret tt
         else
           aiReviewComments <- getGeminiReview apiKey model (text_of codeDiff) ;;
           postReviewComments octokit owner repo issueNumber issueNumber aiReviewComments
     end)
    (fun error => core_setFailed (err_message error)).

End Program.


(* ===================================================================== *)
(** * Observations on a trace *)
(* ===================================================================== *)

(** What [fetch] delivered, call by call. *)
Definition fetch_results (t : Trace) : list (JsError + Response) :=
  flat_map (fun ev => match ev with EvFetch _ res => [res] | _ => [] end) t.

(** The requests sent, call by call. *)
Definition requests (t : Trace) : list Request :=
  flat_map (fun ev => match ev with EvFetch req _ => [req] | _ => [] end) t.

(** Attempts and waits in the order in which they happened. *)
Inductive Tick : Type :=
| Attempt
| Wait (ms : Z).

Definition ticks (t : Trace) : list Tick :=
  flat_map (fun ev => match ev with
                      | EvFetch _ _ => [Attempt]
                      | EvSleep ms => [Wait ms]
                      | _ => []
                      end) t.

(** The backoff delays, in milliseconds. *)
Definition waits (ts : list Tick) : list Z :=
  flat_map (fun t => match t with Wait ms => [ms] | Attempt => [] end) ts.

Definition sleeps (t : Trace) : list Z := waits (ticks t).

Definition is_post (ev : Event) : bool :=
  match ev with
  | EvCreateReview _ _ | EvCreateComment _ _ => true
  | _ => false
  end.

(** The posting calls made, resolved or not. *)
Definition posts (t : Trace) : Trace := filter is_post t.

Definition is_resolved_post (ev : Event) : bool :=
  match ev with
  | EvCreateReview _ None | EvCreateComment _ None => true
  | _ => false
  end.

(** The posting calls that went through. *)
Definition resolved_posts (t : Trace) : Trace := filter is_resolved_post t.

(** ** Anatomy of one model-call attempt *)

(** The text payload [candidates[0].content.parts[0].text] that the [try]
    block extracts from what [fetch] delivered, if it gets that far. *)
Definition response_text (res : JsError + Response) : option JValue :=
  match res with
  | inl _ => None
  | inr response =>
      if negb (resp_ok response) then None
      else
        match resp_json response with
        | inl _ => None
        | inr result =>
            if nullish result then None
            else
              let candidate := opt_index0 (prop result "candidates") in
              let text :=
                opt_prop (opt_index0 (opt_prop (prop candidate "content") "parts")) "text" in
              if truthy candidate && truthy text then Some text else None
        end
  end.

(** The log line [`Gemini has generated ${comments.length} comments.`]:
    reading [length] throws on [null], and so does the conversion to text
    of a [length] that has no primitive value. *)
Definition generated_message (comments : JValue) : JsError + string :=
  if nullish comments then inl (TypeError_read comments "length")
  else
    and_then (ToString (prop comments "length")) (fun shown =>
    inr ("Gemini has generated " ++ shown ++ " comments.")).

(** The value an attempt returns, if it succeeds: the text was extracted,
    it could be converted and parsed, and the log line about
    [comments.length] could be written. *)
Definition attempt_findings (env : Env) (res : JsError + Response) : option JValue :=
  match response_text res with
  | None => None
  | Some text =>
      match JSON_parse_value env text with
      | inl _ => None
      | inr comments =>
          match generated_message comments with
          | inl _ => None
          | inr _ => Some comments
          end
      end
  end.

(** The error with which the loop ends after a third failed attempt, with
    [raw] in [rawJsonText]: the exhaustion error that quotes it, or the
    [TypeError] of converting it to text. *)
Definition exhaustion_error (raw : JValue) : JsError :=
  match ToString raw with
  | inl e => e
  | inr shown => Error (EXHAUSTED_PREFIX ++ shown)
  end.

(** [rawJsonText] after an attempt that got [res], from [raw]. *)
Definition raw_next (raw : JValue) (res : JsError + Response) : JValue :=
  match response_text res with
  | Some text => text
  | None => raw
  end.

(** [rawJsonText] after attempts with these fetch results, from [raw]. *)
Definition last_raw (raw : JValue) (results : list (JsError + Response)) : JValue :=
  fold_left raw_next results raw.

(** ** Vocabulary of the statements *)

(** The inline comment that [postReviewComments] derives from one finding. *)
Definition github_comment_of (c : JValue) : GithubComment :=
  mkGithubComment (prop c "path") (prop c "line") (prop c "comment").

Definition is_array (v : JValue) : bool :=
  match v with
  | JArr _ => true
  | _ => false
  end.

(** No element is [undefined] or [null] (reading [c.path] would throw). *)
Definition no_nullish (elems : list JValue) : bool :=
  forallb (fun c => negb (nullish c)) elems.

(** [v] converts to a text. *)
Definition renders (v : JValue) : bool :=
  match ToString v with
  | inr _ => true
  | inl _ => false
  end.

(** The [path], [line] and [body] of an inline comment convert to text. *)
Definition renders_entry (c : GithubComment) : bool :=
  renders (gc_path c) && renders (gc_line c) && renders (gc_body c).

(** [sub] occurs in [s]. *)
Definition contains (s sub : string) : Prop :=
  exists pre post, s = pre ++ sub ++ post.

(** A diff that [fetchCodeDiff] does not pass on: absent, empty or shorter
    than ten UTF-16 code units, which is what [codeDiff.length] counts. *)
Definition not_significant (data : option string) : Prop :=
  match data with
  | None => True
  | Some d => (js_length d < 10)%nat
  end.

(** The events [getGeminiReview] may emit: log lines, waits, and model
    calls that send [req]. *)
Definition model_call_event (req : Request) (ev : Event) : Prop :=
  match ev with
  | EvInfo _ | EvWarning _ | EvSleep _ => True
  | EvFetch r _ => r = req
  | _ => False
  end.

(** The events [postReviewComments] may emit. *)
Definition posting_event (ev : Event) : Prop :=
  match ev with
  | EvInfo _ | EvWarning _ | EvCreateReview _ _ | EvCreateComment _ _ => True
  | _ => False
  end.

Definition is_createReview (ev : Event) : bool :=
  match ev with
  | EvCreateReview _ _ => true
  | _ => false
  end.

Definition is_createComment (ev : Event) : bool :=
  match ev with
  | EvCreateComment _ _ => true
  | _ => false
  end.

Definition is_setFailed (ev : Event) : bool :=
  match ev with
  | EvSetFailed _ => true
  | _ => false
  end.

(* ===================================================================== *)
(** * Concrete surroundings, for running the model *)
(* ===================================================================== *)

Module Demo.

(** A model response with [payload] where the text is expected. *)
Definition payload_response (payload : JValue) : Response :=
  mkResponse true "OK"
    (inr (JObj
      [ ("candidates",
          JArr [ JObj [ ("content",
            JObj [ ("parts", JArr [ JObj [ ("text", payload) ] ]) ]) ] ]) ])).

(** A well-formed model response whose text payload is [text]. *)
Definition text_response (text : string) : Response :=
  payload_response (JStr text).

Definition unavailable : Response :=
  mkResponse false "Service Unavailable" (inr JNull).

(** A response without candidates. *)
Definition no_candidates : Response :=
  mkResponse true "OK" (inr (JObj [ ("candidates", JArr []) ])).

Definition one_finding_text : string :=
  "[{" ++ dq ++ "path" ++ dq ++ ":" ++ dq ++ "a.py" ++ dq ++ ","
  ++ dq ++ "line" ++ dq ++ ":42,"
  ++ dq ++ "comment" ++ dq ++ ":" ++ dq ++ "Unused import." ++ dq ++ "}]".

Definition one_finding : JValue :=
  JArr [ JObj [ ("path", JStr "a.py"); ("line", JNum 42);
                ("comment", JStr "Unused import.") ] ].

(** An object that has no primitive value: [{"toString":1}]. *)
Definition opaque : JValue := JObj [ ("toString", JNum 1) ].

(** The text [{"length":{"toString":1}}] and its value. *)
Definition opaque_length_text : string :=
  "{" ++ dq ++ "length" ++ dq ++ ":{" ++ dq ++ "toString" ++ dq ++ ":1}}".

Definition opaque_length : JValue := JObj [ ("length", opaque) ].

(** [JSON.parse] on the few texts the examples use. *)
Definition parse (s : string) : JsError + JValue :=
  if s =? "[]" then inr (JArr [])
  else if s =? "null" then inr JNull
  else if s =? "{}" then inr (JObj [])
  else if s =? "7" then inr (JNum 7)
  else if s =? one_finding_text then inr one_finding
  else if s =? opaque_length_text then inr opaque_length
  else inl (mkError "SyntaxError" "Unexpected token" JUndefined).

(** A model endpoint that answers the [n]-th call of the run with the
    [n]-th entry of [script]. *)
Definition scripted_fetch (script : list (JsError + Response)) (h : Trace)
    (_ : Request) : JsError + Response :=
  nth (List.length (fetch_results h)) script (inl (Error "fetch failed")).

Definition octokit (diff : option string) (review comment : option JsError) : Octokit :=
  mkOctokit (fun _ _ => inr diff) (fun _ _ => review) (fun _ _ => comment).

Definition inputs (name : string) : string :=
  if name =? "gemini-api-key" then "secret-key"
  else if name =? "github-token" then "ghs_token"
  else if name =? "model" then "gemini-2.5-flash"
  else EmptyString.

(** A JSON encoder, enough for values whose texts hold no control
    character other than a line feed and whose numbers are finite. *)
Fixpoint escape (s : string) : string :=
  match s with
  | EmptyString => EmptyString
  | String c rest =>
      if (c =? "034")%char then String "\" (String "034" (escape rest))
      else if (c =? "\")%char then String "\" (String "\" (escape rest))
      else if (c =? "010")%char then String "\" (String "n" (escape rest))
      else String c (escape rest)
  end.

Fixpoint encode (v : JValue) : string :=
  match v with
  | JUndefined | JNull => "null"
  | JBool true => "true"
  | JBool false => "false"
  | JNum n => Number_toString n
  | JReal shown => shown
  | JStr s => dq ++ escape s ++ dq
  | JArr elems =>
      "[" ++ (fix items (l : list JValue) : string :=
                match l with
                | [] => EmptyString
                | x :: tl =>
                    match tl with
                    | [] => encode x
                    | _ :: _ => encode x ++ "," ++ items tl
                    end
                end) elems ++ "]"
  | JObj fields =>
      "{" ++ (fix members (l : list (string * JValue)) : string :=
                match l with
                | [] => EmptyString
                | (k, x) :: tl =>
                    match tl with
                    | [] => dq ++ escape k ++ dq ++ ":" ++ encode x
                    | _ :: _ => dq ++ escape k ++ dq ++ ":" ++ encode x ++ "," ++ members tl
                    end
                end) fields ++ "}"
  end.

Definition env (script : list (JsError + Response)) (client : Octokit) : Env :=
  mkEnv inputs "octo" "demo" 7 "pull_request" (fun _ => inr client)
    (scripted_fetch script) parse encode.

Definition unprocessable : JsError :=
  mkError "HttpError" "Unprocessable Entity" (JNum 422).

Definition forbidden : JsError :=
  mkError "HttpError" "Resource not accessible by integration" (JNum 403).

Definition long_diff : string :=
  "diff --git a/a.py b/a.py".

(** GitHub clients: one that accepts everything, one that rejects the
    review as unprocessable, one that rejects it for another reason. *)
Definition accepting : Octokit := octokit (Some long_diff) None None.
Definition rejecting : Octokit := octokit (Some long_diff) (Some unprocessable) None.
Definition refusing : Octokit := octokit (Some long_diff) (Some forbidden) None.

(** Two failures, then one finding. *)
Definition flaky_script : list (JsError + Response) :=
  [ inr unavailable; inr no_candidates; inr (text_response one_finding_text) ].

Definition flaky_env : Env := env flaky_script accepting.

(** A history in which two model calls were already made. *)
Definition two_calls_made : Trace :=
  [ EvFetch (mkRequest EmptyString "POST" [] EmptyString) (inr unavailable);
    EvFetch (mkRequest EmptyString "POST" [] EmptyString) (inr no_candidates) ].

(** A text that is not JSON, then two failures without any text. *)
Definition garbled_script : list (JsError + Response) :=
  [ inr (text_response "oops"); inr unavailable; inr no_candidates ].

Definition garbled_env : Env := env garbled_script accepting.

(** The model answers the JSON text [null], every time. *)
Definition null_env : Env :=
  env [ inr (text_response "null"); inr (text_response "null");
        inr (text_response "null") ] accepting.


(** The pull request has a diff of four characters. *)
Definition tiny_diff_env : Env := env flaky_script (octokit (Some "tiny") None None).

(** The pull request has a diff of five characters in ten bytes. *)
Definition accented_diff : string := "ééééé".

Definition accented_diff_env : Env :=
  env flaky_script (octokit (Some accented_diff) None None).

(** The model answers a text that parses to an object whose [length] has
    no primitive value, every time. *)
Definition opaque_length_env : Env :=
  env [ inr (text_response opaque_length_text); inr (text_response opaque_length_text);
        inr (text_response opaque_length_text) ] accepting.

(** The model sends an object without primitive value in place of the
    text, then fails twice. *)
Definition opaque_payload_script : list (JsError + Response) :=
  [ inr (payload_response opaque); inr unavailable; inr no_candidates ].

Definition opaque_payload_env : Env := env opaque_payload_script accepting.

(** A finding whose [path] has no primitive value. *)
Definition opaque_path_finding : JValue :=
  JObj [ ("path", opaque); ("line", JNum 42); ("comment", JStr "Unused import.") ].

End Demo.

(* ===================================================================== *)
(** * Further observations *)
(* ===================================================================== *)

(** The messages passed to [core.warning], in order. *)
Definition warnings (t : Trace) : list string :=
  flat_map (fun ev => match ev with EvWarning msg => [msg] | _ => [] end) t.

(** The messages passed to [core.setFailed], in order. *)
Definition failures (t : Trace) : list string :=
  flat_map (fun ev => match ev with EvSetFailed msg => [msg] | _ => [] end) t.

(** The calls of [pulls.get], with their answers. *)
Definition pulls_gets (t : Trace) : list (PullsGetArgs * (JsError + option string)) :=
  flat_map (fun ev => match ev with EvPullsGet args res => [(args, res)] | _ => [] end) t.

(** The events [fetchCodeDiff] may emit. *)
Definition diff_event (ev : Event) : Prop :=
  match ev with
  | EvInfo _ | EvPullsGet _ _ => True
  | _ => False
  end.

(** A posting call, if [ev] is one, goes to pull request [pull_number] or
    issue [issue_number] of [owner]/[repo]. *)
Definition addressed_to (owner repo : string) (pull_number issue_number : Z)
    (ev : Event) : Prop :=
  match ev with
  | EvCreateReview args _ =>
      rv_owner args = owner /\ rv_repo args = repo /\ rv_pull_number args = pull_number
  | EvCreateComment args _ =>
      cm_owner args = owner /\ cm_repo args = repo /\ cm_issue_number args = issue_number
  | _ => True
  end.

(** The arguments [fetchCodeDiff] passes to [pulls.get]. *)
Definition diff_request (owner repo : string) (pull_number : Z) : PullsGetArgs :=
  mkPullsGetArgs owner repo pull_number [ ("Accept", "application/vnd.github.v3.diff") ].

(** The head of a warning of iteration [i] of the retry loop. *)
Definition try_failed (i : Z) : string :=
  "Try " ++ string_of_Z (i + 1) ++ " failed (Gemini/JSON-Parsing): ".

(** What the [try] block of an attempt that got [res] comes to: the error
    of the first step that throws, or the findings it returns. *)
Definition attempt_outcome (env : Env) (res : JsError + Response) : JsError + JValue :=
  match res with
  | inl e => inl e
  | inr response =>
      if negb (resp_ok response)
      then inl (Error ("API error: " ++ resp_statusText response))
      else
        and_then (resp_json response) (fun result =>
        if nullish result then inl (TypeError_read result "candidates")
        else
          match response_text res with
          | None => inl (Error "No text found in Gemini response")
          | Some text =>
              and_then (JSON_parse_value env text) (fun comments =>
              and_then (generated_message comments) (fun _ =>
              inr comments))
          end)
  end.

(** The warnings of the attempts that got [results], the first of them
    being iteration [i] of the loop: one for each that failed. *)
Fixpoint attempt_warnings (env : Env) (i : Z) (results : list (JsError + Response))
  : list string :=
  match results with
  | [] => []
  | res :: rest =>
      match attempt_outcome env res with
      | inl e => [try_failed i ++ err_message e]
      | inr _ => []
      end ++ attempt_warnings env (i + 1) rest
  end.

(* ===================================================================== *)
(** * The earlier, single-function script *)
(* ===================================================================== *)

(** The repository also holds the script the action started from: one
    [run] function with the whole pipeline inline and German texts.  It is
    embedded here with the same monad and the same surroundings. *)
Module Legacy.

(** [systemPrompt] *)
Definition systemPrompt : string :=
  unlines
    [ EmptyString;
      "            Du bist ein erfahrener Software-Architekt und führst ein Code-Review durch.";
      "            Deine Aufgabe ist es, den bereitgestellten Code-Diff zu analysieren.";
      "            Gebe dein Feedback NUR im folgenden JSON-Format zurück, wobei du Fehler, Sicherheitslücken und Verbesserungen direkt an der betroffenen Zeile kommentierst.";
      "            ";
      "            ***KRITISCHE ANWEISUNG FÜR ZEILENNUMMER***";
      "            Die 'line' MUSS die Zeilennummer in der ZIELDATEI (nach der Änderung) sein.";
      "            Die Zeile MUSS auf einer Zeile basieren, die im Diff mit einem PLUS-Zeichen (+) beginnt.";
      "            Ignoriere Zeilen, die gelöscht wurden (-) oder Kontextzeilen ( ).";
      "            Du musst die Zeilennummer aus der Hunk-Header-Information (z.B. '@@ -X,Y +A,B @@') ableiten, indem du die Startzeile (A) und die Anzahl der hinzugefügten Zeilen (B) nutzt.";
      "            ";
      "            Wenn es keine Kommentare gibt, antworte mit einer leeren JSON-Liste: [].";
      EmptyString;
      "            JSON-Schema:";
      "            [";
      "              {";
      "                " ++ dq ++ "path" ++ dq ++ ": " ++ dq ++ "string" ++ dq ++ ", // Der Dateipfad, z.B. " ++ dq ++ "src/server.js" ++ dq;
      "                " ++ dq ++ "line" ++ dq ++ ": " ++ dq ++ "number" ++ dq ++ ", // Die Zeilennummer in der NEUEN Datei (MUSS eine Zeile mit '+ ' sein).";
      "                " ++ dq ++ "comment" ++ dq ++ ": " ++ dq ++ "string" ++ dq ++ " // Der detaillierter Kommentar in deutscher Sprache.";
      "              }";
      "            ]";
      "        " ].

Definition REVIEW_HEADING : string := "## 🤖 KI Code Review von Gemini".

Definition NO_ISSUES_BODY : string :=
  unlines
    [ "## 🤖 KI Code Review von Gemini";
      EmptyString;
      "Keine kritischen Probleme gefunden. **Sieht gut aus!**" ].

(** The template literal [reviewSummary]. *)
Definition reviewSummary (githubComments : list GithubComment) : string :=
  unlines
    [ EmptyString;
      "            ## 🤖 KI Code Review von Gemini";
      "            ";
      "            Ich habe " ++ string_of_nat (List.length githubComments) ++ " spezifische Kommentare zu den Änderungen hinterlassen. Bitte überprüfen Sie die markierten Zeilen im " ++ dq ++ "Files changed" ++ dq ++ "-Tab.";
      "            ";
      "            ---";
      "            ";
      "            *Bitte beachten: Ich bin eine KI und meine Vorschläge sind nur Empfehlungen. Ein menschliches Review ist weiterhin unerlässlich!*";
      "        " ].

(** [`- **${c.path} (Zeile ${c.line}):** ${c.body}`] *)
Definition feedback_entry (c : GithubComment) : JsError + string :=
  and_then (ToString (gc_path c)) (fun path =>
  and_then (ToString (gc_line c)) (fun line =>
  and_then (ToString (gc_body c)) (fun body =>
  inr ("- **" ++ path ++ " (Zeile " ++ line ++ "):** " ++ body)))).

(** [githubComments.map(c => `...`)] *)
Fixpoint feedback_entries (githubComments : list GithubComment)
  : JsError + list string :=
  match githubComments with
  | [] => inr []
  | c :: rest =>
      and_then (feedback_entry c) (fun entry =>
      and_then (feedback_entries rest) (fun entries =>
      inr (entry :: entries)))
  end.

(** The text of the template literal [fallbackBody] once its entries are
    there. *)
Definition fallback_text (summary : string) (entries : list string) : string :=
  unlines
    [ EmptyString;
      "                    ## ⚠️ KI Review mit Fehler (Fallback)";
      "                    ";
      "                    **Der Versuch, zeilenspezifische Kommentare zu setzen, ist aufgrund ungültiger Zeilennummern (422 Fehler) fehlgeschlagen.**";
      "                    ";
      "                    Hier ist das generierte Feedback als Gesamtkommentar:";
      "                    ";
      "                    ---";
      "                    ";
      "                    **Zusammenfassung:** " ++ replace_first REVIEW_HEADING EmptyString summary ++ " ";
      "                    ";
      "                    **Details zum Feedback:**";
      "                    " ++ String.concat nl entries;
      "                " ].

(** The template literal [fallbackBody]: it throws when an entry does. *)
Definition fallbackBody (summary : string) (githubComments : list GithubComment)
  : JsError + string :=
  and_then (feedback_entries githubComments) (fun entries =>
  inr (fallback_text summary entries)).

(** The fixed part of the error after the last try. *)
Definition EXHAUSTED_PREFIX : string :=
  "Gemini API-Aufruf oder JSON-Parsing nach mehreren Versuchen fehlgeschlagen. Letzte rohe Antwort: ".

(** The API key is a query parameter of the URL. *)
Definition apiUrl (model apiKey : string) : string :=
  "https://generativelanguage.googleapis.com/v1beta/models/" ++ model
  ++ ":generateContent?key=" ++ apiKey.

Definition userQuery (codeDiff : string) : string :=
  "Bitte analysiere den folgenden Code-Diff und generiere die Kommentare als JSON:"
  ++ nl ++ nl ++ codeDiff.

Definition payload (codeDiff : string) : JValue :=
  JObj
    [ ("contents",
        JArr [ JObj [ ("parts", JArr [ JObj [ ("text", JStr (userQuery codeDiff)) ] ]) ] ]);
      ("systemInstruction",
        JObj [ ("parts", JArr [ JObj [ ("text", JStr systemPrompt) ] ]) ]);
      ("generationConfig",
        JObj [ ("responseMimeType", JStr "application/json");
               ("responseSchema", responseSchema) ]) ].

Section Script.

Variable env : Env.

(** The request of one attempt. *)
Definition request (apiKey model codeDiff : string) : Request :=
  mkRequest (apiUrl model apiKey) "POST"
    [ ("Content-Type", "application/json") ]
    (JSON_stringify env (payload codeDiff)).

(** The body of the [try] block of the loop; [Some v] is the assignment of
    [v] to [aiReviewComments] followed by [break]. *)
Definition gemini_try (apiKey model codeDiff : string) : M (option JValue) :=
  response <- await_fetch env (request apiKey model codeDiff) ;;
  (if negb (resp_ok response)
   then throw (Error ("API Fehler: " ++ resp_statusText response))
   else ret tt) ;;;
  result <- lift (resp_json response) ;;
  candidates <- member result "candidates" ;;
  let candidate := opt_index0 candidates in
  if truthy candidate
     && truthy (opt_prop (opt_index0 (opt_prop (prop candidate "content") "parts")) "text")
  then
    content <- member candidate "content" ;;
    parts <- member content "parts" ;;
    part <- member0 parts ;;
    text <- member part "text" ;;
    set_rawJsonText text ;;;
    raw <- get_rawJsonText ;;
    aiReviewComments <- lift (JSON_parse_value env raw) ;;
    ret (Some aiReviewComments)
  else
    throw (Error "Kein Text in der Gemini-Antwort gefunden.").

(** The [catch] block of iteration [i]; [None] lets the loop go on. *)
Definition gemini_catch (i : Z) (error : JsError) : M (option JValue) :=
  core_warning ("Versuch " ++ string_of_Z (i + 1)
                ++ " fehlgeschlagen (Gemini/JSON-Parsing): " ++ err_message error) ;;;
  (if (i =? 2)%Z
   then
     raw <- get_rawJsonText ;;
     shown <- lift (ToString raw) ;;
     throw (Error (EXHAUSTED_PREFIX ++ shown))
   else ret tt) ;;;
  await_timeout (2000 * (i + 1)) ;;;
  ret None.

(** [for (let i = ...; i < 3; i++) { body }], yielding the value of
    [aiReviewComments] when the loop is left. *)
Fixpoint for_i_lt_3 (fuel : nat) (i : Z) (body : Z -> M (option JValue))
    (aiReviewComments : JValue) : M JValue :=
  match fuel with
  | O => ret aiReviewComments
  | S fuel' =>
      if (i <? 3)%Z then
        r <- body i ;;
        match r with
        | Some v => ret v
        | None => for_i_lt_3 fuel' (i + 1) body aiReviewComments
        end
      else ret aiReviewComments
  end.

(** Steps 4 and 5 of the script: format the comments and post them. *)
Definition post (octokit : Octokit) (owner repo : string) (issueNumber : Z)
    (aiReviewComments : JValue) : M unit :=
  githubComments <- array_map "aiReviewComments" aiReviewComments to_githubComment ;;
  if (List.length githubComments =? 0)%nat then
    octokit_issues_createComment octokit
      (mkCommentArgs owner repo issueNumber NO_ISSUES_BODY) ;;;
    core_info "Keine Kommentare, positiver Gesamtkommentar gepostet." ;;;
    ret tt
  else
    let summary := reviewSummary githubComments in
    try_catch
      (octokit_pulls_createReview octokit
         (mkReviewArgs owner repo issueNumber "COMMENT" summary githubComments) ;;;
       core_info "Review mit zeilenspezifischen Kommentaren erfolgreich gepostet.")
      (fun error =>
         if status_is_422 error then
           core_warning "FEHLER: Die GitHub API lehnte den Review ab (422 Unprocessable Entity). Dies deutet darauf hin, dass die KI ungültige Zeilennummern generiert hat." ;;;
           body <- lift (fallbackBody summary githubComments) ;;
           octokit_issues_createComment octokit
             (mkCommentArgs owner repo issueNumber body) ;;;
           core_warning "Als Gesamtkommentar gepostet. Die Action wird fortgesetzt."
         else throw error).

(** Steps 2 and 3 of the script and what follows them, for a diff that is
    significant. *)
Definition review (octokit : Octokit) (apiKey model owner repo : string)
    (issueNumber : Z) (codeDiff : string) : M unit :=
  core_info "Sende strukturierte JSON-Anfrage an Gemini API." ;;;
  set_rawJsonText (JStr EmptyString) ;;;
  aiReviewComments <-
    for_i_lt_3 3 0
      (fun i => try_catch (gemini_try apiKey model codeDiff) (gemini_catch i))
      (JArr []) ;;
  len <- member aiReviewComments "length" ;;
  shown <- lift (ToString len) ;;
  core_info ("Gemini hat " ++ shown ++ " Kommentare generiert.") ;;;
  post octokit owner repo issueNumber aiReviewComments.

Definition run : M unit :=
  try_catch
    (let apiKey := getInput env "gemini-api-key" in
     let githubToken := getInput env "github-token" in
     let model := getInput env "model" in
     let owner := context_owner env in
     let repo := context_repo env in
     let issueNumber := context_issue_number env in
     if negb (context_eventName env =? "pull_request") then
       core_setFailed "Diese Action ist nur für Pull Request Events vorgesehen."
     else
       octokit <- lift (getOctokit env githubToken) ;;
       codeDiff <- octokit_pulls_get octokit
                     (mkPullsGetArgs owner repo issueNumber
                        [ ("Accept", "application/vnd.github.v3.diff") ]) ;;
       if falsy_text codeDiff || (text_length codeDiff <? 10)%nat then
         core_info "Kein signifikanter Code-Diff gefunden. Überspringe die Überprüfung."
       else
         core_info ("Code-Diff erfolgreich abgerufen. Größe: "
                    ++ string_of_nat (text_length codeDiff) ++ " Bytes.") ;;;
         review octokit apiKey model owner repo issueNumber (text_of codeDiff))
    (fun error => core_setFailed (err_message error)).

End Script.

(** The value with which an attempt that got [res] leaves the loop: the
    text was extracted, it could be converted and it parsed, to whatever
    value. *)
Definition attempt_findings (env : Env) (res : JsError + Response) : option JValue :=
  match response_text res with
  | None => None
  | Some text =>
      match JSON_parse_value env text with
      | inl _ => None
      | inr comments => Some comments
      end
  end.

(** The error with which the loop ends after a third failed attempt. *)
Definition exhaustion_error (raw : JValue) : JsError :=
  match ToString raw with
  | inl e => e
  | inr shown => Error (EXHAUSTED_PREFIX ++ shown)
  end.

End Legacy.

(* ===================================================================== *)
(** * Further example surroundings *)
(* ===================================================================== *)

Module Cases.

(** The workflow was triggered by a push. *)
Definition push_env : Env :=
  mkEnv Demo.inputs "octo" "demo" 7 "push" (fun _ => inr Demo.accepting)
    (Demo.scripted_fetch Demo.flaky_script) Demo.parse Demo.encode.

Definition bad_token : JsError :=
  Error "A token is required".

(** [github.getOctokit] throws. *)
Definition no_client_env : Env :=
  mkEnv Demo.inputs "octo" "demo" 7 "pull_request" (fun _ => inl bad_token)
    (Demo.scripted_fetch Demo.flaky_script) Demo.parse Demo.encode.

Definition not_found : JsError := mkError "HttpError" "Not Found" (JNum 404).

(** A GitHub client whose diff request is rejected. *)
Definition offline : Octokit :=
  mkOctokit (fun _ _ => inl not_found) (fun _ _ => None) (fun _ _ => None).

Definition offline_env : Env := Demo.env Demo.flaky_script offline.

Definition finding : JValue :=
  JObj [ ("path", JStr "a.py"); ("line", JNum 42); ("comment", JStr "Unused import.") ].

(** The model answers an empty list of findings at once. *)
Definition clean_env : Env := Demo.env [ inr (Demo.text_response "[]") ] Demo.accepting.

(** The model is unavailable at the first call and has no candidates at
    the second. *)
Definition failing_env : Env :=
  Demo.env [ inr Demo.unavailable; inr Demo.no_candidates ] Demo.accepting.

End Cases.

(** In the statements below [++] joins lists unless marked otherwise. *)
Local Open Scope list_scope.

(* ===================================================================== *)
(** * Facts about texts *)
(* ===================================================================== *)

Lemma append_empty_r (s : string) : (s ++ EmptyString)%string = s.
Proof. induction s as [| c s IH]; cbn; [reflexivity | rewrite IH; reflexivity]. Qed.

Lemma append_assoc (s t u : string) :
  ((s ++ t) ++ u)%string = (s ++ (t ++ u))%string.
Proof. induction s as [| c s IH]; cbn; [reflexivity | rewrite IH; reflexivity]. Qed.

Lemma contains_refl (s : string) : contains s s.
Proof. exists EmptyString, EmptyString. cbn. rewrite append_empty_r. reflexivity. Qed.

Lemma contains_suffix (pre s : string) : contains (pre ++ s)%string s.
Proof. exists pre, EmptyString. rewrite append_empty_r. reflexivity. Qed.

Lemma contains_app_l (s t sub : string) : contains s sub -> contains (s ++ t)%string sub.
Proof.
  intros (pre & post & ->). exists pre, (post ++ t)%string.
  rewrite !append_assoc. reflexivity.
Qed.

Lemma contains_app_r (s t sub : string) : contains t sub -> contains (s ++ t)%string sub.
Proof.
  intros (pre & post & ->). exists (s ++ pre)%string, post.
  rewrite !append_assoc. reflexivity.
Qed.

Lemma contains_trans (s t u : string) : contains s t -> contains t u -> contains s u.
Proof.
  intros (pre & post & ->) (pre' & post' & ->).
  exists (pre ++ pre')%string, (post' ++ post)%string.
  rewrite !append_assoc. reflexivity.
Qed.

(** [join] keeps every element. *)
Lemma contains_concat (sep : string) (l : list string) (x : string) :
  In x l -> contains (String.concat sep l) x.
Proof.
  induction l as [| y [| z tl] IH]; intros Hin.
  - destruct Hin.
  - destruct Hin as [<- | []]. apply contains_refl.
  - change (String.concat sep (y :: z :: tl))
      with (y ++ sep ++ String.concat sep (z :: tl))%string.
    destruct Hin as [<- | Hin].
    + apply contains_app_l, contains_refl.
    + apply contains_app_r, contains_app_r, IH, Hin.
Qed.

Lemma substring_all (s : string) : substring 0 (String.length s) s = s.
Proof. induction s as [| c s IH]; cbn; [reflexivity | rewrite IH; reflexivity]. Qed.

(** A text is its part before [m], the [k] bytes from [m], and the
    rest. *)
Lemma substring_split (s : string) (m k : nat) :
  s = (substring 0 m s ++ substring m k s
       ++ substring (m + k) (String.length s - (m + k)) s)%string.
Proof.
  revert m k. induction s as [| c s IH]; intros m k.
  - destruct m, k; reflexivity.
  - destruct m as [| m].
    + destruct k as [| k]; cbn.
      * rewrite substring_all. reflexivity.
      * f_equal. pose proof (IH 0%nat k) as H.
        replace (substring 0 0 s) with EmptyString in H by (destruct s; reflexivity).
        exact H.
    + cbn. f_equal. exact (IH m k).
Qed.

(** [replace] with a text pattern cuts the first occurrence out of the
    text and puts the replacement there. *)
Lemma replace_first_spec (pat repl s : string) (n : nat) :
  index 0 pat s = Some n ->
  exists pre post,
    s = (pre ++ pat ++ post)%string /\
    replace_first pat repl s = (pre ++ repl ++ post)%string.
Proof.
  intros Hidx. unfold replace_first. rewrite Hidx.
  exists (substring 0 n s),
         (substring (n + String.length pat) (String.length s - (n + String.length pat)) s).
  split; [| reflexivity].
  pose proof (substring_split s n (String.length pat)) as Hsplit.
  rewrite (index_correct1 _ _ _ _ Hidx) in Hsplit. exact Hsplit.
Qed.

(** What [index] finds occurs in the text, and what it does not find does
    not. *)
Lemma index_contains (sub s : string) (n : nat) :
  index 0 sub s = Some n -> contains s sub.
Proof.
  intros Hidx.
  exists (substring 0 n s),
         (substring (n + String.length sub) (String.length s - (n + String.length sub)) s).
  pose proof (substring_split s n (String.length sub)) as Hsplit.
  rewrite (index_correct1 _ _ _ _ Hidx) in Hsplit. exact Hsplit.
Qed.

Lemma substring_middle (pre sub post : string) :
  substring (String.length pre) (String.length sub) (pre ++ sub ++ post)%string = sub.
Proof.
  induction pre as [| c pre IH]; [| exact IH].
  cbn. induction sub as [| c sub IH]; cbn.
  - destruct post; reflexivity.
  - rewrite IH. reflexivity.
Qed.

Lemma index_none_not_contains (sub s : string) :
  index 0 sub s = None -> sub <> EmptyString -> ~ contains s sub.
Proof.
  intros Hidx Hne (pre & post & ->).
  apply (index_correct3 0 (String.length pre) sub _ Hidx Hne); [lia |].
  apply substring_middle.
Qed.

(** The heading is in the summary, five bytes in. *)
Lemma reviewSummary_heading (githubComments : list GithubComment) :
  index 0 REVIEW_HEADING (reviewSummary githubComments) = Some 5%nat.
Proof. reflexivity. Qed.

Lemma In_unlines (lines : list string) (line : string) :
  In line lines -> contains (unlines lines) line.
Proof. apply contains_concat. Qed.

(** Induction on values, with the elements of an array at hand. *)
Lemma JValue_elems_ind (P : JValue -> Prop) :
  P JUndefined -> P JNull -> (forall b, P (JBool b)) -> (forall n, P (JNum n)) ->
  (forall shown, P (JReal shown)) -> (forall s, P (JStr s)) ->
  (forall elems, Forall P elems -> P (JArr elems)) ->
  (forall fields, P (JObj fields)) ->
  forall v, P v.
Proof.
  intros Hu Hn Hb Hz Hr Hs Ha Ho. fix IH 1.
  intros [| | b | n | shown | s | elems | fields];
    [exact Hu | exact Hn | apply Hb | apply Hz | apply Hr | apply Hs | | apply Ho].
  apply Ha. induction elems as [| x tl IHtl]; constructor; [apply IH | exact IHtl].
Qed.

(** A conversion to text fails in one way only. *)
Lemma ToString_error (v : JValue) (e : JsError) :
  ToString v = inl e -> e = TypeError_primitive.
Proof.
  revert e. induction v as [| | b | n | shown | s | elems IH | fields]
    using JValue_elems_ind; intros e; cbn.
  1-6: try destruct b; discriminate.
  - induction IH as [| x tl Hx _ IHtl]; [discriminate |].
    cbn [join].
    assert (Hhead : forall e',
               match x with
               | JUndefined | JNull => inr EmptyString
               | _ => ToString x
               end = inl e' -> e' = TypeError_primitive).
    { intros e'. destruct x; try discriminate; apply Hx. }
    destruct (match x with
              | JUndefined | JNull => inr EmptyString
              | _ => ToString x
              end) as [e1 | s1]; cbn [and_then].
    + intros [= <-]. apply Hhead. reflexivity.
    + destruct tl as [| y tl']; [discriminate |].
      destruct (join ToString (y :: tl')) as [e2 | s2]; cbn [and_then]; [| discriminate].
      intros [= <-]. apply IHtl. reflexivity.
  - destruct (has_own "toString" fields); [intros [= <-]; reflexivity | discriminate].
Qed.

(** The entries are those of the comments, one each and in order. *)
Lemma feedback_entries_spec (githubComments : list GithubComment) (entries : list string) :
  feedback_entries githubComments = inr entries ->
  Forall2 (fun c entry => feedback_entry c = inr entry) githubComments entries.
Proof.
  revert entries. induction githubComments as [| c rest IH]; intros entries; cbn.
  - intros [= <-]. constructor.
  - destruct (feedback_entry c) as [e | entry] eqn:Hc; cbn; [discriminate |].
    destruct (feedback_entries rest) as [e | tl]; cbn; [discriminate |].
    intros [= <-]. constructor; [exact Hc | apply IH; reflexivity].
Qed.

(** The fallback comment holds the summary without its heading and one
    line per inline comment. *)
Lemma fallbackBody_contents (githubComments : list GithubComment) (body : string) :
  let summary := reviewSummary githubComments in
  fallbackBody summary githubComments = inr body ->
  (exists pre post,
      summary = (pre ++ REVIEW_HEADING ++ post)%string /\
      contains body (pre ++ post)%string) /\
  (forall c, In c githubComments ->
     exists entry, feedback_entry c = inr entry /\ contains body entry).
Proof.
  intros summary. unfold fallbackBody.
  destruct (feedback_entries githubComments) as [e | entries] eqn:Hentries;
    cbn [and_then]; [discriminate |].
  intros [= <-]. split.
  - destruct (replace_first_spec REVIEW_HEADING EmptyString summary 5
                (reviewSummary_heading githubComments)) as (pre & post & Hs & Hr).
    exists pre, post. split; [exact Hs |].
    change (pre ++ EmptyString ++ post)%string with (pre ++ post)%string in Hr.
    rewrite <- Hr. unfold fallback_text.
    eapply contains_trans.
    + apply In_unlines. do 9 right. left. reflexivity.
    + apply contains_app_r, contains_app_l, contains_refl.
  - intros c Hc.
    apply feedback_entries_spec in Hentries.
    assert (Hhas : exists entry, In entry entries /\ feedback_entry c = inr entry).
    { induction Hentries as [| c' entry' cs es Hhead _ IH]; [destruct Hc |].
      destruct Hc as [<- | Hc].
      - exists entry'. split; [left; reflexivity | exact Hhead].
      - destruct (IH Hc) as (entry & Hin & Hentry).
        exists entry. split; [right; exact Hin | exact Hentry]. }
    destruct Hhas as (entry & Hin & Hentry).
    exists entry. split; [exact Hentry |].
    unfold fallback_text.
    eapply contains_trans.
    + apply In_unlines. do 12 right. left. reflexivity.
    + apply contains_app_r, contains_concat, Hin.
Qed.

(* ===================================================================== *)
(** * Facts about the program *)
(* ===================================================================== *)

(** From here on texts stay folded under [cbn]. *)
Local Arguments String.append : simpl never.
Local Arguments ToString : simpl never.
Local Arguments Nat.ltb : simpl never.
Local Arguments reviewSummary : simpl never.
Local Arguments fallbackBody : simpl never.
Local Arguments NO_ISSUES_BODY : simpl never.
Local Arguments gemini_request : simpl never.

Lemma truthy_not_nullish (v : JValue) : truthy v = true -> nullish v = false.
Proof. destruct v; simpl; congruence. Qed.

Lemma opt_prop_not_nullish (v : JValue) (k : string) :
  nullish (opt_prop v k) = false -> nullish v = false.
Proof. unfold opt_prop. destruct (nullish v); simpl; congruence. Qed.

Lemma opt_index0_not_nullish (v : JValue) :
  nullish (opt_index0 v) = false -> nullish v = false.
Proof. unfold opt_index0. destruct (nullish v); simpl; congruence. Qed.

Lemma opt_prop_defined (v : JValue) (k : string) :
  nullish v = false -> opt_prop v k = prop v k.
Proof. unfold opt_prop. intros ->. reflexivity. Qed.

Lemma opt_index0_defined (v : JValue) :
  nullish v = false -> opt_index0 v = index0 v.
Proof. unfold opt_index0. intros ->. reflexivity. Qed.

Lemma gemini_try_spec (env : Env) (apiKey model codeDiff : string)
    (h : Trace) (raw : JValue) :
  let req := gemini_request env apiKey model codeDiff in
  let res := fetch env h req in
  exists e info,
    gemini_try env apiKey model codeDiff h raw =
    match response_text res with
    | None => mkOutcome [EvFetch req res] raw (inl e)
    | Some text =>
        match attempt_findings env res with
        | Some v => mkOutcome [EvFetch req res; EvInfo info] text (inr (Some v))
        | None => mkOutcome [EvFetch req res] text (inl e)
        end
    end.
Proof.
  intros req res. subst res.
  unfold attempt_findings, gemini_try, bind, await_fetch.
  fold req. clearbody req.
  generalize (fetch env h req) as res. intros res.
  unfold response_text.
  destruct res as [e | response]; cbn.
  { exists e, EmptyString; reflexivity. }
  destruct (resp_ok response); cbn.
  2:{ eexists _, EmptyString; reflexivity. }
  destruct (resp_json response) as [e | result]; cbn.
  { exists e, EmptyString; reflexivity. }
  unfold member at 1. destruct (nullish result) eqn:Hres; cbn.
  { eexists _, EmptyString; reflexivity. }
  set (candidate := opt_index0 (prop result "candidates")).
  set (text := opt_prop (opt_index0 (opt_prop (prop candidate "content") "parts")) "text").
  destruct (truthy candidate && truthy text) eqn:Hcond; cbn.
  2:{ eexists _, EmptyString; reflexivity. }
  apply andb_prop in Hcond. destruct Hcond as [Hc Ht].
  pose proof (truthy_not_nullish _ Hc) as Hc'.
  pose proof (truthy_not_nullish _ Ht) as Ht'.
  pose proof (opt_prop_not_nullish _ _ Ht') as Hpart.
  pose proof (opt_index0_not_nullish _ Hpart) as Hparts.
  pose proof (opt_prop_not_nullish _ _ Hparts) as Hcontent.
  unfold member, member0.
  rewrite Hc'. cbn. rewrite Hcontent. cbn.
  rewrite <- (opt_prop_defined _ "parts" Hcontent). rewrite Hparts. cbn.
  rewrite <- (opt_index0_defined _ Hparts). rewrite Hpart. cbn.
  rewrite <- (opt_prop_defined _ "text" Hpart). fold text.
  destruct (JSON_parse_value env text) as [e | comments]; cbn.
  { exists e, EmptyString; reflexivity. }
  unfold generated_message. destruct (nullish comments); cbn.
  { eexists _, EmptyString; reflexivity. }
  destruct (ToString (prop comments "length")) as [e | shown]; cbn.
  { exists e, EmptyString; reflexivity. }
  exists (Error EmptyString). eexists. reflexivity.
Qed.

Lemma no_text_no_findings (env : Env) (res : JsError + Response) :
  response_text res = None -> attempt_findings env res = None.
Proof. unfold attempt_findings. intros ->. reflexivity. Qed.

Local Arguments gemini_try : simpl never.

Lemma last_raw_cons (raw : JValue) (res : JsError + Response)
    (rest : list (JsError + Response)) :
  last_raw raw (res :: rest) = last_raw (raw_next raw res) rest.
Proof. reflexivity. Qed.

(** One iteration of the loop: the [try] block and its [catch]. *)
Lemma iteration_spec (env : Env) (apiKey model codeDiff : string) (i : Z)
    (h : Trace) (raw : JValue) :
  let req := gemini_request env apiKey model codeDiff in
  let res := fetch env h req in
  exists info warning,
    try_catch (gemini_try env apiKey model codeDiff) (gemini_catch i) h raw =
    match attempt_findings env res with
    | Some v =>
        mkOutcome [EvFetch req res; EvInfo info] (raw_next raw res) (inr (Some v))
    | None =>
        if (i =? 2)%Z
        then mkOutcome [EvFetch req res; EvWarning warning] (raw_next raw res)
               (inl (exhaustion_error (raw_next raw res)))
        else mkOutcome [EvFetch req res; EvWarning warning; EvSleep (2000 * (i + 1))]
               (raw_next raw res) (inr None)
    end.
Proof.
  intros req res. unfold try_catch, raw_next.
  destruct (gemini_try_spec env apiKey model codeDiff h raw) as (err & info & He).
  cbv zeta in He. fold req in He. fold res in He.
  exists info.
  exists ("Try " ++ string_of_Z (i + 1) ++ " failed (Gemini/JSON-Parsing): "
          ++ err_message err)%string.
  rewrite He. clear He.
  destruct (response_text res) as [text |] eqn:Htext.
  - destruct (attempt_findings env res) as [v |].
    + reflexivity.
    + unfold gemini_catch, bind, core_warning, emit, await_timeout, get_rawJsonText,
        exhaustion_error.
      destruct (i =? 2)%Z; [| reflexivity].
      cbn. destruct (ToString text); reflexivity.
  - rewrite (no_text_no_findings env res Htext).
    unfold gemini_catch, bind, core_warning, emit, await_timeout, get_rawJsonText,
      exhaustion_error.
    destruct (i =? 2)%Z; [| reflexivity].
    cbn. destruct (ToString raw); reflexivity.
Qed.

Ltac iteration :=
  match goal with
  | |- context [try_catch (gemini_try ?e ?k ?m ?d) (gemini_catch ?i) ?h ?r] =>
      let info := fresh "info" in
      let warning := fresh "warning" in
      let Hi := fresh "Hi" in
      let res := fresh "res" in
      let Hf := fresh "Hfind" in
      destruct (iteration_spec e k m d i h r) as (info & warning & Hi);
      cbv zeta in Hi; rewrite Hi; clear Hi;
      generalize (fetch e h (gemini_request e k m d)); intros res;
      destruct (attempt_findings e res) eqn:Hf; cbn
  end.

Lemma getGeminiReview_cases (env : Env) (apiKey model codeDiff : string)
    (h : Trace) (raw : JValue) :
  let o := getGeminiReview env apiKey model codeDiff h raw in
  let rs := fetch_results (emitted o) in
  raw_after o = last_raw (JStr EmptyString) rs /\
  Forall (model_call_event (gemini_request env apiKey model codeDiff)) (emitted o) /\
  ((exists a v,
       rs = [a] /\ attempt_findings env a = Some v /\ result o = inr v /\
       ticks (emitted o) = [Attempt])
   \/ (exists a b v,
       rs = [a; b] /\ attempt_findings env a = None /\
       attempt_findings env b = Some v /\ result o = inr v /\
       ticks (emitted o) = [Attempt; Wait 2000; Attempt])
   \/ (exists a b c v,
       rs = [a; b; c] /\ attempt_findings env a = None /\
       attempt_findings env b = None /\
       attempt_findings env c = Some v /\ result o = inr v /\
       ticks (emitted o) = [Attempt; Wait 2000; Attempt; Wait 4000; Attempt])
   \/ (exists a b c,
       rs = [a; b; c] /\ attempt_findings env a = None /\
       attempt_findings env b = None /\
       attempt_findings env c = None /\
       result o = inl (exhaustion_error (raw_after o)) /\
       ticks (emitted o) = [Attempt; Wait 2000; Attempt; Wait 4000; Attempt])).
Proof.
  unfold getGeminiReview, for_i_lt_3.
  unfold bind, core_info, emit, set_rawJsonText. cbn.
  repeat iteration.
  all: (split; [ rewrite ?last_raw_cons; reflexivity | ]).
  all: (split; [ repeat constructor | ]).
  all: first
         [ left; do 2 eexists; repeat split; solve [ eassumption | reflexivity ]
         | right; left; do 3 eexists; repeat split; solve [ eassumption | reflexivity ]
         | right; right; left; do 4 eexists; repeat split; solve [ eassumption | reflexivity ]
         | right; right; right; do 3 eexists; repeat split; solve [ eassumption | reflexivity ] ].
Qed.

Lemma to_githubComment_spec (c : JValue) (h : Trace) (raw : JValue) :
  to_githubComment c h raw =
  if nullish c
  then mkOutcome [] raw (inl (TypeError_read c "path"))
  else mkOutcome [] raw (inr (github_comment_of c)).
Proof.
  unfold to_githubComment, bind, member. destruct (nullish c); reflexivity.
Qed.

Lemma mapM_to_githubComment (elems : list JValue) (h : Trace) (raw : JValue) :
  exists e,
    mapM to_githubComment elems h raw =
    if no_nullish elems
    then mkOutcome [] raw (inr (map github_comment_of elems))
    else mkOutcome [] raw (inl e).
Proof.
  revert h. induction elems as [| c tl IH]; intros h.
  - exists (Error EmptyString). reflexivity.
  - cbn [mapM no_nullish forallb map]. unfold bind.
    rewrite to_githubComment_spec.
    destruct (nullish c) eqn:Hc; cbn [negb andb].
    + eexists; reflexivity.
    + fold (no_nullish tl).
      destruct (IH (h ++ [])%list) as [e He]. rewrite He.
      destruct (no_nullish tl); exists e; reflexivity.
Qed.

Lemma fetchCodeDiff_cases (octokit : Octokit) (owner repo : string) (n : Z)
    (h : Trace) (raw : JValue) :
  let args := mkPullsGetArgs owner repo n [("Accept", "application/vnd.github.v3.diff")] in
  let o := fetchCodeDiff octokit owner repo n h raw in
  raw_after o = raw /\
  exists res msg,
    emitted o = EvInfo "Fetching diffs from GitHub..." :: EvPullsGet args res ::
                match res with inl _ => [] | inr _ => [EvInfo msg] end /\
    result o =
      match res with
      | inl e => inl e
      | inr data => if falsy_text data || (text_length data <? 10)%nat
                    then inr None else inr data
      end.
Proof.
  intros args. unfold fetchCodeDiff, bind, octokit_pulls_get, core_info, emit. cbn.
  fold args.
  destruct (pulls_get octokit _ args) as [e | data] eqn:Hres.
  - split; [reflexivity|]. exists (inl e), EmptyString. split; reflexivity.
  - destruct (falsy_text data || (text_length data <? 10)%nat) eqn:Hc; cbn.
    + split; [reflexivity|]. eexists (inr data), _. rewrite Hc. split; reflexivity.
    + split; [reflexivity|]. eexists (inr data), _. rewrite Hc. split; reflexivity.
Qed.

Lemma postReviewComments_not_array (octokit : Octokit) (owner repo : string)
    (pn inum : Z) (v : JValue) (h : Trace) (raw : JValue) :
  is_array v = false ->
  exists e,
    postReviewComments octokit owner repo pn inum v h raw = mkOutcome [] raw (inl e)
    /\ err_name e = "TypeError".
Proof.
  intros Hv. unfold postReviewComments, bind, array_map.
  destruct v; try discriminate; cbn; eexists; split; reflexivity.
Qed.

Lemma postReviewComments_nullish_element (octokit : Octokit) (owner repo : string)
    (pn inum : Z) (elems : list JValue) (h : Trace) (raw : JValue) :
  no_nullish elems = false ->
  exists e,
    postReviewComments octokit owner repo pn inum (JArr elems) h raw
    = mkOutcome [] raw (inl e).
Proof.
  intros Hn. unfold postReviewComments, bind, array_map.
  destruct (mapM_to_githubComment elems h raw) as [e He]. rewrite He, Hn.
  exists e. reflexivity.
Qed.

Lemma postReviewComments_empty (octokit : Octokit) (owner repo : string)
    (pn inum : Z) (h : Trace) (raw : JValue) :
  let o := postReviewComments octokit owner repo pn inum (JArr []) h raw in
  let args := mkCommentArgs owner repo inum NO_ISSUES_BODY in
  exists res,
    emitted o = EvCreateComment args res ::
                match res with
                | None => [EvInfo "No comments generated; posted a positive summary comment."]
                | Some _ => []
                end
    /\ result o = settled res /\ raw_after o = raw.
Proof.
  unfold postReviewComments, bind, array_map, octokit_issues_createComment. cbn.
  destruct (issues_createComment octokit _ _) as [e |]; cbn.
  - exists (Some e). repeat split.
  - exists None. repeat split.
Qed.

Lemma postReviewComments_findings (octokit : Octokit) (owner repo : string)
    (pn inum : Z) (elems : list JValue) (h : Trace) (raw : JValue) :
  elems <> [] -> no_nullish elems = true ->
  let o := postReviewComments octokit owner repo pn inum (JArr elems) h raw in
  let comments := map github_comment_of elems in
  let summary := reviewSummary comments in
  let review := mkReviewArgs owner repo pn "COMMENT" summary comments in
  raw_after o = raw /\
  exists res,
    match res with
    | None =>
        emitted o = [EvCreateReview review None;
                     EvInfo "Review with line-specific comments successfully posted."]
        /\ result o = inr tt
    | Some e =>
        if status_is_422 e then
          match fallbackBody summary comments with
          | inr body =>
              exists res' w,
                emitted o = EvCreateReview review (Some e) :: EvWarning w ::
                            EvCreateComment (mkCommentArgs owner repo inum body) res' ::
                            match res' with
                            | None =>
                                [EvWarning "Posted as a general comment. Action continues."]
                            | Some _ => []
                            end
                /\ result o = settled res'
          | inl err =>
              exists w,
                emitted o = [EvCreateReview review (Some e); EvWarning w]
                /\ result o = inl err
          end
        else
          emitted o = [EvCreateReview review (Some e)] /\ result o = inl e
    end.
Proof.
  intros Hne Hn. unfold postReviewComments, bind, array_map.
  destruct (mapM_to_githubComment elems h raw) as [e0 He]. rewrite He, Hn. clear He e0.
  destruct elems as [| c tl]; [congruence |].
  cbn [List.length map Nat.eqb].
  set (comments := github_comment_of c :: map github_comment_of tl).
  unfold try_catch, bind, octokit_pulls_createReview, octokit_issues_createComment,
    core_info, core_warning, emit. cbn.
  destruct (pulls_createReview octokit _ _) as [e |]; cbn.
  - destruct (status_is_422 e) eqn:H422; cbn.
    + destruct (fallbackBody (reviewSummary comments) comments) as [err | body] eqn:Hb; cbn.
      { split; [reflexivity|]. exists (Some e). rewrite H422.
        eexists. split; reflexivity. }
      destruct (issues_createComment octokit _ _) as [e' |]; cbn.
      * split; [reflexivity|]. exists (Some e). rewrite H422.
        exists (Some e'). eexists. split; reflexivity.
      * split; [reflexivity|]. exists (Some e). rewrite H422.
        exists None. eexists. split; reflexivity.
    + split; [reflexivity|]. exists (Some e). rewrite H422. split; reflexivity.
  - split; [reflexivity|]. exists None. split; reflexivity.
Qed.

(** Whatever the findings value, [postReviewComments] only logs and posts,
    leaves [rawJsonText] alone, and returns only after exactly one posting
    call went through. *)
Lemma postReviewComments_shape (octokit : Octokit) (owner repo : string)
    (pn inum : Z) (v : JValue) (h : Trace) (raw : JValue) :
  let o := postReviewComments octokit owner repo pn inum v h raw in
  raw_after o = raw /\
  Forall posting_event (emitted o) /\
  (forall u, result o = inr u -> List.length (resolved_posts (emitted o)) = 1%nat).
Proof.
  destruct (is_array v) eqn:Harr.
  2:{ destruct (postReviewComments_not_array octokit owner repo pn inum v h raw Harr)
        as (e & He & _).
      cbv zeta. rewrite He. cbn. repeat split; [constructor | discriminate]. }
  destruct v as [| | | | | | elems |]; try discriminate.
  destruct (no_nullish elems) eqn:Hn.
  2:{ destruct (postReviewComments_nullish_element octokit owner repo pn inum elems h raw Hn)
        as (e & He).
      cbv zeta. rewrite He. cbn. repeat split; [constructor | discriminate]. }
  destruct elems as [| c tl].
  - destruct (postReviewComments_empty octokit owner repo pn inum h raw)
      as (res & Hev & Hres & Hraw).
    cbv zeta in *. rewrite Hev, Hres, Hraw.
    destruct res; cbn; repeat split; repeat constructor; discriminate.
  - assert (Hne : c :: tl <> []) by discriminate.
    destruct (postReviewComments_findings octokit owner repo pn inum (c :: tl) h raw Hne Hn)
      as (Hraw & res & Hcase).
    cbv zeta in *. rewrite Hraw. split; [reflexivity |].
    destruct res as [e |].
    + destruct (status_is_422 e).
      * destruct (fallbackBody _ _) as [err | body].
        -- destruct Hcase as (w & Hev & Hres). rewrite Hev, Hres.
           cbn; repeat split; repeat constructor; discriminate.
        -- destruct Hcase as (res' & w & Hev & Hres). rewrite Hev, Hres.
           destruct res'; cbn; repeat split; repeat constructor; discriminate.
      * destruct Hcase as (Hev & Hres). rewrite Hev, Hres.
        cbn; repeat split; repeat constructor; discriminate.
    + destruct Hcase as (Hev & Hres). rewrite Hev, Hres.
      cbn; repeat split; repeat constructor.
Qed.

Local Arguments fetchCodeDiff : simpl never.
Local Arguments getGeminiReview : simpl never.
Local Arguments postReviewComments : simpl never.

(** The stages of [run]: what it emits is what its stages emit, plus one
    [core.setFailed] when a stage throws. *)
Lemma run_cases (env : Env) (h : Trace) (raw : JValue) :
  let o := run env h raw in
  let owner := context_owner env in
  let repo := context_repo env in
  let n := context_issue_number env in
  result o = inr tt /\
  ((exists msg, emitted o = [EvSetFailed msg])
   \/ exists octokit hd rawd,
       let od := fetchCodeDiff octokit owner repo n hd rawd in
       (exists e, result od = inl e /\
                  emitted o = (emitted od ++ [EvSetFailed (err_message e)])%list)
       \/ (exists d, result od = inr d /\ falsy_text d = true /\
                     emitted o = emitted od)
       \/ exists d hg rawg,
            result od = inr d /\ falsy_text d = false /\
            let og := getGeminiReview env (getInput env "gemini-api-key")
                        (getInput env "model") (text_of d) hg rawg in
            (exists e, result og = inl e /\
                       emitted o = (emitted od ++ emitted og ++ [EvSetFailed (err_message e)])%list)
            \/ exists v hp rawp,
                 result og = inr v /\
                 let op := postReviewComments octokit owner repo n n v hp rawp in
                 emitted o = (emitted od ++ emitted og ++ emitted op ++
                              match result op with
                              | inl e => [EvSetFailed (err_message e)]
                              | inr _ => []
                              end)%list).
Proof.
  unfold run, try_catch, bind, initializeAction, core_setFailed, emit.
  destruct (negb (context_eventName env =? "pull_request")); cbn.
  { split; [reflexivity |]. left. eexists. reflexivity. }
  destruct (getOctokit env (getInput env "github-token")) as [e | octokit]; cbn.
  { split; [reflexivity |]. left. eexists. reflexivity. }
  match goal with
  | |- context [fetchCodeDiff octokit ?a ?b ?c ?hd ?rawd] =>
      destruct (fetchCodeDiff octokit a b c hd rawd) as [evd rawd' [e | d]] eqn:Hd
  end; cbn.
  { split; [reflexivity |]. right. do 3 eexists. left.
    rewrite Hd. cbn. eexists. split; reflexivity. }
  destruct (falsy_text d) eqn:Hfalsy; cbn.
  { split; [reflexivity |]. right. do 3 eexists. right. left.
    rewrite Hd. cbn. eexists. repeat split. exact Hfalsy. rewrite !app_nil_r. reflexivity. }
  match goal with
  | |- context [getGeminiReview env ?k ?m ?t ?hg ?rawg] =>
      destruct (getGeminiReview env k m t hg rawg) as [evg rawg' [e | v]] eqn:Hg
  end; cbn.
  { split; [reflexivity |]. right. do 3 eexists. right. right.
    rewrite Hd. cbn. do 3 eexists. split; [reflexivity |]. split; [exact Hfalsy |].
    left. rewrite Hg. cbn. eexists. split; [reflexivity |].
    rewrite ?app_nil_r, <- ?app_assoc. reflexivity. }
  match goal with
  | |- context [postReviewComments octokit ?a ?b ?c ?c' v ?hp ?rawp] =>
      destruct (postReviewComments octokit a b c c' v hp rawp) as [evp rawp' [e | []]] eqn:Hp
  end; cbn.
  - split; [reflexivity |]. right. do 3 eexists. right. right.
    rewrite Hd. cbn. do 3 eexists. split; [reflexivity |]. split; [exact Hfalsy |].
    right. rewrite Hg. cbn. do 3 eexists. split; [reflexivity |].
    rewrite Hp. cbn. rewrite ?app_nil_r, <- ?app_assoc. reflexivity.
  - split; [reflexivity |]. right. do 3 eexists. right. right.
    rewrite Hd. cbn. do 3 eexists. split; [reflexivity |]. split; [exact Hfalsy |].
    right. rewrite Hg. cbn. do 3 eexists. split; [reflexivity |].
    rewrite Hp. cbn. rewrite ?app_nil_r, <- ?app_assoc. reflexivity.
Qed.

(** ** Observations distribute over the stages *)

Lemma fetch_results_app (t u : Trace) :
  fetch_results (t ++ u) = (fetch_results t ++ fetch_results u)%list.
Proof. apply flat_map_app. Qed.

Lemma requests_app (t u : Trace) :
  requests (t ++ u) = (requests t ++ requests u)%list.
Proof. apply flat_map_app. Qed.

Lemma ticks_app (t u : Trace) : ticks (t ++ u) = (ticks t ++ ticks u)%list.
Proof. apply flat_map_app. Qed.

Lemma posts_app (t u : Trace) : posts (t ++ u) = (posts t ++ posts u)%list.
Proof. apply filter_app. Qed.

Lemma model_events_quiet (req : Request) (t : Trace) :
  Forall (model_call_event req) t ->
  posts t = [] /\ filter is_setFailed t = [] /\
  (forall args res, ~ In (EvPullsGet args res) t) /\
  requests t = repeat req (List.length (fetch_results t)).
Proof.
  induction 1 as [| ev t Hev _ IH]; cbn.
  - repeat split. intros args res [].
  - destruct IH as (Hp & Hs & Hg & Hr).
    destruct ev; cbn in Hev; try contradiction; cbn;
      (repeat split; [ assumption | assumption | | ]);
      try (intros args' res' [Heq | Hin]; [discriminate | exact (Hg _ _ Hin)]);
      try assumption.
    subst. cbn. f_equal. exact Hr.
Qed.

Lemma posting_events_quiet (t : Trace) :
  Forall posting_event t ->
  fetch_results t = [] /\ ticks t = [] /\ filter is_setFailed t = [] /\
  (forall args res, ~ In (EvPullsGet args res) t).
Proof.
  induction 1 as [| ev t Hev _ IH]; cbn.
  - repeat split. intros args res [].
  - destruct IH as (Hf & Ht & Hs & Hg).
    destruct ev; cbn in Hev; try contradiction; cbn;
      (repeat split; [ assumption | assumption | assumption | ]);
      intros args' res' [Heq | Hin]; try discriminate; exact (Hg _ _ Hin).
Qed.

Lemma not_significant_iff (data : option string) :
  not_significant data <-> falsy_text data || (text_length data <? 10)%nat = true.
Proof.
  destruct data as [d |]; cbn.
  - rewrite orb_true_iff, Nat.ltb_lt. split; [auto |].
    intros [Hd | Hd]; [| exact Hd].
    apply String.eqb_eq in Hd. subst. cbn. lia.
  - tauto.
Qed.

Lemma fetchCodeDiff_quiet (octokit : Octokit) (owner repo : string) (n : Z)
    (h : Trace) (raw : JValue) :
  let o := fetchCodeDiff octokit owner repo n h raw in
  fetch_results (emitted o) = [] /\ ticks (emitted o) = [] /\
  posts (emitted o) = [] /\ filter is_setFailed (emitted o) = [].
Proof.
  destruct (fetchCodeDiff_cases octokit owner repo n h raw) as (_ & res & msg & Hev & _).
  cbv zeta in *. rewrite Hev. destruct res; repeat split.
Qed.

Lemma findings_have_text (env : Env) (res : JsError + Response) (v : JValue) :
  attempt_findings env res = Some v ->
  exists text msg, response_text res = Some text /\
                   JSON_parse_value env text = inr v /\ generated_message v = inr msg.
Proof.
  unfold attempt_findings. destruct (response_text res) as [text |]; [| discriminate].
  destruct (JSON_parse_value env text) as [e | w] eqn:Hp; [discriminate |].
  destruct (generated_message w) as [e | msg] eqn:Hw; [discriminate |].
  intros [= <-]. exists text, msg. repeat split; assumption.
Qed.

Lemma last_raw_last (raw : JValue) (failed : list (JsError + Response))
    (res : JsError + Response) (text : JValue) :
  response_text res = Some text -> last_raw raw (failed ++ [res]) = text.
Proof.
  intros Ht. unfold last_raw. rewrite fold_left_app. cbn. unfold raw_next.
  rewrite Ht. reflexivity.
Qed.

(** An attempt that succeeds is the last one: the loop returns its
    findings, and the attempts before it failed. *)
Lemma successful_attempt_is_last (env : Env) (apiKey model codeDiff : string)
    (h : Trace) (raw : JValue) (res : JsError + Response) (v : JValue) :
  let o := getGeminiReview env apiKey model codeDiff h raw in
  In res (fetch_results (emitted o)) ->
  attempt_findings env res = Some v ->
  result o = inr v /\
  exists failed,
    fetch_results (emitted o) = failed ++ [res] /\
    Forall (fun r => attempt_findings env r = None) failed.
Proof.
  intros o Hin Hw.
  destruct (getGeminiReview_cases env apiKey model codeDiff h raw) as (_ & _ & Hcases).
  fold o in Hcases.
  destruct Hcases as [(a & v' & Hl & Hf & Hres & _)
                     | [(a & b & v' & Hl & Hfa & Hf & Hres & _)
                       | [(a & b & c & v' & Hl & Hfa & Hfb & Hf & Hres & _)
                         | (a & b & c & Hl & Hfa & Hfb & Hfc & _)]]];
    rewrite Hl in *.
  - destruct Hin as [<- | []]. rewrite Hf in Hw. injection Hw as <-.
    split; [exact Hres |]. exists []. split; [reflexivity | constructor].
  - destruct Hin as [<- | [<- | []]]; [congruence |].
    rewrite Hf in Hw. injection Hw as <-.
    split; [exact Hres |]. exists [a].
    split; [reflexivity | repeat constructor; assumption].
  - destruct Hin as [<- | [<- | [<- | []]]]; [congruence | congruence |].
    rewrite Hf in Hw. injection Hw as <-.
    split; [exact Hres |]. exists [a; b].
    split; [reflexivity | repeat constructor; assumption].
  - destruct Hin as [<- | [<- | [<- | []]]]; congruence.
Qed.

(** The loop that made three attempts, the third failing, throws the
    exhaustion error, which quotes [rawJsonText]. *)
Lemma exhausted_loop_error (env : Env) (apiKey model codeDiff : string)
    (h : Trace) (raw : JValue) (a b c : JsError + Response) :
  let o := getGeminiReview env apiKey model codeDiff h raw in
  fetch_results (emitted o) = [a; b; c] ->
  attempt_findings env c = None ->
  result o = inl (exhaustion_error (last_raw (JStr EmptyString) [a; b; c])) /\
  raw_after o = last_raw (JStr EmptyString) [a; b; c] /\
  posts (emitted o) = [].
Proof.
  intros o Hrs Hc.
  destruct (getGeminiReview_cases env apiKey model codeDiff h raw)
    as (Hraw & Hkind & Hcases).
  fold o in Hraw, Hkind, Hcases. rewrite Hrs in *.
  apply model_events_quiet in Hkind. destruct Hkind as (Hposts & _).
  split; [| split; [exact Hraw | exact Hposts]].
  destruct Hcases as [(a' & v' & Hl & _)
                     | [(a' & b' & v' & Hl & _)
                       | [(a' & b' & c' & v' & Hl & _ & _ & Hf & _)
                         | (a' & b' & c' & Hl & _ & _ & _ & Hres & _)]]];
    try discriminate.
  - injection Hl as <- <- <-. congruence.
  - rewrite Hres, Hraw. reflexivity.
Qed.


(** C1.  The retry loop of [getGeminiReview] makes between one and three
    model calls.  A failed attempt [k], for [k = 1, 2], is followed by a wait
    of [2000 * k] ms and then by another attempt, and nothing else is waited
    for; the call throws only after three failed attempts.  A successful
    attempt is the last one and its findings, the parse of the raw text, are
    returned.  So a call whose third attempt gets the response [c] after two
    failures returns what a call returns whose first attempt gets [c], after
    exactly the two delays 2000 and 4000, the other call having waited for
    nothing. *)
Theorem getGeminiReview_retry_schedule (env : Env) (apiKey model codeDiff : string)
    (h : Trace) (raw : JValue) :
  let o := getGeminiReview env apiKey model codeDiff h raw in
  let rs := fetch_results (emitted o) in
  (1 <= List.length rs <= 3)%nat /\
  ticks (emitted o) =
    firstn (2 * List.length rs - 1)
      [Attempt; Wait (2000 * 1); Attempt; Wait (2000 * 2); Attempt] /\
  (forall k res,
      nth_error rs k = Some res -> attempt_findings env res = None -> (k < 2)%nat ->
      nth_error (ticks (emitted o)) (2 * k + 1) = Some (Wait (2000 * (Z.of_nat k + 1))) /\
      nth_error (ticks (emitted o)) (2 * k + 2) = Some Attempt /\
      (k + 1 < List.length rs)%nat) /\
  (forall e,
      result o = inl e ->
      List.length rs = 3%nat /\ Forall (fun r => attempt_findings env r = None) rs) /\
  (forall res v,
      In res rs -> attempt_findings env res = Some v ->
      result o = inr v /\
      exists failed,
        rs = failed ++ [res] /\
        Forall (fun r => attempt_findings env r = None) failed) /\
  (forall v,
      result o = inr v ->
      JSON_parse_value env (raw_after o) = inr v /\
      exists failed res, rs = failed ++ [res] /\ attempt_findings env res = Some v) /\
  (forall a b c v,
      rs = [a; b; c] -> attempt_findings env c = Some v ->
      result o = inr v /\ sleeps (emitted o) = [2000; 4000]%Z /\
      forall apiKey' model' codeDiff' h' raw',
        let o' := getGeminiReview env apiKey' model' codeDiff' h' raw' in
        fetch_results (emitted o') = [c] ->
        result o' = result o /\ sleeps (emitted o') = []).
Proof.
  intros o rs.
  destruct (getGeminiReview_cases env apiKey model codeDiff h raw)
    as (Hraw & _ & Hcases).
  fold o in Hraw, Hcases. fold rs in Hraw, Hcases.
  assert (Hidem : forall c v apiKey' model' codeDiff' h' raw',
             attempt_findings env c = Some v ->
             let o' := getGeminiReview env apiKey' model' codeDiff' h' raw' in
             fetch_results (emitted o') = [c] ->
             result o' = inr v /\ sleeps (emitted o') = []).
  { intros c v k' m' d' h' raw' Hc o' Hrs'.
    destruct (getGeminiReview_cases env k' m' d' h' raw') as (_ & _ & Hc').
    fold o' in Hc'. rewrite Hrs' in Hc'. unfold sleeps.
    destruct Hc' as [(a' & v' & Hl & Hf & Hres & Ht)
                    | [(a' & b' & v' & Hl & _)
                      | [(a' & b' & c' & v' & Hl & _) | (a' & b' & c' & Hl & _)]]];
      try discriminate.
    injection Hl as <-. rewrite Hc in Hf. injection Hf as <-.
    rewrite Hres, Ht. split; reflexivity. }
  assert (Hlast : forall res v,
             In res rs -> attempt_findings env res = Some v ->
             result o = inr v /\
             exists failed,
               rs = failed ++ [res] /\
               Forall (fun r => attempt_findings env r = None) failed).
  { intros res v. exact (successful_attempt_is_last env apiKey model codeDiff h raw res v). }
  destruct Hcases as [(a & v & Hl & Hf & Hres & Ht)
                     | [(a & b & v & Hl & Hfa & Hf & Hres & Ht)
                       | [(a & b & c & v & Hl & Hfa & Hfb & Hf & Hres & Ht)
                         | (a & b & c & Hl & Hfa & Hfb & Hfc & Hres & Ht)]]];
    unfold sleeps; rewrite Hl in *; rewrite ?Ht, Hres; cbn [List.length].
  - split; [lia |]. split; [reflexivity |].
    split; [| split; [intros e [=] | split; [| split]]].
    + intros k res Hk Hnone Hlt.
      destruct k as [| [| k]]; [| discriminate | lia].
      injection Hk as <-. congruence.
    + intros res w Hin Hw. rewrite <- Hres. exact (Hlast res w Hin Hw).
    + intros w [= <-].
      destruct (findings_have_text env a v Hf) as (text & msg & Htx & Hp & _).
      split.
      * rewrite Hraw. rewrite (last_raw_last _ [] a text Htx). exact Hp.
      * exists [], a. split; [reflexivity | exact Hf].
    + intros ? ? ? ? [=].
  - split; [lia |]. split; [reflexivity |].
    split; [| split; [intros e [=] | split; [| split]]].
    + intros k res Hk Hnone Hlt.
      destruct k as [| [| k]]; [| | lia].
      * cbn. repeat split. lia.
      * injection Hk as <-. congruence.
    + intros res w Hin Hw. rewrite <- Hres. exact (Hlast res w Hin Hw).
    + intros w [= <-].
      destruct (findings_have_text env b v Hf) as (text & msg & Htx & Hp & _).
      split.
      * rewrite Hraw. rewrite (last_raw_last _ [a] b text Htx). exact Hp.
      * exists [a], b. split; [reflexivity | exact Hf].
    + intros ? ? ? ? [=].
  - split; [lia |]. split; [reflexivity |].
    split; [| split; [intros e [=] | split; [| split]]].
    + intros k res Hk Hnone Hlt.
      destruct k as [| [| k]]; [| | lia]; cbn; repeat split; lia.
    + intros res w Hin Hw. rewrite <- Hres. exact (Hlast res w Hin Hw).
    + intros w [= <-].
      destruct (findings_have_text env c v Hf) as (text & msg & Htx & Hp & _).
      split.
      * rewrite Hraw. rewrite (last_raw_last _ [a; b] c text Htx). exact Hp.
      * exists [a; b], c. split; [reflexivity | exact Hf].
    + intros a0 b0 c0 w [= <- <- <-] Hw. rewrite Hf in Hw. injection Hw as <-.
      split; [reflexivity |]. split; [reflexivity |].
      intros k' m' d' h' raw' Hrs'. exact (Hidem c v k' m' d' h' raw' Hf Hrs').
  - split; [lia |]. split; [reflexivity |].
    split; [| split; [| split; [| split]]].
    + intros k res Hk Hnone Hlt.
      destruct k as [| [| k]]; [| | lia]; cbn; repeat split; lia.
    + intros e _. split; [reflexivity | repeat constructor; assumption].
    + intros res w Hin Hw. rewrite <- Hres. exact (Hlast res w Hin Hw).
    + intros w [=].
    + intros a0 b0 c0 w [= <- <- <-] Hw. congruence.
Qed.
(** The model stage inside [run]: if the run made any model call, its
    calls are those of one [getGeminiReview], the stages around it made no
    posting call before it, and the run either failed with the error of
    that call or went on to post. *)
Lemma run_model_stage (env : Env) (h : Trace) (raw : JValue) :
  let o := run env h raw in
  fetch_results (emitted o) = [] \/
  exists apiKey model codeDiff hg rawg before,
    let og := getGeminiReview env apiKey model codeDiff hg rawg in
    fetch_results (emitted o) = fetch_results (emitted og) /\
    posts before = [] /\
    ((exists e, result og = inl e /\
                emitted o = before ++ emitted og ++ [EvSetFailed (err_message e)])
     \/ exists v octokit owner repo pn inum hp rawp,
          result og = inr v /\
          let op := postReviewComments octokit owner repo pn inum v hp rawp in
          emitted o = before ++ emitted og ++ emitted op ++
                      match result op with
                      | inl e => [EvSetFailed (err_message e)]
                      | inr _ => []
                      end).
Proof.
  destruct (run_cases env h raw) as (_ & Hc). cbv zeta in *.
  destruct Hc as [(msg & Hev) | (octokit & hd & rawd & Hc)].
  { left. rewrite Hev. reflexivity. }
  destruct (fetchCodeDiff_quiet octokit (context_owner env) (context_repo env)
              (context_issue_number env) hd rawd) as (Hfd & _ & Hpd & _).
  cbv zeta in *.
  destruct Hc as [(e & _ & Hev) | [(d & _ & _ & Hev) | (d & hg & rawg & _ & _ & Hc)]].
  { left. rewrite Hev, fetch_results_app, Hfd. reflexivity. }
  { left. rewrite Hev. exact Hfd. }
  right. do 5 eexists. eexists (emitted (fetchCodeDiff octokit _ _ _ hd rawd)).
  destruct Hc as [(e & Hres & Hev) | (v & hp & rawp & Hres & Hev)].
  - split; [| split; [exact Hpd |]].
    + rewrite Hev, !fetch_results_app, Hfd. cbn. apply app_nil_r.
    + left. exists e. split; [exact Hres | exact Hev].
  - destruct (postReviewComments_shape octokit (context_owner env) (context_repo env)
                (context_issue_number env) (context_issue_number env) v hp rawp)
      as (_ & Hkind & _).
    cbv zeta in Hkind. apply posting_events_quiet in Hkind. destruct Hkind as (Hfp & _).
    split; [| split; [exact Hpd |]].
    + rewrite Hev, !fetch_results_app, Hfd, Hfp. cbn.
      destruct (result (postReviewComments _ _ _ _ _ _ _ _)); cbn; apply app_nil_r.
    + right. do 8 eexists. split; [exact Hres | exact Hev].
Qed.

(** What the exhaustion error says, by what [rawJsonText] holds. *)
Lemma exhaustion_error_cases (raw : JValue) :
  (forall shown, ToString raw = inr shown ->
     exhaustion_error raw = Error (EXHAUSTED_PREFIX ++ shown)%string) /\
  (forall e, ToString raw = inl e -> exhaustion_error raw = TypeError_primitive).
Proof.
  unfold exhaustion_error. split.
  - intros shown ->. reflexivity.
  - intros e He. rewrite He. exact (ToString_error raw e He).
Qed.

(** C2.  When three attempts were made and the third failed as well,
    [getGeminiReview] throws and posts nothing, and a [run] in which that
    happened makes no posting call at all and ends by reporting the message
    of that error.  The error is the exhaustion error, whose message ends
    with the last raw response text: with [rawJsonText] itself when that is
    a text, and with its conversion to text otherwise.  Only when the model
    sent, in place of a text, an object that cannot be converted is the error
    the [TypeError] of that conversion. *)
Theorem retry_exhaustion_is_fatal (env : Env) (a b c : JsError + Response) :
  attempt_findings env c = None ->
  let raw := last_raw (JStr EmptyString) [a; b; c] in
  let error := exhaustion_error raw in
  (forall text, raw = JStr text ->
     error = Error (EXHAUSTED_PREFIX ++ text)%string /\
     contains (err_message error) text) /\
  (forall shown, ToString raw = inr shown ->
     error = Error (EXHAUSTED_PREFIX ++ shown)%string /\
     contains (err_message error) shown) /\
  (forall e, ToString raw = inl e -> error = TypeError_primitive) /\
  (forall apiKey model codeDiff h raw',
      let o := getGeminiReview env apiKey model codeDiff h raw' in
      fetch_results (emitted o) = [a; b; c] ->
      result o = inl error /\ posts (emitted o) = []) /\
  (forall h raw',
      let o := run env h raw' in
      fetch_results (emitted o) = [a; b; c] ->
      posts (emitted o) = [] /\ result o = inr tt /\
      exists before, emitted o = before ++ [EvSetFailed (err_message error)]).
Proof.
  intros Hc raw error.
  assert (Hg : forall apiKey model codeDiff h raw',
             let o := getGeminiReview env apiKey model codeDiff h raw' in
             fetch_results (emitted o) = [a; b; c] ->
             result o = inl error /\ posts (emitted o) = []).
  { intros k m d h raw' o Hrs.
    destruct (exhausted_loop_error env k m d h raw' a b c Hrs Hc) as (Hres & _ & Hposts).
    split; assumption. }
  destruct (exhaustion_error_cases raw) as (Hshown & Hthrown).
  assert (Hquote : forall shown, ToString raw = inr shown ->
             error = Error (EXHAUSTED_PREFIX ++ shown)%string /\
             contains (err_message error) shown).
  { intros shown Hs. unfold error. rewrite (Hshown shown Hs).
    split; [reflexivity | apply contains_suffix]. }
  split; [| split; [exact Hquote | split; [exact Hthrown | split; [exact Hg |]]]].
  - intros text Hraw. apply Hquote. rewrite Hraw. reflexivity.
  - intros h raw' o Hrs.
    destruct (run_cases env h raw') as (Hok & _). fold o in Hok.
    destruct (run_model_stage env h raw') as [Hnone | Hstage];
      fold o in Hnone || fold o in Hstage.
    { rewrite Hrs in Hnone. discriminate. }
    destruct Hstage as (k & m & d & hg & rawg & before & Hsame & Hbefore & Hcase).
    fold o in Hsame, Hcase.
    rewrite Hrs in Hsame. symmetry in Hsame.
    destruct (Hg k m d hg rawg Hsame) as (Hres & Hposts).
    destruct Hcase as [(e & He & Hev) | (v & ? & ? & ? & ? & ? & ? & ? & Hv & _)].
    + rewrite Hres in He. injection He as <-.
      split; [| split; [exact Hok |]].
      * rewrite Hev, !posts_app, Hbefore, Hposts. reflexivity.
      * exists (before ++ emitted (getGeminiReview env k m d hg rawg)).
        rewrite Hev, <- app_assoc. reflexivity.
    + rewrite Hres in Hv. discriminate.
Qed.
(** C10.  [rawJsonText] changes only in an attempt that extracted a text
    payload.  So when the third attempt fails before it extracts one (the
    request failed, the status was not ok, the body was not JSON or held no
    text), the error of the exhausted loop is built from what attempts one
    and two captured and from nothing of the third response: it quotes the
    text of attempt two if it had one, else the text of attempt one, else
    the empty text.  (Where the captured payload is not a text, the error
    quotes its conversion to text, or is the [TypeError] of that conversion
    when there is none.) *)
Theorem exhaustion_quotes_earlier_text (env : Env) (apiKey model codeDiff : string)
    (h : Trace) (raw : JValue) (a b c : JsError + Response) :
  let o := getGeminiReview env apiKey model codeDiff h raw in
  fetch_results (emitted o) = [a; b; c] ->
  response_text c = None ->
  raw_after (gemini_try env apiKey model codeDiff h raw)
    = raw_next raw (fetch env h (gemini_request env apiKey model codeDiff)) /\
  raw_after o = last_raw (JStr EmptyString) [a; b] /\
  result o = inl (exhaustion_error (last_raw (JStr EmptyString) [a; b])) /\
  (response_text a = None -> response_text b = None ->
   result o = inl (Error (EXHAUSTED_PREFIX ++ EmptyString)%string)) /\
  (forall text, response_text b = Some text ->
   result o = inl (exhaustion_error text)) /\
  (forall text, response_text a = Some text -> response_text b = None ->
   result o = inl (exhaustion_error text)) /\
  (forall text, exhaustion_error (JStr text) = Error (EXHAUSTED_PREFIX ++ text)%string) /\
  (forall v shown, ToString v = inr shown ->
   exhaustion_error v = Error (EXHAUSTED_PREFIX ++ shown)%string) /\
  (forall v e, ToString v = inl e -> exhaustion_error v = TypeError_primitive).
Proof.
  intros o Hrs Hc.
  assert (Hlast : last_raw (JStr EmptyString) [a; b; c]
                  = last_raw (JStr EmptyString) [a; b]).
  { unfold last_raw. cbn. unfold raw_next at 1. rewrite Hc. reflexivity. }
  pose proof (no_text_no_findings env c Hc) as Hfc.
  destruct (exhausted_loop_error env apiKey model codeDiff h raw a b c Hrs Hfc)
    as (Hres & Hraw & _).
  fold o in Hres, Hraw.
  rewrite Hlast in Hres, Hraw.
  split; [| split; [exact Hraw | split; [exact Hres |]]].
  - destruct (gemini_try_spec env apiKey model codeDiff h raw) as (e & info & He).
    cbv zeta in He. rewrite He. unfold raw_next.
    generalize (fetch env h (gemini_request env apiKey model codeDiff)). intros res.
    destruct (response_text res); [destruct (attempt_findings env res) |]; reflexivity.
  - split; [| split; [| split; [| split; [| split]]]].
    + intros Ha Hb. rewrite Hres. unfold last_raw. cbn. unfold raw_next.
      rewrite Ha, Hb. reflexivity.
    + intros text Hb. rewrite Hres. unfold last_raw. cbn. unfold raw_next.
      rewrite Hb. reflexivity.
    + intros text Ha Hb. rewrite Hres. unfold last_raw. cbn. unfold raw_next.
      rewrite Ha, Hb. reflexivity.
    + intros text. reflexivity.
    + intros v. exact (proj1 (exhaustion_error_cases v)).
    + intros v. exact (proj2 (exhaustion_error_cases v)).
Qed.

(** C3.  [fetchCodeDiff] answers [null] for a diff that is absent, empty or
    shorter than ten, by its [length], which counts UTF-16 code units, and
    hands any other diff back unchanged.  A [run] that fetched such an
    insignificant diff stops there: no model call, no posting call, no
    failure reported. *)
Theorem insignificant_diff_ends_the_run :
  (forall octokit owner repo pull_number h raw args data,
      let o := fetchCodeDiff octokit owner repo pull_number h raw in
      In (EvPullsGet args (inr data)) (emitted o) ->
      (not_significant data -> result o = inr None) /\
      (~ not_significant data -> result o = inr data)) /\
  (forall env h raw args data,
      let o := run env h raw in
      In (EvPullsGet args (inr data)) (emitted o) ->
      not_significant data ->
      requests (emitted o) = [] /\ fetch_results (emitted o) = [] /\
      posts (emitted o) = [] /\ filter is_setFailed (emitted o) = [] /\
      result o = inr tt).
Proof.
  assert (Hfetch : forall octokit owner repo pull_number h raw args data,
             let o := fetchCodeDiff octokit owner repo pull_number h raw in
             In (EvPullsGet args (inr data)) (emitted o) ->
             result o = if falsy_text data || (text_length data <? 10)%nat
                        then inr None else inr data).
  { intros octokit owner repo n h raw args data o Hin.
    destruct (fetchCodeDiff_cases octokit owner repo n h raw) as (_ & res & msg & Hev & Hres).
    fold o in Hev, Hres. rewrite Hev in Hin. rewrite Hres.
    destruct Hin as [Heq | [Heq | Hin]]; [discriminate | |].
    - injection Heq as _ ->. reflexivity.
    - destruct res; [destruct Hin | destruct Hin as [Heq | []]; discriminate]. }
  split.
  - intros octokit owner repo n h raw args data o Hin.
    rewrite not_significant_iff. unfold o. rewrite (Hfetch _ _ _ _ _ _ _ _ Hin).
    destruct (falsy_text data || (text_length data <? 10)%nat); split; congruence.
  - intros env h raw args data o Hin Hshort.
    apply not_significant_iff in Hshort.
    destruct (run_cases env h raw) as (Hok & Hc). fold o in Hok, Hc. cbv zeta in Hc.
    destruct Hc as [(msg & Hev) | (octokit & hd & rawd & Hc)].
    { rewrite Hev in Hin. destruct Hin as [Heq | []]. discriminate. }
    pose proof (fetchCodeDiff_quiet octokit (context_owner env) (context_repo env)
                  (context_issue_number env) hd rawd) as Hq.
    pose proof (Hfetch octokit (context_owner env) (context_repo env)
                  (context_issue_number env) hd rawd) as Hf.
    cbv zeta in Hq, Hf. destruct Hq as (Hq1 & Hq2 & Hq3 & Hq4).
    destruct Hc as [(e & Hres & Hev) | [(d & Hres & Hfalsy & Hev) | (d & hg & rawg & Hres & Hfalsy & Hc)]].
    + rewrite Hev in Hin. apply in_app_or in Hin. destruct Hin as [Hin | [Heq | []]];
        [| discriminate].
      rewrite (Hf _ _ Hin) in Hres.
      destruct (falsy_text data || (text_length data <? 10)%nat); discriminate.
    + rewrite Hev.
      destruct (fetchCodeDiff_cases octokit (context_owner env) (context_repo env)
                  (context_issue_number env) hd rawd) as (_ & res & msg & Hev' & _).
      cbv zeta in Hev'. rewrite Hev'. destruct res; repeat split; assumption.
    + exfalso.
      assert (Hnot : forall t, In (EvPullsGet args (inr data)) t ->
                               (forall a r, ~ In (EvPullsGet a r) t) -> False).
      { intros t Ht Hno. exact (Hno _ _ Ht). }
      assert (Hin_d : In (EvPullsGet args (inr data))
                        (emitted (fetchCodeDiff octokit (context_owner env)
                                    (context_repo env) (context_issue_number env) hd rawd))
                      -> False).
      { intros Hin'. rewrite (Hf _ _ Hin') in Hres. rewrite Hshort in Hres.
        injection Hres as <-. discriminate. }
      destruct (getGeminiReview_cases env (getInput env "gemini-api-key")
                  (getInput env "model") (text_of d) hg rawg) as (_ & Hkind & _).
      apply model_events_quiet in Hkind. destruct Hkind as (_ & _ & Hnog & _).
      destruct Hc as [(e & _ & Hev) | (v & hp & rawp & _ & Hev)];
        rewrite Hev in Hin; repeat (apply in_app_or in Hin; destruct Hin as [Hin | Hin]);
        try (exact (Hin_d Hin)); try (exact (Hnog _ _ Hin)).
      * destruct Hin as [Heq | []]. discriminate.
      * destruct (postReviewComments_shape octokit (context_owner env) (context_repo env)
                    (context_issue_number env) (context_issue_number env) v hp rawp)
          as (_ & Hk & _).
        apply posting_events_quiet in Hk. destruct Hk as (_ & _ & _ & Hnop).
        exact (Hnop _ _ Hin).
      * destruct (result (postReviewComments _ _ _ _ _ _ _ _)); [| destruct Hin].
        destruct Hin as [Heq | []]. discriminate.
Qed.
Lemma status_is_422_iff (e : JsError) :
  status_is_422 e = true <-> err_status e = JNum 422.
Proof.
  unfold status_is_422. destruct (err_status e) as [| | | n | | | |];
    try (split; [discriminate | discriminate]).
  rewrite Z.eqb_eq. split; [intros -> | intros [= ->]]; reflexivity.
Qed.

(** C4.  On an empty findings list [postReviewComments] makes exactly one
    posting call: an issue comment on the pull request whose body says that
    no critical issues were found.  No review is created, and the function
    returns or throws as that one call does. *)
Theorem no_findings_one_comment (octokit : Octokit) (owner repo : string)
    (pull_number issue_number : Z) (h : Trace) (raw : JValue) :
  let o := postReviewComments octokit owner repo pull_number issue_number (JArr []) h raw in
  contains NO_ISSUES_BODY "No critical issues found." /\
  exists answer,
    posts (emitted o)
      = [EvCreateComment (mkCommentArgs owner repo issue_number NO_ISSUES_BODY) answer] /\
    result o = settled answer.
Proof.
  intros o. split.
  - exists (REVIEW_HEADING ++ nl ++ nl)%string, " **Looks good!**". reflexivity.
  - destruct (postReviewComments_empty octokit owner repo pull_number issue_number h raw)
      as (answer & Hev & Hres & _).
    fold o in Hev, Hres. exists answer. rewrite Hev. split; [| exact Hres].
    destruct answer; reflexivity.
Qed.

(** C5.  On a non-empty findings list [postReviewComments] calls
    [createReview] exactly once, before any other posting call, in [COMMENT]
    mode and with one inline comment per finding, in the order of the
    findings, with the finding's [path], [line] and [comment] as [path],
    [line] and [body]: nothing is filtered, merged or renumbered.  When
    GitHub accepts that call it is the only posting call and the function
    returns. *)
Theorem findings_one_review (octokit : Octokit) (owner repo : string)
    (pull_number issue_number : Z) (elems : list JValue) (h : Trace) (raw : JValue) :
  elems <> [] -> no_nullish elems = true ->
  let o := postReviewComments octokit owner repo pull_number issue_number (JArr elems) h raw in
  exists review answer later,
    posts (emitted o) = EvCreateReview review answer :: later /\
    filter is_createReview (emitted o) = [EvCreateReview review answer] /\
    rv_event review = "COMMENT" /\
    rv_pull_number review = pull_number /\
    List.length (rv_comments review) = List.length elems /\
    (forall i c, nth_error elems i = Some c ->
       nth_error (rv_comments review) i
       = Some (mkGithubComment (prop c "path") (prop c "line") (prop c "comment"))) /\
    (answer = None -> later = [] /\ result o = inr tt).
Proof.
  intros Hne Hn o.
  destruct (postReviewComments_findings octokit owner repo pull_number issue_number
              elems h raw Hne Hn) as (_ & answer & Hcase).
  fold o in Hcase. cbv zeta in Hcase.
  set (comments := map github_comment_of elems) in *.
  set (review := mkReviewArgs owner repo pull_number "COMMENT"
                   (reviewSummary comments) comments) in *.
  assert (Hshape : List.length (rv_comments review) = List.length elems /\
                   forall i c, nth_error elems i = Some c ->
                     nth_error (rv_comments review) i
                     = Some (mkGithubComment (prop c "path") (prop c "line")
                               (prop c "comment"))).
  { split; [apply length_map |].
    intros i c Hi. cbn. unfold comments. rewrite nth_error_map, Hi. reflexivity. }
  destruct Hshape as (Hlen & Hnth).
  destruct answer as [e |].
  - destruct (status_is_422 e).
    + destruct (fallbackBody (reviewSummary comments) comments) as [err | body].
      * destruct Hcase as (w & Hev & _).
        exists review, (Some e), []. rewrite Hev.
        repeat split; try assumption; discriminate.
      * destruct Hcase as (answer' & w & Hev & _).
        exists review, (Some e),
               [EvCreateComment (mkCommentArgs owner repo issue_number body) answer'].
        rewrite Hev.
        split; [destruct answer'; reflexivity |].
        split; [destruct answer'; reflexivity |].
        repeat split; try assumption; discriminate.
    + destruct Hcase as (Hev & _). exists review, (Some e), [].
      rewrite Hev. repeat split; try assumption; discriminate.
  - destruct Hcase as (Hev & Hres). exists review, None, [].
    rewrite Hev. repeat split; assumption.
Qed.

(** The fallback comment can be written exactly when the [path], [line]
    and [body] of every inline comment convert to text. *)
Lemma fallbackBody_defined (summary : string) (githubComments : list GithubComment) :
  (exists body, fallbackBody summary githubComments = inr body)
  <-> forallb renders_entry githubComments = true.
Proof.
  unfold fallbackBody.
  assert (H : (exists entries, feedback_entries githubComments = inr entries)
              <-> forallb renders_entry githubComments = true).
  { induction githubComments as [| c rest IH]; cbn [feedback_entries forallb].
    - split; [reflexivity | intros _; exists []; reflexivity].
    - unfold renders_entry at 1, renders, feedback_entry.
      destruct (ToString (gc_path c)) as [e | path]; cbn [and_then andb].
      { split; [intros (entries & [=]) | discriminate]. }
      destruct (ToString (gc_line c)) as [e | line]; cbn [and_then andb].
      { split; [intros (entries & [=]) | discriminate]. }
      destruct (ToString (gc_body c)) as [e | body]; cbn [and_then andb].
      { split; [intros (entries & [=]) | discriminate]. }
      rewrite <- IH.
      destruct (feedback_entries rest) as [e | entries]; cbn [and_then].
      + split; [intros (entries & [=]) | intros (entries & [=])].
      + split; intros _; eexists; reflexivity. }
  rewrite <- H.
  destruct (feedback_entries githubComments) as [e | entries]; cbn [and_then].
  - split; [intros (body & [=]) | intros (entries & [=])].
  - split; intros _; eexists; reflexivity.
Qed.

(** Writing the fallback comment fails in one way only. *)
Lemma fallbackBody_error (summary : string) (githubComments : list GithubComment)
    (e : JsError) :
  fallbackBody summary githubComments = inl e -> e = TypeError_primitive.
Proof.
  unfold fallbackBody.
  assert (H : forall e', feedback_entries githubComments = inl e' ->
                         e' = TypeError_primitive).
  { induction githubComments as [| c rest IH]; cbn [feedback_entries]; [discriminate |].
    intros e'. unfold feedback_entry.
    destruct (ToString (gc_path c)) as [e1 | path] eqn:H1; cbn [and_then].
    { intros [= <-]. exact (ToString_error _ _ H1). }
    destruct (ToString (gc_line c)) as [e2 | line] eqn:H2; cbn [and_then].
    { intros [= <-]. exact (ToString_error _ _ H2). }
    destruct (ToString (gc_body c)) as [e3 | body] eqn:H3; cbn [and_then].
    { intros [= <-]. exact (ToString_error _ _ H3). }
    destruct (feedback_entries rest) as [e4 | entries]; cbn [and_then]; [| discriminate].
    intros [= <-]. apply IH. reflexivity. }
  destruct (feedback_entries githubComments) as [e' | entries]; cbn [and_then];
    [| discriminate].
  intros [= <-]. apply H. reflexivity.
Qed.

(** C6, as amended.  After a [createReview] call for a non-empty findings
    list, the fallback is entered exactly when that call was rejected with
    [status === 422].  Where the [path], [line] and [comment] of every
    finding convert to text, as texts and numbers do, the fallback issue
    comment is then posted, it is the one further posting call, and its body
    holds the summary with the heading cut out and, for every finding, the
    line [- **path (Line N):** comment].  Where one of them does not
    convert, the [TypeError] of the conversion is thrown before any comment
    is posted.  A rejection with any other status is thrown on as it is, and
    an accepted review is the only posting call. *)
Theorem fallback_exactly_on_422 (octokit : Octokit) (owner repo : string)
    (pull_number issue_number : Z) (elems : list JValue) (h : Trace) (raw : JValue) :
  elems <> [] -> no_nullish elems = true ->
  let o := postReviewComments octokit owner repo pull_number issue_number (JArr elems) h raw in
  let comments := map github_comment_of elems in
  let summary := reviewSummary comments in
  let review := mkReviewArgs owner repo pull_number "COMMENT" summary comments in
  (exists answer,
      match answer with
      | None => posts (emitted o) = [EvCreateReview review None] /\ result o = inr tt
      | Some e =>
          if status_is_422 e
          then
            match fallbackBody summary comments with
            | inr body =>
                exists answer',
                  posts (emitted o)
                  = [EvCreateReview review (Some e);
                     EvCreateComment (mkCommentArgs owner repo issue_number body) answer'] /\
                  result o = settled answer'
            | inl _ =>
                posts (emitted o) = [EvCreateReview review (Some e)] /\
                result o = inl TypeError_primitive
            end
          else posts (emitted o) = [EvCreateReview review (Some e)] /\ result o = inl e
      end) /\
  ((exists body, fallbackBody summary comments = inr body)
   <-> forallb renders_entry comments = true) /\
  (forallb renders_entry comments = true ->
   ((exists args answer', In (EvCreateComment args answer') (emitted o))
    <-> exists e, In (EvCreateReview review (Some e)) (emitted o) /\
                  err_status e = JNum 422)) /\
  (List.length (filter is_createComment (emitted o)) <= 1)%nat /\
  (forall args answer',
      In (EvCreateComment args answer') (emitted o) ->
      fallbackBody summary comments = inr (cm_body args) /\
      cm_owner args = owner /\ cm_repo args = repo /\ cm_issue_number args = issue_number) /\
  (forall body,
      fallbackBody summary comments = inr body ->
      (exists pre post,
          summary = (pre ++ REVIEW_HEADING ++ post)%string /\
          contains body (pre ++ post)%string) /\
      (forall c, In c elems ->
         exists path line comment,
           ToString (prop c "path") = inr path /\
           ToString (prop c "line") = inr line /\
           ToString (prop c "comment") = inr comment /\
           contains body
             ("- **" ++ path ++ " (Line " ++ line ++ "):** " ++ comment)%string)).
Proof.
  intros Hne Hn o comments summary review.
  destruct (postReviewComments_findings octokit owner repo pull_number issue_number
              elems h raw Hne Hn) as (_ & answer & Hcase).
  fold o in Hcase. cbv zeta in Hcase.
  fold comments in Hcase. fold summary in Hcase. fold review in Hcase.
  pose proof (fallbackBody_defined summary comments) as Hdef.
  assert (Hcontents :
            forall body,
              fallbackBody summary comments = inr body ->
              (exists pre post,
                  summary = (pre ++ REVIEW_HEADING ++ post)%string /\
                  contains body (pre ++ post)%string) /\
              (forall c, In c elems ->
                 exists path line comment,
                   ToString (prop c "path") = inr path /\
                   ToString (prop c "line") = inr line /\
                   ToString (prop c "comment") = inr comment /\
                   contains body
                     ("- **" ++ path ++ " (Line " ++ line ++ "):** " ++ comment)%string)).
  { intros body Hbody.
    destruct (fallbackBody_contents comments body Hbody) as (Hsum & Hentries).
    split; [exact Hsum |]. intros c Hc.
    destruct (Hentries (github_comment_of c) (in_map github_comment_of elems c Hc))
      as (entry & Hentry & Hin).
    unfold feedback_entry, github_comment_of in Hentry. cbn in Hentry.
    destruct (ToString (prop c "path")) as [e | path]; [discriminate |].
    destruct (ToString (prop c "line")) as [e | line]; [discriminate |].
    destruct (ToString (prop c "comment")) as [e | comment]; [discriminate |].
    cbn in Hentry. injection Hentry as <-.
    exists path, line, comment. repeat split. exact Hin. }
  destruct answer as [e |].
  - destruct (status_is_422 e) eqn:H422.
    + destruct (fallbackBody summary comments) as [err | body] eqn:Hbody.
      * destruct Hcase as (w & Hev & Hres).
        pose proof (fallbackBody_error _ _ _ Hbody) as ->.
        assert (Hno : forallb renders_entry comments = true -> False).
        { intros Hr. apply Hdef in Hr. destruct Hr as (body & [=]). }
        split; [| split; [exact Hdef | split; [| split; [| split; [| exact Hcontents]]]]].
        -- exists (Some e). rewrite H422. rewrite Hev. split; [reflexivity | exact Hres].
        -- intros Hr. destruct (Hno Hr).
        -- rewrite Hev. cbn. lia.
        -- intros args answer' Hin. rewrite Hev in Hin.
           destruct Hin as [Heq | [Heq | []]]; discriminate.
      * destruct Hcase as (answer' & w & Hev & Hres).
        split; [| split; [exact Hdef | split; [| split; [| split; [| exact Hcontents]]]]].
        -- exists (Some e). rewrite H422. exists answer'. rewrite Hev.
           split; [| exact Hres]. destruct answer'; reflexivity.
        -- intros _. split.
           ++ intros _. exists e. rewrite Hev. split; [left; reflexivity |].
              apply status_is_422_iff, H422.
           ++ intros _. eexists _, answer'. rewrite Hev. do 2 right. left. reflexivity.
        -- rewrite Hev. destruct answer'; cbn; lia.
        -- intros args answer0 Hin. rewrite Hev in Hin.
           destruct Hin as [Heq | [Heq | [Heq | Hin]]]; try discriminate.
           ++ injection Heq as <- _. repeat split.
           ++ destruct answer'; [destruct Hin | destruct Hin as [Heq | []]; discriminate].
    + destruct Hcase as (Hev & Hres).
      split; [| split; [exact Hdef | split; [| split; [| split; [| exact Hcontents]]]]].
      * exists (Some e). rewrite H422. rewrite Hev. split; [reflexivity | exact Hres].
      * intros _. rewrite Hev. split.
        -- intros (args & answer' & [Heq | []]). discriminate.
        -- intros (e' & [Heq | []] & Hst). injection Heq as <-.
           apply status_is_422_iff in Hst. congruence.
      * rewrite Hev. cbn. lia.
      * intros args answer' Hin. rewrite Hev in Hin.
        destruct Hin as [Heq | []]; discriminate.
  - destruct Hcase as (Hev & Hres).
    split; [| split; [exact Hdef | split; [| split; [| split; [| exact Hcontents]]]]].
    + exists None. rewrite Hev. split; [reflexivity | exact Hres].
    + intros _. rewrite Hev. split.
      * intros (args & answer' & [Heq | [Heq | []]]); discriminate.
      * intros (e' & [Heq | [Heq | []]] & _); discriminate.
    + rewrite Hev. cbn. lia.
    + intros args answer' Hin. rewrite Hev in Hin.
      destruct Hin as [Heq | [Heq | []]]; discriminate.
Qed.

(** C8.  Whatever value it is given, a call of [postReviewComments] that
    returns has made exactly one posting call that went through, and that
    call is the no-issues comment, the review, or the fallback comment. *)
Theorem one_post_went_through (octokit : Octokit) (owner repo : string)
    (pull_number issue_number : Z) (aiReviewComments : JValue) (h : Trace) (raw : JValue) :
  let o := postReviewComments octokit owner repo pull_number issue_number
             aiReviewComments h raw in
  result o = inr tt ->
  List.length (resolved_posts (emitted o)) = 1%nat /\
  exists elems,
    aiReviewComments = JArr elems /\
    (let comments := map github_comment_of elems in
     let summary := reviewSummary comments in
     (elems = [] /\
      resolved_posts (emitted o)
      = [EvCreateComment (mkCommentArgs owner repo issue_number NO_ISSUES_BODY) None])
     \/ (elems <> [] /\
         resolved_posts (emitted o)
         = [EvCreateReview
              (mkReviewArgs owner repo pull_number "COMMENT" summary comments) None])
     \/ (elems <> [] /\
         exists body,
           fallbackBody summary comments = inr body /\
           resolved_posts (emitted o)
           = [EvCreateComment (mkCommentArgs owner repo issue_number body) None])).
Proof.
  intros o Hok.
  destruct (postReviewComments_shape octokit owner repo pull_number issue_number
              aiReviewComments h raw) as (_ & _ & Hone).
  fold o in Hone. split; [exact (Hone tt Hok) |].
  destruct (is_array aiReviewComments) eqn:Harr.
  2:{ destruct (postReviewComments_not_array octokit owner repo pull_number issue_number
                  aiReviewComments h raw Harr) as (e & He & _).
      unfold o in Hok. rewrite He in Hok. discriminate. }
  destruct aiReviewComments as [| | | | | | elems |]; try discriminate.
  exists elems. split; [reflexivity |].
  destruct (no_nullish elems) eqn:Hn.
  2:{ destruct (postReviewComments_nullish_element octokit owner repo pull_number
                  issue_number elems h raw Hn) as (e & He).
      unfold o in Hok. rewrite He in Hok. discriminate. }
  destruct elems as [| c tl].
  - left. split; [reflexivity |].
    destruct (postReviewComments_empty octokit owner repo pull_number issue_number h raw)
      as (answer & Hev & Hres & _).
    fold o in Hev, Hres. rewrite Hres in Hok. rewrite Hev.
    destruct answer; [discriminate | reflexivity].
  - assert (Hne : c :: tl <> []) by discriminate.
    destruct (postReviewComments_findings octokit owner repo pull_number issue_number
                (c :: tl) h raw Hne Hn) as (_ & answer & Hcase).
    fold o in Hcase. cbv zeta in Hcase.
    destruct answer as [e |].
    + destruct (status_is_422 e).
      * destruct (fallbackBody _ _) as [err | body] eqn:Hbody.
        { destruct Hcase as (w & _ & Hres). rewrite Hres in Hok. discriminate. }
        destruct Hcase as (answer' & w & Hev & Hres). rewrite Hres in Hok.
        right. right. split; [exact Hne |]. exists body. split; [exact Hbody |].
        rewrite Hev. destruct answer'; [discriminate | reflexivity].
      * destruct Hcase as (_ & Hres). rewrite Hres in Hok. discriminate.
    + destruct Hcase as (Hev & _). right. left. split; [exact Hne |].
      rewrite Hev. reflexivity.
Qed.
(** C7.  Every model call of [getGeminiReview] is one POST of the same
    request: the URL is built from the model name, the body is the
    JSON-encoded payload built from the diff, and the API key is the value of
    the [X-Goog-Api-Key] header and occurs nowhere else.  Two calls that
    differ in the API key (and in what the surroundings answer) send the same
    URL and the same body in every attempt. *)
Theorem api_key_only_in_header (env : Env) (apiKey apiKey' model codeDiff : string)
    (h h' : Trace) (raw raw' : JValue) :
  let o := getGeminiReview env apiKey model codeDiff h raw in
  let o' := getGeminiReview env apiKey' model codeDiff h' raw' in
  requests (emitted o)
    = repeat (mkRequest (apiUrl model) "POST"
                [("Content-Type", "application/json"); ("X-Goog-Api-Key", apiKey)]
                (JSON_stringify env (payload codeDiff)))
        (List.length (fetch_results (emitted o))) /\
  (forall req req',
      In req (requests (emitted o)) -> In req' (requests (emitted o')) ->
      req_method req = "POST" /\ req_method req' = "POST" /\
      req_url req = req_url req' /\ req_body req = req_body req' /\
      req_headers req = [("Content-Type", "application/json"); ("X-Goog-Api-Key", apiKey)] /\
      req_headers req' = [("Content-Type", "application/json"); ("X-Goog-Api-Key", apiKey')]).
Proof.
  intros o o'.
  destruct (getGeminiReview_cases env apiKey model codeDiff h raw) as (_ & Hk & _).
  destruct (getGeminiReview_cases env apiKey' model codeDiff h' raw') as (_ & Hk' & _).
  apply model_events_quiet in Hk, Hk'.
  destruct Hk as (_ & _ & _ & Hr). destruct Hk' as (_ & _ & _ & Hr').
  fold o in Hr. fold o' in Hr'.
  split; [exact Hr |].
  intros req req' Hin Hin'. rewrite Hr in Hin. rewrite Hr' in Hin'.
  apply repeat_spec in Hin, Hin'. subst req req'. repeat split.
Qed.




(* ===================================================================== *)
(** * The theorems at work on concrete runs *)
(* ===================================================================== *)

(** Two failed attempts, then a finding: a wait of 2000 ms and a second
    attempt follow the first failure, the call returns the finding after
    waiting 2000 and 4000 ms, as does, without waiting, a call whose first
    attempt gets that third response. *)
Lemma getGeminiReview_retry_schedule_witness :
  fetch_results
    (emitted (getGeminiReview Demo.flaky_env "secret-key" "gemini-2.5-flash"
                Demo.long_diff [] JUndefined))
  = Demo.flaky_script /\
  attempt_findings Demo.flaky_env (inr Demo.unavailable) = None /\
  nth_error
    (ticks (emitted (getGeminiReview Demo.flaky_env "secret-key" "gemini-2.5-flash"
                       Demo.long_diff [] JUndefined))) 1
  = Some (Wait 2000) /\
  attempt_findings Demo.flaky_env (inr (Demo.text_response Demo.one_finding_text))
  = Some Demo.one_finding /\
  result (getGeminiReview Demo.flaky_env "secret-key" "gemini-2.5-flash"
            Demo.long_diff [] JUndefined)
  = inr Demo.one_finding /\
  sleeps (emitted (getGeminiReview Demo.flaky_env "secret-key" "gemini-2.5-flash"
                     Demo.long_diff [] JUndefined))
  = [2000; 4000]%Z /\
  result (getGeminiReview Demo.flaky_env "other-key" "gemini-2.5-flash"
            Demo.long_diff Demo.two_calls_made JUndefined)
  = inr Demo.one_finding.
Proof.
  split; [reflexivity |]. split; [reflexivity |].
  destruct (getGeminiReview_retry_schedule Demo.flaky_env "secret-key" "gemini-2.5-flash"
              Demo.long_diff [] JUndefined) as (_ & _ & Hnext & _ & _ & _ & Hidem).
  destruct (Hnext 0%nat (inr Demo.unavailable) eq_refl eq_refl ltac:(lia))
    as (Hwait & _).
  split; [exact Hwait |]. split; [reflexivity |].
  destruct (Hidem (inr Demo.unavailable) (inr Demo.no_candidates)
              (inr (Demo.text_response Demo.one_finding_text)) Demo.one_finding
              eq_refl eq_refl) as (Hres & Hsleeps & Hother).
  split; [exact Hres |]. split; [exact Hsleeps |].
  destruct (Hother "other-key" "gemini-2.5-flash" Demo.long_diff Demo.two_calls_made
              JUndefined eq_refl) as (Hsame & _).
  rewrite Hsame. exact Hres.
Defined.

(** Three unsuccessful answers: the run posts nothing and reports the
    exhaustion error, which quotes the text of the first.  Where the first
    answer held an object without primitive value in place of the text, the
    run reports the [TypeError] of its conversion. *)
Lemma retry_exhaustion_is_fatal_witness :
  (attempt_findings Demo.garbled_env (inr Demo.no_candidates) = None /\
   fetch_results (emitted (run Demo.garbled_env [] JUndefined)) = Demo.garbled_script /\
   posts (emitted (run Demo.garbled_env [] JUndefined)) = [] /\
   exists before,
     emitted (run Demo.garbled_env [] JUndefined)
     = before ++ [EvSetFailed (EXHAUSTED_PREFIX ++ "oops")%string]) /\
  (attempt_findings Demo.opaque_payload_env (inr Demo.no_candidates) = None /\
   fetch_results (emitted (run Demo.opaque_payload_env [] JUndefined))
   = Demo.opaque_payload_script /\
   posts (emitted (run Demo.opaque_payload_env [] JUndefined)) = [] /\
   exists before,
     emitted (run Demo.opaque_payload_env [] JUndefined)
     = before ++ [EvSetFailed "Cannot convert object to primitive value"]).
Proof.
  split.
  - split; [reflexivity |]. split; [reflexivity |].
    destruct (retry_exhaustion_is_fatal Demo.garbled_env
                (inr (Demo.text_response "oops")) (inr Demo.unavailable)
                (inr Demo.no_candidates) eq_refl) as (_ & _ & _ & _ & Hrun).
    destruct (Hrun [] JUndefined eq_refl) as (Hposts & _ & Hlast).
    split; [exact Hposts | exact Hlast].
  - split; [reflexivity |]. split; [reflexivity |].
    destruct (retry_exhaustion_is_fatal Demo.opaque_payload_env
                (inr (Demo.payload_response Demo.opaque)) (inr Demo.unavailable)
                (inr Demo.no_candidates) eq_refl) as (_ & _ & _ & _ & Hrun).
    destruct (Hrun [] JUndefined eq_refl) as (Hposts & _ & Hlast).
    split; [exact Hposts | exact Hlast].
Defined.

(** The third answer has no candidates: the error quotes the text of the
    first. *)
Lemma exhaustion_quotes_earlier_text_witness :
  fetch_results
    (emitted (getGeminiReview Demo.garbled_env "secret-key" "gemini-2.5-flash"
                Demo.long_diff [] JUndefined))
  = Demo.garbled_script /\
  response_text (inr Demo.no_candidates) = None /\
  result (getGeminiReview Demo.garbled_env "secret-key" "gemini-2.5-flash"
            Demo.long_diff [] JUndefined)
  = inl (Error (EXHAUSTED_PREFIX ++ "oops")%string).
Proof.
  split; [reflexivity |]. split; [reflexivity |].
  destruct (exhaustion_quotes_earlier_text Demo.garbled_env "secret-key"
              "gemini-2.5-flash" Demo.long_diff [] JUndefined
              (inr (Demo.text_response "oops")) (inr Demo.unavailable)
              (inr Demo.no_candidates) eq_refl eq_refl) as (_ & _ & Hres & _).
  exact Hres.
Defined.

(** A diff of four characters, and one of five characters that take ten
    bytes: nothing is sent to the model, nothing is posted. *)
Lemma insignificant_diff_ends_the_run_witness :
  (In (EvPullsGet
         (mkPullsGetArgs "octo" "demo" 7 [("Accept", "application/vnd.github.v3.diff")])
         (inr (Some "tiny")))
      (emitted (run Demo.tiny_diff_env [] JUndefined)) /\
   not_significant (Some "tiny") /\
   requests (emitted (run Demo.tiny_diff_env [] JUndefined)) = [] /\
   posts (emitted (run Demo.tiny_diff_env [] JUndefined)) = []) /\
  (In (EvPullsGet
         (mkPullsGetArgs "octo" "demo" 7 [("Accept", "application/vnd.github.v3.diff")])
         (inr (Some Demo.accented_diff)))
      (emitted (run Demo.accented_diff_env [] JUndefined)) /\
   String.length Demo.accented_diff = 10%nat /\
   not_significant (Some Demo.accented_diff) /\
   requests (emitted (run Demo.accented_diff_env [] JUndefined)) = [] /\
   posts (emitted (run Demo.accented_diff_env [] JUndefined)) = []).
Proof.
  destruct insignificant_diff_ends_the_run as (_ & Hrun).
  split.
  - assert (Hin : In (EvPullsGet
                        (mkPullsGetArgs "octo" "demo" 7
                           [("Accept", "application/vnd.github.v3.diff")])
                        (inr (Some "tiny")))
                     (emitted (run Demo.tiny_diff_env [] JUndefined))).
    { right. left. reflexivity. }
    assert (Hshort : not_significant (Some "tiny")) by (cbn; lia).
    split; [exact Hin |]. split; [exact Hshort |].
    destruct (Hrun Demo.tiny_diff_env [] JUndefined _ _ Hin Hshort)
      as (Hreq & _ & Hposts & _).
    split; [exact Hreq | exact Hposts].
  - assert (Hin : In (EvPullsGet
                        (mkPullsGetArgs "octo" "demo" 7
                           [("Accept", "application/vnd.github.v3.diff")])
                        (inr (Some Demo.accented_diff)))
                     (emitted (run Demo.accented_diff_env [] JUndefined))).
    { right. left. reflexivity. }
    assert (Hshort : not_significant (Some Demo.accented_diff)) by (cbn; lia).
    split; [exact Hin |]. split; [reflexivity |]. split; [exact Hshort |].
    destruct (Hrun Demo.accented_diff_env [] JUndefined _ _ Hin Hshort)
      as (Hreq & _ & Hposts & _).
    split; [exact Hreq | exact Hposts].
Defined.

(** One finding, accepted: one review with the one inline comment. *)
Lemma findings_one_review_witness :
  [JObj [("path", JStr "a.py"); ("line", JNum 42); ("comment", JStr "Unused import.")]]
  <> [] /\
  no_nullish
    [JObj [("path", JStr "a.py"); ("line", JNum 42); ("comment", JStr "Unused import.")]]
  = true /\
  exists review answer later,
    posts (emitted (postReviewComments Demo.accepting "octo" "demo" 7 7
                      Demo.one_finding [] JUndefined))
    = EvCreateReview review answer :: later /\
    rv_event review = "COMMENT" /\
    List.length (rv_comments review) = 1%nat.
Proof.
  split; [discriminate |]. split; [reflexivity |].
  destruct (findings_one_review Demo.accepting "octo" "demo" 7 7
              [JObj [("path", JStr "a.py"); ("line", JNum 42);
                     ("comment", JStr "Unused import.")]]
              [] JUndefined ltac:(discriminate) eq_refl)
    as (review & answer & later & Hposts & _ & Hevent & _ & Hlen & _).
  exists review, answer, later. split; [exact Hposts |]. split; [exact Hevent | exact Hlen].
Defined.

(** One finding, rejected with status 422: the review call and then the
    fallback comment, which lists the finding; rejected with status 403: no
    comment. *)
Lemma fallback_exactly_on_422_witness :
  [JObj [("path", JStr "a.py"); ("line", JNum 42); ("comment", JStr "Unused import.")]]
  <> [] /\
  no_nullish
    [JObj [("path", JStr "a.py"); ("line", JNum 42); ("comment", JStr "Unused import.")]]
  = true /\
  forallb renders_entry
    (map github_comment_of
       [JObj [("path", JStr "a.py"); ("line", JNum 42); ("comment", JStr "Unused import.")]])
  = true /\
  (exists args answer,
      In (EvCreateComment args answer)
         (emitted (postReviewComments Demo.rejecting "octo" "demo" 7 7
                     Demo.one_finding [] JUndefined)) /\
      contains (cm_body args) "- **a.py (Line 42):** Unused import.") /\
  ~ (exists args answer,
        In (EvCreateComment args answer)
           (emitted (postReviewComments Demo.refusing "octo" "demo" 7 7
                       Demo.one_finding [] JUndefined))).
Proof.
  split; [discriminate |]. split; [reflexivity |]. split; [reflexivity |]. split.
  - destruct (fallback_exactly_on_422 Demo.rejecting "octo" "demo" 7 7
                [JObj [("path", JStr "a.py"); ("line", JNum 42);
                       ("comment", JStr "Unused import.")]]
                [] JUndefined ltac:(discriminate) eq_refl)
      as (_ & _ & Hiff & _ & Hbody & Hcontents).
    assert (Hposted : exists args answer,
               In (EvCreateComment args answer)
                  (emitted (postReviewComments Demo.rejecting "octo" "demo" 7 7
                              Demo.one_finding [] JUndefined))).
    { apply (Hiff eq_refl). exists Demo.unprocessable.
      split; [left; reflexivity | reflexivity]. }
    destruct Hposted as (args & answer & Hin).
    exists args, answer. split; [exact Hin |].
    destruct (Hbody args answer Hin) as (Hb & _).
    destruct (Hcontents (cm_body args) Hb) as (_ & Hentries).
    destruct (Hentries _ ltac:(left; reflexivity))
      as (path & line & comment & Hp & Hl & Hc & Hentry).
    injection Hp as <-. injection Hl as <-. injection Hc as <-.
    exact Hentry.
  - destruct (fallback_exactly_on_422 Demo.refusing "octo" "demo" 7 7
                [JObj [("path", JStr "a.py"); ("line", JNum 42);
                       ("comment", JStr "Unused import.")]]
                [] JUndefined ltac:(discriminate) eq_refl) as (_ & _ & Hiff & _).
    intros Hposted. apply (Hiff eq_refl) in Hposted.
    destruct Hposted as (e & Hin & Hstatus).
    destruct Hin as [Heq | []]. injection Heq as <-. discriminate Hstatus.
Defined.

(** C6, as stated, fails on two counts.  A review rejected with status 422
    does not always lead to a fallback comment: for a finding whose [path] is
    an object without primitive value, writing the comment throws a
    [TypeError] and the rejected review remains the only posting call.  And
    where the comment is posted, its entry for the finding reads
    [- **a.py (Line 42):** Unused import.], not
    [a.py (line 42): Unused import.]. *)
Lemma fallback_comment_not_as_claimed :
  (err_status Demo.unprocessable = JNum 422 /\
   posts (emitted (postReviewComments Demo.rejecting "octo" "demo" 7 7
                     (JArr [Demo.opaque_path_finding]) [] JUndefined))
   = [EvCreateReview
        (mkReviewArgs "octo" "demo" 7 "COMMENT"
           (reviewSummary [github_comment_of Demo.opaque_path_finding])
           [github_comment_of Demo.opaque_path_finding])
        (Some Demo.unprocessable)] /\
   result (postReviewComments Demo.rejecting "octo" "demo" 7 7
             (JArr [Demo.opaque_path_finding]) [] JUndefined)
   = inl TypeError_primitive) /\
  exists review body,
    posts (emitted (postReviewComments Demo.rejecting "octo" "demo" 7 7
                      Demo.one_finding [] JUndefined))
    = [EvCreateReview review (Some Demo.unprocessable);
       EvCreateComment (mkCommentArgs "octo" "demo" 7 body) None] /\
    contains body "- **a.py (Line 42):** Unused import." /\
    ~ contains body "a.py (line 42): Unused import.".
Proof.
  split; [repeat split |].
  eexists _, _. split; [vm_compute; reflexivity |]. split.
  - eapply index_contains. vm_compute. reflexivity.
  - apply index_none_not_contains; [vm_compute; reflexivity | discriminate].
Qed.

(** A rejected review with the fallback accepted: the call returns and one
    post went through. *)
Lemma one_post_went_through_witness :
  result (postReviewComments Demo.rejecting "octo" "demo" 7 7
            Demo.one_finding [] JUndefined) = inr tt /\
  List.length
    (resolved_posts
       (emitted (postReviewComments Demo.rejecting "octo" "demo" 7 7
                   Demo.one_finding [] JUndefined))) = 1%nat.
Proof.
  split; [reflexivity |].
  exact (proj1 (one_post_went_through Demo.rejecting "octo" "demo" 7 7
                  Demo.one_finding [] JUndefined eq_refl)).
Defined.



(* ===================================================================== *)
(** * Further properties of the pipeline *)
(* ===================================================================== *)

Lemma failures_app (t u : Trace) : failures (t ++ u) = failures t ++ failures u.
Proof. apply flat_map_app. Qed.

Lemma pulls_gets_app (t u : Trace) : pulls_gets (t ++ u) = pulls_gets t ++ pulls_gets u.
Proof. apply flat_map_app. Qed.

Lemma resolved_posts_app (t u : Trace) :
  resolved_posts (t ++ u) = resolved_posts t ++ resolved_posts u.
Proof. apply filter_app. Qed.

Lemma warnings_app (t u : Trace) : warnings (t ++ u) = warnings t ++ warnings u.
Proof. apply flat_map_app. Qed.

(** [fetchCodeDiff] asks once, for the diff of the pull request it was
    given, and logs; it reports nothing and posts nothing. *)
Lemma fetchCodeDiff_events (octokit : Octokit) (owner repo : string) (n : Z)
    (h : Trace) (raw : JValue) :
  let o := fetchCodeDiff octokit owner repo n h raw in
  exists res,
    pulls_gets (emitted o) = [(diff_request owner repo n, res)] /\
    Forall diff_event (emitted o) /\
    failures (emitted o) = [] /\ resolved_posts (emitted o) = [] /\
    warnings (emitted o) = [] /\
    result o =
      match res with
      | inl e => inl e
      | inr data => if falsy_text data || (text_length data <? 10)%nat
                    then inr None else inr data
      end.
Proof.
  destruct (fetchCodeDiff_cases octokit owner repo n h raw) as (_ & res & msg & Hev & Hres).
  cbv zeta in *. exists res. rewrite Hev, Hres.
  destruct res; cbn; repeat split; repeat constructor.
Qed.

Lemma model_events_silent (req : Request) (t : Trace) :
  Forall (model_call_event req) t ->
  failures t = [] /\ resolved_posts t = [] /\ pulls_gets t = [].
Proof.
  induction 1 as [| ev t Hev _ IH]; cbn; [repeat split |].
  destruct IH as (Hf & Hr & Hp).
  destruct ev; cbn in Hev; try contradiction; cbn; repeat split; assumption.
Qed.

Lemma posting_events_silent (t : Trace) :
  Forall posting_event t -> failures t = [] /\ pulls_gets t = [] /\ requests t = [].
Proof.
  induction 1 as [| ev t Hev _ IH]; cbn; [repeat split |].
  destruct IH as (Hf & Hp & Hr).
  destruct ev; cbn in Hev; try contradiction; cbn; repeat split; assumption.
Qed.

(** Every posting call of [postReviewComments] goes to the pull request
    and the issue it was given, and a call that throws has made no posting
    call that went through. *)
Lemma postReviewComments_addressed (octokit : Octokit) (owner repo : string)
    (pn inum : Z) (v : JValue) (h : Trace) (raw : JValue) :
  let o := postReviewComments octokit owner repo pn inum v h raw in
  Forall (addressed_to owner repo pn inum) (emitted o) /\
  (forall e, result o = inl e -> resolved_posts (emitted o) = []) /\
  (posts (emitted o) <> [] -> exists elems, v = JArr elems /\ no_nullish elems = true).
Proof.
  destruct (is_array v) eqn:Harr.
  2:{ destruct (postReviewComments_not_array octokit owner repo pn inum v h raw Harr)
        as (e & He & _).
      cbv zeta. rewrite He. cbn. repeat split; [constructor | congruence]. }
  destruct v as [| | | | | | elems |]; try discriminate.
  destruct (no_nullish elems) eqn:Hn.
  2:{ destruct (postReviewComments_nullish_element octokit owner repo pn inum elems h raw Hn)
        as (e & He).
      cbv zeta. rewrite He. cbn. repeat split; [constructor | congruence]. }
  assert (Harray : exists elems', JArr elems = JArr elems' /\ no_nullish elems' = true).
  { exists elems. split; [reflexivity | exact Hn]. }
  destruct elems as [| c tl].
  - destruct (postReviewComments_empty octokit owner repo pn inum h raw)
      as (res & Hev & Hres & _).
    cbv zeta in *. rewrite Hev, Hres.
    destruct res; cbn; repeat split; repeat constructor; try discriminate;
      intros _; exact Harray.
  - assert (Hne : c :: tl <> []) by discriminate.
    destruct (postReviewComments_findings octokit owner repo pn inum (c :: tl) h raw Hne Hn)
      as (_ & res & Hcase).
    cbv zeta in *.
    destruct res as [e |].
    + destruct (status_is_422 e).
      * destruct (fallbackBody _ _) as [err | body].
        -- destruct Hcase as (w & Hev & Hres). rewrite Hev, Hres.
           cbn; repeat split; repeat constructor; intros _; exact Harray.
        -- destruct Hcase as (res' & w & Hev & Hres). rewrite Hev, Hres.
           destruct res'; cbn; repeat split; repeat constructor; try discriminate;
             intros _; exact Harray.
      * destruct Hcase as (Hev & Hres). rewrite Hev, Hres.
        cbn; repeat split; repeat constructor; intros _; exact Harray.
    + destruct Hcase as (Hev & Hres). rewrite Hev, Hres.
      cbn; repeat split; repeat constructor; try discriminate; intros _; exact Harray.
Qed.

(** X1.  A run that cannot initialise does nothing but report it: on an
    event other than [pull_request], and when [github.getOctokit] throws on
    a pull-request event, the whole run is one [core.setFailed] with the
    fixed message or with the message of the error, and it returns. *)
Theorem run_cannot_initialise (env : Env) (h : Trace) (raw : JValue) :
  ((context_eventName env =? "pull_request")%string = false ->
   run env h raw
   = mkOutcome [EvSetFailed "This action is only available for pull requests!"]
       raw (inr tt)) /\
  (forall e,
      (context_eventName env =? "pull_request")%string = true ->
      getOctokit env (getInput env "github-token") = inl e ->
      run env h raw = mkOutcome [EvSetFailed (err_message e)] raw (inr tt)).
Proof.
  split.
  - intros Hev. unfold run, try_catch, bind, initializeAction. rewrite Hev. reflexivity.
  - intros e Hev Hocto. unfold run, try_catch, bind, initializeAction.
    rewrite Hev, Hocto. reflexivity.
Qed.

(** The anatomy of a run: it fails to initialise, or it fetches the diff
    and stops (on an error or on a diff that is not significant), or it goes
    on to the model with that diff and the configured key and model name,
    and, when the model call returns, to posting on the pull request of the
    event. *)
Lemma run_anatomy (env : Env) (h : Trace) (raw : JValue) :
  let o := run env h raw in
  let owner := context_owner env in
  let repo := context_repo env in
  let n := context_issue_number env in
  result o = inr tt /\
  ((exists msg, emitted o = [EvSetFailed msg])
   \/ exists octokit hd rawd,
       let od := fetchCodeDiff octokit owner repo n hd rawd in
       (exists e, result od = inl e /\
                  emitted o = emitted od ++ [EvSetFailed (err_message e)])
       \/ (result od = inr None /\ emitted o = emitted od)
       \/ exists diff hg rawg,
            result od = inr (Some diff) /\
            (10 <= js_length diff)%nat /\
            pulls_gets (emitted od) = [(diff_request owner repo n, inr (Some diff))] /\
            let og := getGeminiReview env (getInput env "gemini-api-key")
                        (getInput env "model") diff hg rawg in
            (exists e, result og = inl e /\
                       emitted o = emitted od ++ emitted og ++ [EvSetFailed (err_message e)])
            \/ exists v hp rawp,
                 result og = inr v /\
                 let op := postReviewComments octokit owner repo n n v hp rawp in
                 emitted o = emitted od ++ emitted og ++ emitted op ++
                             match result op with
                             | inl e => [EvSetFailed (err_message e)]
                             | inr _ => []
                             end).
Proof.
  destruct (run_cases env h raw) as (Hok & Hc). cbv zeta in *.
  split; [exact Hok |].
  destruct Hc as [Hinit | (octokit & hd & rawd & Hc)]; [left; exact Hinit |].
  right. exists octokit, hd, rawd.
  destruct (fetchCodeDiff_events octokit (context_owner env) (context_repo env)
              (context_issue_number env) hd rawd) as (res & Hpg & _ & _ & _ & _ & Hres).
  cbv zeta in *.
  destruct Hc as [Herr | [(d & Hd & Hfalsy & Hev) | (d & hg & rawg & Hd & Hfalsy & Hc)]].
  - left. exact Herr.
  - right. left. split; [| exact Hev].
    rewrite Hd in Hres. rewrite Hd.
    destruct res as [e | data]; [discriminate |].
    destruct (falsy_text data || (text_length data <? 10)%nat) eqn:Hs.
    + injection Hres as ->. reflexivity.
    + injection Hres as ->. apply orb_false_elim in Hs. destruct Hs. congruence.
  - right. right.
    rewrite Hd in Hres.
    destruct res as [e | data]; [discriminate |].
    destruct (falsy_text data || (text_length data <? 10)%nat) eqn:Hs.
    { injection Hres as ->. discriminate. }
    injection Hres as ->. apply orb_false_elim in Hs. destruct Hs as (_ & Hlen).
    destruct data as [diff |]; [| discriminate].
    apply Nat.ltb_ge in Hlen. cbn in Hlen.
    exists diff, hg, rawg.
    split; [exact Hd |]. split; [exact Hlen |]. split; [exact Hpg |].
    exact Hc.
Qed.

Lemma diff_events_quiet (t : Trace) :
  Forall diff_event t ->
  fetch_results t = [] /\ requests t = [] /\ posts t = [] /\ ticks t = [].
Proof.
  induction 1 as [| ev t Hev _ IH]; cbn; [repeat split |].
  destruct IH as (Hf & Hr & Hp & Ht).
  destruct ev; cbn in Hev; try contradiction; cbn; repeat split; assumption.
Qed.

(** X2.  [run] never throws, and it reports at most one failure, as the
    last thing it does.  A run that reports a failure has made no posting
    call that went through, and no run makes more than one. *)
Theorem run_reports_at_most_once (env : Env) (h : Trace) (raw : JValue) :
  let o := run env h raw in
  result o = inr tt /\
  (List.length (resolved_posts (emitted o)) <= 1)%nat /\
  (failures (emitted o) = []
   \/ exists before msg,
        emitted o = before ++ [EvSetFailed msg] /\
        failures before = [] /\ resolved_posts before = []).
Proof.
  intros o. destruct (run_anatomy env h raw) as (Hok & Hc). fold o in Hok, Hc.
  cbv zeta in Hc. split; [exact Hok |].
  destruct Hc as [(msg & Hev) | (octokit & hd & rawd & Hc)].
  { rewrite Hev. cbn. split; [lia |]. right. exists [], msg. repeat split. }
  destruct (fetchCodeDiff_events octokit (context_owner env) (context_repo env)
              (context_issue_number env) hd rawd)
    as (res & _ & _ & Hfd & Hrd & _ & _).
  cbv zeta in Hfd, Hrd.
  destruct Hc as [(e & _ & Hev) | [(_ & Hev) | (diff & hg & rawg & _ & _ & _ & Hc)]].
  { rewrite Hev, resolved_posts_app, Hrd. cbn. split; [lia |].
    right. eexists _, _. split; [reflexivity |]. split; assumption. }
  { rewrite Hev, Hrd, Hfd. cbn. split; [lia | left; reflexivity]. }
  cbv zeta in Hc.
  destruct (getGeminiReview_cases env (getInput env "gemini-api-key")
              (getInput env "model") diff hg rawg) as (_ & Hkg & _).
  apply model_events_silent in Hkg. destruct Hkg as (Hfg & Hrg & _).
  destruct Hc as [(e & _ & Hev) | (v & hp & rawp & _ & Hev)].
  { rewrite Hev, !resolved_posts_app, Hrd, Hrg. cbn. split; [lia |].
    right. exists (emitted (fetchCodeDiff octokit (context_owner env) (context_repo env)
                              (context_issue_number env) hd rawd)
                   ++ emitted (getGeminiReview env (getInput env "gemini-api-key")
                                 (getInput env "model") diff hg rawg)), (err_message e).
    rewrite <- app_assoc. split; [reflexivity |].
    rewrite failures_app, resolved_posts_app, Hfd, Hfg, Hrd, Hrg. split; reflexivity. }
  destruct (postReviewComments_shape octokit (context_owner env) (context_repo env)
              (context_issue_number env) (context_issue_number env) v hp rawp)
    as (_ & Hkp & Hone).
  destruct (postReviewComments_addressed octokit (context_owner env) (context_repo env)
              (context_issue_number env) (context_issue_number env) v hp rawp)
    as (_ & Hnone & _).
  cbv zeta in Hkp, Hone, Hnone.
  apply posting_events_silent in Hkp. destruct Hkp as (Hfp & _).
  set (od := emitted (fetchCodeDiff octokit (context_owner env) (context_repo env)
                        (context_issue_number env) hd rawd)) in *.
  set (og := emitted (getGeminiReview env (getInput env "gemini-api-key")
                        (getInput env "model") diff hg rawg)) in *.
  set (op := postReviewComments octokit (context_owner env) (context_repo env)
               (context_issue_number env) (context_issue_number env) v hp rawp) in *.
  destruct (result op) as [e | []] eqn:Hp.
  - pose proof (Hnone e eq_refl) as Hrp.
    rewrite Hev, !resolved_posts_app, Hrd, Hrg, Hrp. cbn. split; [lia |].
    right. exists (od ++ og ++ emitted op), (err_message e).
    rewrite <- !app_assoc. split; [reflexivity |].
    rewrite !failures_app, !resolved_posts_app, Hfd, Hfg, Hfp, Hrd, Hrg, Hrp.
    split; reflexivity.
  - pose proof (Hone tt eq_refl) as Hrp.
    rewrite Hev, !resolved_posts_app, !failures_app, Hrd, Hrg, Hfd, Hfg, Hfp.
    cbn. rewrite !app_nil_r, Hrp. split; [lia | left; reflexivity].
Qed.

(** X3.  [run] asks GitHub for the diff at most once, and only for the
    pull request of the event, with the diff media type: a failed request is
    not repeated.  When it fails, the run is exactly the log line, the
    request and the report of the error's message. *)
Theorem diff_is_requested_once (env : Env) (h : Trace) (raw : JValue) :
  let o := run env h raw in
  let args := diff_request (context_owner env) (context_repo env)
                (context_issue_number env) in
  (pulls_gets (emitted o) = [] \/ exists res, pulls_gets (emitted o) = [(args, res)]) /\
  (forall e,
      In (args, inl e) (pulls_gets (emitted o)) ->
      emitted o = [EvInfo "Fetching diffs from GitHub..."; EvPullsGet args (inl e);
                   EvSetFailed (err_message e)]).
Proof.
  intros o args. destruct (run_anatomy env h raw) as (_ & Hc). fold o in Hc.
  cbv zeta in Hc.
  destruct Hc as [(msg & Hev) | (octokit & hd & rawd & Hc)].
  { rewrite Hev. cbn. split; [left; reflexivity | intros e []]. }
  destruct (fetchCodeDiff_cases octokit (context_owner env) (context_repo env)
              (context_issue_number env) hd rawd) as (_ & res & msg & Hevd & Hresd).
  cbv zeta in Hevd, Hresd. fold args in Hevd.
  assert (Hpg : pulls_gets
                  (emitted (fetchCodeDiff octokit (context_owner env) (context_repo env)
                              (context_issue_number env) hd rawd)) = [(args, res)]).
  { rewrite Hevd. destruct res; reflexivity. }
  assert (Hall : pulls_gets (emitted o) = [(args, res)]).
  { destruct Hc as [(e & _ & Hev) | [(_ & Hev) | (diff & hg & rawg & _ & _ & _ & Hc)]].
    - rewrite Hev, pulls_gets_app, Hpg. reflexivity.
    - rewrite Hev. exact Hpg.
    - cbv zeta in Hc.
      destruct (getGeminiReview_cases env (getInput env "gemini-api-key")
                  (getInput env "model") diff hg rawg) as (_ & Hkg & _).
      apply model_events_silent in Hkg. destruct Hkg as (_ & _ & Hpgg).
      destruct Hc as [(e & _ & Hev) | (v & hp & rawp & _ & Hev)].
      + rewrite Hev, !pulls_gets_app, Hpg, Hpgg. reflexivity.
      + destruct (postReviewComments_shape octokit (context_owner env) (context_repo env)
                    (context_issue_number env) (context_issue_number env) v hp rawp)
          as (_ & Hkp & _).
        cbv zeta in Hkp. apply posting_events_silent in Hkp. destruct Hkp as (_ & Hpgp & _).
        rewrite Hev, !pulls_gets_app, Hpg, Hpgg, Hpgp.
        destruct (result (postReviewComments _ _ _ _ _ _ _ _)); reflexivity. }
  split; [right; exists res; exact Hall |].
  intros e Hin. rewrite Hall in Hin. destruct Hin as [Heq | []].
  assert (Hres : res = inl e) by congruence. subst res. rewrite Hresd in Hc.
  destruct Hc as [(e' & He' & Hev) | [(Hnone & _) | (diff & hg & rawg & Hsome & _)]];
    try discriminate.
  injection He' as <-. rewrite Hev, Hevd. reflexivity.
Qed.

(** X4.  The stages of a run happen in order and do not interleave: first
    the diff is fetched, then the model is called (every call with one and
    the same request), then the findings are posted, and a failure is
    reported last. *)
Theorem run_stages_in_order (env : Env) (h : Trace) (raw : JValue) :
  exists fetching asking posting reporting req,
    emitted (run env h raw) = fetching ++ asking ++ posting ++ reporting /\
    Forall diff_event fetching /\
    Forall (model_call_event req) asking /\
    Forall posting_event posting /\
    (reporting = [] \/ exists msg, reporting = [EvSetFailed msg]).
Proof.
  pose (req0 := mkRequest EmptyString EmptyString [] EmptyString).
  destruct (run_anatomy env h raw) as (_ & Hc). cbv zeta in Hc.
  destruct Hc as [(msg & Hev) | (octokit & hd & rawd & Hc)].
  { exists [], [], [], [EvSetFailed msg], req0. rewrite Hev.
    split; [reflexivity |]. split; [constructor |]. split; [constructor |].
    split; [constructor |]. right. exists msg. reflexivity. }
  destruct (fetchCodeDiff_events octokit (context_owner env) (context_repo env)
              (context_issue_number env) hd rawd) as (res & _ & Hkd & _).
  cbv zeta in Hkd.
  destruct Hc as [(e & _ & Hev) | [(_ & Hev) | (diff & hg & rawg & _ & _ & _ & Hc)]].
  { eexists _, [], [], [EvSetFailed (err_message e)], req0. rewrite Hev.
    split; [reflexivity |]. split; [exact Hkd |]. split; [constructor |].
    split; [constructor |]. right. eexists. reflexivity. }
  { eexists _, [], [], [], req0. rewrite Hev.
    split; [rewrite app_nil_r; reflexivity |]. split; [exact Hkd |].
    split; [constructor |]. split; [constructor |]. left. reflexivity. }
  cbv zeta in Hc.
  destruct (getGeminiReview_cases env (getInput env "gemini-api-key")
              (getInput env "model") diff hg rawg) as (_ & Hkg & _).
  destruct Hc as [(e & _ & Hev) | (v & hp & rawp & _ & Hev)].
  { eexists _, _, [], [EvSetFailed (err_message e)], _. rewrite Hev.
    split; [reflexivity |]. split; [exact Hkd |]. split; [exact Hkg |].
    split; [constructor |]. right. eexists. reflexivity. }
  destruct (postReviewComments_shape octokit (context_owner env) (context_repo env)
              (context_issue_number env) (context_issue_number env) v hp rawp)
    as (_ & Hkp & _).
  cbv zeta in Hkp.
  eexists _, _, _, _, _. rewrite Hev.
  split; [reflexivity |]. split; [exact Hkd |]. split; [exact Hkg |]. split; [exact Hkp |].
  destruct (result (postReviewComments _ _ _ _ _ _ _ _));
    [right; eexists; reflexivity | left; reflexivity].
Qed.

(** X5.  [run] calls the model only with a diff it has fetched, and with
    that diff as it is: whenever a model call is made, GitHub had answered
    the one diff request with a text of at least ten UTF-16 code units, and every
    model call of the run sends the request built from the configured API
    key, the configured model name and that text. *)
Theorem model_is_asked_about_the_fetched_diff (env : Env) (h : Trace) (raw : JValue) :
  let o := run env h raw in
  requests (emitted o) = [] \/
  exists diff,
    pulls_gets (emitted o)
    = [(diff_request (context_owner env) (context_repo env) (context_issue_number env),
        inr (Some diff))] /\
    (10 <= js_length diff)%nat /\
    requests (emitted o)
    = repeat (gemini_request env (getInput env "gemini-api-key") (getInput env "model") diff)
        (List.length (fetch_results (emitted o))).
Proof.
  intros o. destruct (run_anatomy env h raw) as (_ & Hc). fold o in Hc. cbv zeta in Hc.
  destruct Hc as [(msg & Hev) | (octokit & hd & rawd & Hc)].
  { left. rewrite Hev. reflexivity. }
  destruct (fetchCodeDiff_events octokit (context_owner env) (context_repo env)
              (context_issue_number env) hd rawd) as (res & _ & Hkd & _).
  cbv zeta in Hkd. apply diff_events_quiet in Hkd. destruct Hkd as (Hfd & Hrd & _).
  destruct Hc as [(e & _ & Hev) | [(_ & Hev) | (diff & hg & rawg & _ & Hlen & Hpg & Hc)]].
  { left. rewrite Hev, requests_app, Hrd. reflexivity. }
  { left. rewrite Hev. exact Hrd. }
  right. exists diff. cbv zeta in Hc.
  destruct (getGeminiReview_cases env (getInput env "gemini-api-key")
              (getInput env "model") diff hg rawg) as (_ & Hkg & _).
  pose proof (model_events_silent _ _ Hkg) as (_ & _ & Hpgg).
  apply model_events_quiet in Hkg. destruct Hkg as (_ & _ & _ & Hrg).
  destruct Hc as [(e & _ & Hev) | (v & hp & rawp & _ & Hev)].
  - rewrite Hev, !pulls_gets_app, !requests_app, !fetch_results_app, Hpg, Hpgg, Hrd, Hfd.
    cbn. rewrite !app_nil_r. split; [reflexivity |]. split; [exact Hlen | exact Hrg].
  - destruct (postReviewComments_shape octokit (context_owner env) (context_repo env)
                (context_issue_number env) (context_issue_number env) v hp rawp)
      as (_ & Hkp & _).
    cbv zeta in Hkp.
    pose proof (posting_events_silent _ Hkp) as (_ & Hpgp & Hrp).
    apply posting_events_quiet in Hkp. destruct Hkp as (Hfp & _).
    rewrite Hev, !pulls_gets_app, !requests_app, !fetch_results_app,
      Hpg, Hpgg, Hpgp, Hrd, Hfd, Hrp, Hfp.
    destruct (result (postReviewComments _ _ _ _ _ _ _ _)); cbn; rewrite !app_nil_r;
      (split; [reflexivity |]); (split; [exact Hlen | exact Hrg]).
Qed.

Lemma addressed_to_other (owner repo : string) (pn inum : Z) (t : Trace) :
  posts t = [] -> Forall (addressed_to owner repo pn inum) t.
Proof.
  induction t as [| ev t IH]; intros Hp; [constructor |].
  destruct ev; cbn in Hp; try discriminate; constructor; try exact I; apply IH, Hp.
Qed.

(** X6.  Every posting call goes where it was meant to go.  The review
    and the comments of [postReviewComments] carry the owner, the repository
    and the pull-request or issue number it was given; in a [run] these are
    the owner, the repository and the number of the event, for the review as
    for the comments. *)
Theorem posts_go_to_the_pull_request_of_the_event :
  (forall octokit owner repo pull_number issue_number v h raw,
      Forall (addressed_to owner repo pull_number issue_number)
        (emitted (postReviewComments octokit owner repo pull_number issue_number v h raw))) /\
  (forall env h raw,
      Forall (addressed_to (context_owner env) (context_repo env)
                (context_issue_number env) (context_issue_number env))
        (emitted (run env h raw))).
Proof.
  split.
  - intros octokit owner repo pn inum v h raw.
    exact (proj1 (postReviewComments_addressed octokit owner repo pn inum v h raw)).
  - intros env h raw.
    destruct (run_anatomy env h raw) as (_ & Hc). cbv zeta in Hc.
    destruct Hc as [(msg & Hev) | (octokit & hd & rawd & Hc)].
    { rewrite Hev. repeat constructor. }
    destruct (fetchCodeDiff_events octokit (context_owner env) (context_repo env)
                (context_issue_number env) hd rawd) as (res & _ & Hkd & _).
    cbv zeta in Hkd. apply diff_events_quiet in Hkd. destruct Hkd as (_ & _ & Hpd & _).
    pose proof (addressed_to_other (context_owner env) (context_repo env)
                  (context_issue_number env) (context_issue_number env) _ Hpd) as Had.
    destruct Hc as [(e & _ & Hev) | [(_ & Hev) | (diff & hg & rawg & _ & _ & _ & Hc)]].
    { rewrite Hev. apply Forall_app. split; [exact Had | repeat constructor]. }
    { rewrite Hev. exact Had. }
    cbv zeta in Hc.
    destruct (getGeminiReview_cases env (getInput env "gemini-api-key")
                (getInput env "model") diff hg rawg) as (_ & Hkg & _).
    apply model_events_quiet in Hkg. destruct Hkg as (Hpg & _).
    pose proof (addressed_to_other (context_owner env) (context_repo env)
                  (context_issue_number env) (context_issue_number env) _ Hpg) as Hag.
    destruct Hc as [(e & _ & Hev) | (v & hp & rawp & _ & Hev)].
    + rewrite Hev. repeat (apply Forall_app; split); try assumption. repeat constructor.
    + rewrite Hev. repeat (apply Forall_app; split); try assumption.
      * exact (proj1 (postReviewComments_addressed octokit _ _ _ _ v hp rawp)).
      * destruct (result (postReviewComments _ _ _ _ _ _ _ _)); repeat constructor.
Qed.

(** The model and posting stages of a run, when the model was called:
    the model calls of the run are those of one [getGeminiReview], nothing
    was posted before, and what is posted afterwards is what
    [postReviewComments] posts for the value returned, on the pull request of
    the event. *)
Lemma run_posting_stage (env : Env) (h : Trace) (raw : JValue) :
  let o := run env h raw in
  (fetch_results (emitted o) = [] /\ posts (emitted o) = [])
  \/ exists diff hg rawg,
       let og := getGeminiReview env (getInput env "gemini-api-key")
                   (getInput env "model") diff hg rawg in
       fetch_results (emitted o) = fetch_results (emitted og) /\
       ((exists e, result og = inl e /\ posts (emitted o) = [])
        \/ exists v octokit hp rawp,
             result og = inr v /\
             posts (emitted o)
             = posts (emitted (postReviewComments octokit (context_owner env)
                                 (context_repo env) (context_issue_number env)
                                 (context_issue_number env) v hp rawp))).
Proof.
  intros o. destruct (run_anatomy env h raw) as (_ & Hc). fold o in Hc. cbv zeta in Hc.
  destruct Hc as [(msg & Hev) | (octokit & hd & rawd & Hc)].
  { left. rewrite Hev. split; reflexivity. }
  destruct (fetchCodeDiff_events octokit (context_owner env) (context_repo env)
              (context_issue_number env) hd rawd) as (res & _ & Hkd & _).
  cbv zeta in Hkd. apply diff_events_quiet in Hkd. destruct Hkd as (Hfd & _ & Hpd & _).
  destruct Hc as [(e & _ & Hev) | [(_ & Hev) | (diff & hg & rawg & _ & _ & _ & Hc)]].
  { left. rewrite Hev, fetch_results_app, posts_app, Hfd, Hpd. split; reflexivity. }
  { left. rewrite Hev. split; assumption. }
  right. exists diff, hg, rawg. cbv zeta in Hc |- *.
  destruct (getGeminiReview_cases env (getInput env "gemini-api-key")
              (getInput env "model") diff hg rawg) as (_ & Hkg & _).
  apply model_events_quiet in Hkg. destruct Hkg as (Hpg & _).
  destruct Hc as [(e & Hres & Hev) | (v & hp & rawp & Hres & Hev)].
  - split.
    + rewrite Hev, !fetch_results_app, Hfd. cbn. apply app_nil_r.
    + left. exists e. split; [exact Hres |].
      rewrite Hev, !posts_app, Hpd, Hpg. reflexivity.
  - destruct (postReviewComments_shape octokit (context_owner env) (context_repo env)
                (context_issue_number env) (context_issue_number env) v hp rawp)
      as (_ & Hkp & _).
    cbv zeta in Hkp. apply posting_events_quiet in Hkp. destruct Hkp as (Hfp & _).
    split.
    + rewrite Hev, !fetch_results_app, Hfd, Hfp.
      destruct (result (postReviewComments _ _ _ _ _ _ _ _)); cbn; apply app_nil_r.
    + right. exists v, octokit, hp, rawp. split; [exact Hres |].
      rewrite Hev, !posts_app, Hpd, Hpg.
      destruct (result (postReviewComments _ _ _ _ _ _ _ _)); cbn; apply app_nil_r.
Qed.

(** X7.  [run] posts nothing unless the model answered with an array: a
    run with any posting call made model calls, the last of which succeeded
    with findings that are an array without [null] elements, all attempts
    before it having failed. *)
Theorem posting_needs_an_array_of_findings (env : Env) (h : Trace) (raw : JValue) :
  let o := run env h raw in
  posts (emitted o) <> [] ->
  exists failed res elems,
    fetch_results (emitted o) = failed ++ [res] /\
    Forall (fun r => attempt_findings env r = None) failed /\
    attempt_findings env res = Some (JArr elems) /\
    no_nullish elems = true.
Proof.
  intros o Hposts.
  destruct (run_posting_stage env h raw) as [(_ & Hnone) | (diff & hg & rawg & Hc)];
    fold o in Hnone || fold o in Hc.
  { contradiction. }
  cbv zeta in Hc. destruct Hc as (Hsame & Hc).
  destruct Hc as [(e & _ & Hnone) | (v & octokit & hp & rawp & Hres & Hp)].
  { contradiction. }
  rewrite Hp in Hposts.
  destruct (postReviewComments_addressed octokit (context_owner env) (context_repo env)
              (context_issue_number env) (context_issue_number env) v hp rawp)
    as (_ & _ & Harr).
  destruct (Harr Hposts) as (elems & -> & Hn).
  destruct (getGeminiReview_cases env (getInput env "gemini-api-key")
              (getInput env "model") diff hg rawg) as (_ & _ & Hcases).
  rewrite Hsame.
  destruct Hcases as [(a & v' & Hl & Hf & Hr & _)
                     | [(a & b & v' & Hl & Hfa & Hf & Hr & _)
                       | [(a & b & c & v' & Hl & Hfa & Hfb & Hf & Hr & _)
                         | (a & b & c & Hl & _ & _ & _ & Hr & _)]]];
    rewrite Hres in Hr; try discriminate; injection Hr as <-; rewrite Hl.
  - exists [], a, elems. repeat split; [constructor | exact Hf | exact Hn].
  - exists [a], b, elems. repeat split; [repeat constructor; exact Hfa | exact Hf | exact Hn].
  - exists [a; b], c, elems.
    repeat split; [repeat constructor; assumption | exact Hf | exact Hn].
Qed.

(** X8.  End to end: once an attempt of a [run] has succeeded with an
    array of findings, an empty array makes the run post the no-issues
    comment on the issue of the event and nothing else, and a non-empty one
    makes it first create a [COMMENT] review on the pull request of the
    event with one inline comment per finding, in order. *)
Theorem run_posts_what_the_model_found (env : Env) (h : Trace) (raw : JValue)
    (res : JsError + Response) (elems : list JValue) :
  let o := run env h raw in
  let owner := context_owner env in
  let repo := context_repo env in
  let n := context_issue_number env in
  In res (fetch_results (emitted o)) ->
  attempt_findings env res = Some (JArr elems) ->
  no_nullish elems = true ->
  match elems with
  | [] =>
      exists answer,
        posts (emitted o) = [EvCreateComment (mkCommentArgs owner repo n NO_ISSUES_BODY) answer]
  | _ :: _ =>
      let comments := map github_comment_of elems in
      exists answer later,
        posts (emitted o)
        = EvCreateReview (mkReviewArgs owner repo n "COMMENT" (reviewSummary comments) comments)
            answer :: later
  end.
Proof.
  intros o owner repo n Hin Hfind Hn. subst owner repo n.
  destruct (run_posting_stage env h raw) as [(Hnone & _) | (diff & hg & rawg & Hc)];
    fold o in Hnone || fold o in Hc.
  { rewrite Hnone in Hin. destruct Hin. }
  cbv zeta in Hc. destruct Hc as (Hsame & Hc). rewrite Hsame in Hin.
  destruct (successful_attempt_is_last env (getInput env "gemini-api-key")
              (getInput env "model") diff hg rawg res (JArr elems) Hin Hfind)
    as (Hret & _).
  destruct Hc as [(e & Herr & _) | (v & octokit & hp & rawp & Hres & Hp)].
  { rewrite Hret in Herr. discriminate. }
  rewrite Hret in Hres. injection Hres as <-. rewrite Hp.
  destruct elems as [| c tl].
  - destruct (postReviewComments_empty octokit (context_owner env) (context_repo env)
                (context_issue_number env) (context_issue_number env) hp rawp)
      as (answer & Hev & _).
    cbv zeta in Hev. exists answer. rewrite Hev. destruct answer; reflexivity.
  - assert (Hne : c :: tl <> []) by discriminate.
    destruct (postReviewComments_findings octokit (context_owner env) (context_repo env)
                (context_issue_number env) (context_issue_number env)
                (c :: tl) hp rawp Hne Hn)
      as (_ & answer & Hcase).
    cbv zeta in Hcase |- *. exists answer.
    destruct answer as [e |].
    + destruct (status_is_422 e).
      * destruct (fallbackBody _ _) as [err | body].
        -- destruct Hcase as (w & Hev & _). rewrite Hev. eexists. reflexivity.
        -- destruct Hcase as (answer' & w & Hev & _). rewrite Hev.
           eexists. destruct answer'; reflexivity.
      * destruct Hcase as (Hev & _). rewrite Hev. eexists. reflexivity.
    + destruct Hcase as (Hev & _). rewrite Hev. eexists. reflexivity.
Qed.

(** An attempt succeeds exactly when its [try] block returns. *)
Lemma attempt_findings_outcome (env : Env) (res : JsError + Response) :
  attempt_findings env res
  = match attempt_outcome env res with
    | inr v => Some v
    | inl _ => None
    end.
Proof.
  unfold attempt_findings, attempt_outcome, response_text.
  destruct res as [e | response]; [reflexivity |].
  destruct (resp_ok response); cbn [negb]; [| reflexivity].
  destruct (resp_json response) as [e | result]; cbn [and_then]; [reflexivity |].
  destruct (nullish result); [reflexivity |].
  destruct (truthy _ && truthy _); [| reflexivity].
  destruct (JSON_parse_value env _) as [e | comments]; cbn [and_then]; [reflexivity |].
  destruct (generated_message comments); reflexivity.
Qed.

(** One attempt, exactly: what it emits, what it leaves in [rawJsonText],
    and what it returns or throws, as a function of what [fetch] delivers. *)
Lemma gemini_try_exact (env : Env) (apiKey model codeDiff : string)
    (h : Trace) (raw : JValue) :
  let req := gemini_request env apiKey model codeDiff in
  let res := fetch env h req in
  gemini_try env apiKey model codeDiff h raw
  = match attempt_outcome env res with
    | inr v =>
        mkOutcome
          [EvFetch req res;
           EvInfo match generated_message v with
                  | inr msg => msg
                  | inl _ => EmptyString
                  end]
          (raw_next raw res) (inr (Some v))
    | inl e => mkOutcome [EvFetch req res] (raw_next raw res) (inl e)
    end.
Proof.
  intros req res. subst res.
  unfold attempt_outcome, raw_next, gemini_try, bind, await_fetch.
  fold req. clearbody req.
  generalize (fetch env h req) as res. intros res.
  unfold response_text.
  destruct res as [e | response]; cbn; [reflexivity |].
  destruct (resp_ok response); cbn; [| reflexivity].
  destruct (resp_json response) as [e | result]; cbn; [reflexivity |].
  unfold member at 1. destruct (nullish result) eqn:Hres; cbn; [reflexivity |].
  set (candidate := opt_index0 (prop result "candidates")).
  set (text := opt_prop (opt_index0 (opt_prop (prop candidate "content") "parts")) "text").
  destruct (truthy candidate && truthy text) eqn:Hcond; cbn; [| reflexivity].
  apply andb_prop in Hcond. destruct Hcond as [Hc Ht].
  pose proof (truthy_not_nullish _ Hc) as Hc'.
  pose proof (truthy_not_nullish _ Ht) as Ht'.
  pose proof (opt_prop_not_nullish _ _ Ht') as Hpart.
  pose proof (opt_index0_not_nullish _ Hpart) as Hparts.
  pose proof (opt_prop_not_nullish _ _ Hparts) as Hcontent.
  unfold member, member0.
  rewrite Hc'. cbn. rewrite Hcontent. cbn.
  rewrite <- (opt_prop_defined _ "parts" Hcontent). rewrite Hparts. cbn.
  rewrite <- (opt_index0_defined _ Hparts). rewrite Hpart. cbn.
  rewrite <- (opt_prop_defined _ "text" Hpart). fold text.
  destruct (JSON_parse_value env text) as [e | comments]; cbn; [reflexivity |].
  unfold generated_message.
  destruct (nullish comments) eqn:Hn; cbn; [reflexivity |].
  destruct (ToString (prop comments "length")) as [e | shown] eqn:Hs; cbn;
    rewrite ?Hn, ?Hs; reflexivity.
Qed.

(** One iteration of the loop, exactly. *)
Lemma iteration_exact (env : Env) (apiKey model codeDiff : string) (i : Z)
    (h : Trace) (raw : JValue) :
  let req := gemini_request env apiKey model codeDiff in
  let res := fetch env h req in
  match attempt_outcome env res with
  | inr v =>
      exists msg,
        try_catch (gemini_try env apiKey model codeDiff) (gemini_catch i) h raw
        = mkOutcome [EvFetch req res; EvInfo msg] (raw_next raw res) (inr (Some v))
  | inl e =>
      let warning := (try_failed i ++ err_message e)%string in
      try_catch (gemini_try env apiKey model codeDiff) (gemini_catch i) h raw
      = if (i =? 2)%Z
        then mkOutcome [EvFetch req res; EvWarning warning] (raw_next raw res)
               (inl (exhaustion_error (raw_next raw res)))
        else mkOutcome [EvFetch req res; EvWarning warning; EvSleep (2000 * (i + 1))]
               (raw_next raw res) (inr None)
  end.
Proof.
  intros req res. unfold try_catch.
  pose proof (gemini_try_exact env apiKey model codeDiff h raw) as Htry.
  cbv zeta in Htry. fold req in Htry. fold res in Htry.
  destruct (attempt_outcome env res) as [e | v].
  - rewrite Htry.
    unfold gemini_catch, bind, core_warning, emit, await_timeout, get_rawJsonText,
      try_failed, exhaustion_error.
    destruct (i =? 2)%Z; cbn; rewrite ?append_assoc; [| reflexivity].
    destruct (ToString (raw_next raw res)); reflexivity.
  - rewrite Htry. eexists. reflexivity.
Qed.

Ltac exact_iteration :=
  match goal with
  | |- context [try_catch (gemini_try ?e ?k ?m ?d) (gemini_catch ?i) ?h ?r] =>
      let res := fresh "res" in
      let Hi := fresh "Hi" in
      let Hj := fresh "Hj" in
      let Ho := fresh "Hout" in
      pose proof (iteration_exact e k m d i h r) as Hi; cbv zeta in Hi;
      revert Hi;
      generalize (fetch e h (gemini_request e k m d)); intros res Hj;
      destruct (attempt_outcome e res) eqn:Ho;
      [ rewrite Hj; clear Hj
      | let msg := fresh "msg" in destruct Hj as (msg & Hj); rewrite Hj; clear Hj ];
      cbn
  end.

(** X9.  Every failed attempt of [getGeminiReview] is logged by exactly one
    warning, [Try k failed (Gemini/JSON-Parsing): ] followed by the message
    of the step of the [try] block that threw, numbered from 1 in the order
    of the attempts; a successful attempt logs none.  The steps that can
    throw are those of [attempt_outcome]: the request, the status check, the
    reading of the body, the extraction of the text, its conversion and
    parsing, and the log line about the length of the parsed value. *)
Theorem failed_attempts_are_warned_about (env : Env) (apiKey model codeDiff : string)
    (h : Trace) (raw : JValue) :
  let o := getGeminiReview env apiKey model codeDiff h raw in
  warnings (emitted o) = attempt_warnings env 0 (fetch_results (emitted o)) /\
  (forall res,
      In res (fetch_results (emitted o)) ->
      match attempt_outcome env res with
      | inl _ => attempt_findings env res = None
      | inr v => attempt_findings env res = Some v /\ result o = inr v
      end).
Proof.
  cbv zeta. split.
  - unfold getGeminiReview, for_i_lt_3.
    unfold bind, core_info, emit, set_rawJsonText. cbn.
    repeat exact_iteration;
      repeat match goal with
             | H : attempt_outcome _ _ = _ |- _ => rewrite H; clear H
             end;
      reflexivity.
  - intros res Hin. rewrite attempt_findings_outcome.
    destruct (attempt_outcome env res) as [e | v] eqn:Hout; [reflexivity |].
    split; [reflexivity |].
    assert (Hfind : attempt_findings env res = Some v).
    { rewrite attempt_findings_outcome, Hout. reflexivity. }
    exact (proj1 (successful_attempt_is_last env apiKey model codeDiff h raw res v
                    Hin Hfind)).
Qed.

Lemma mapM_to_githubComment_exact (elems : list JValue) (h : Trace) (raw : JValue) :
  mapM to_githubComment elems h raw =
  match List.find nullish elems with
  | Some c => mkOutcome [] raw (inl (TypeError_read c "path"))
  | None => mkOutcome [] raw (inr (map github_comment_of elems))
  end.
Proof.
  revert h. induction elems as [| c tl IH]; intros h; [reflexivity |].
  cbn [mapM List.find map]. unfold bind.
  rewrite to_githubComment_spec.
  destruct (nullish c) eqn:Hc; [reflexivity |].
  rewrite IH. destruct (List.find nullish tl); reflexivity.
Qed.

(** X10.  One [null] (or [undefined]) among the findings stops
    [postReviewComments] before it posts anything: it throws the [TypeError]
    of reading [path] of the first such element and has emitted nothing,
    however many well-formed findings the array holds. *)
Theorem null_finding_stops_posting (octokit : Octokit) (owner repo : string)
    (pull_number issue_number : Z) (elems : list JValue) (h : Trace) (raw : JValue) :
  no_nullish elems = false ->
  exists c,
    In c elems /\ nullish c = true /\
    postReviewComments octokit owner repo pull_number issue_number (JArr elems) h raw
    = mkOutcome [] raw (inl (TypeError_read c "path")).
Proof.
  intros Hn.
  destruct (List.find nullish elems) as [c |] eqn:Hfind.
  - exists c. destruct (find_some _ _ Hfind) as (Hin & Hc).
    split; [exact Hin |]. split; [exact Hc |].
    unfold postReviewComments, bind, array_map.
    rewrite mapM_to_githubComment_exact, Hfind. reflexivity.
  - exfalso. unfold no_nullish in Hn.
    assert (Hall : forallb (fun c => negb (nullish c)) elems = true).
    { apply forallb_forall. intros c Hin.
      rewrite (find_none _ _ Hfind c Hin). reflexivity. }
    congruence.
Qed.

Lemma review_events (octokit : Octokit) (owner repo : string)
    (pn inum : Z) (v : JValue) (h : Trace) (raw : JValue) (review : ReviewArgs)
    (answer : option JsError) :
  In (EvCreateReview review answer)
     (emitted (postReviewComments octokit owner repo pn inum v h raw)) ->
  exists elems,
    v = JArr elems /\ elems <> [] /\
    review = mkReviewArgs owner repo pn "COMMENT"
               (reviewSummary (map github_comment_of elems))
               (map github_comment_of elems).
Proof.
  intros Hin.
  destruct (is_array v) eqn:Harr.
  2:{ destruct (postReviewComments_not_array octokit owner repo pn inum v h raw Harr)
        as (e & He & _).
      rewrite He in Hin. destruct Hin. }
  destruct v as [| | | | | | elems |]; try discriminate.
  destruct (no_nullish elems) eqn:Hn.
  2:{ destruct (postReviewComments_nullish_element octokit owner repo pn inum elems h raw Hn)
        as (e & He).
      rewrite He in Hin. destruct Hin. }
  destruct elems as [| c tl].
  - destruct (postReviewComments_empty octokit owner repo pn inum h raw)
      as (res & Hev & _).
    cbv zeta in Hev. rewrite Hev in Hin.
    destruct Hin as [Heq | Hin]; [discriminate |].
    destruct res; [destruct Hin | destruct Hin as [Heq | []]; discriminate].
  - assert (Hne : c :: tl <> []) by discriminate.
    exists (c :: tl). split; [reflexivity |]. split; [exact Hne |].
    destruct (postReviewComments_findings octokit owner repo pn inum (c :: tl) h raw Hne Hn)
      as (_ & res & Hcase).
    cbv zeta in Hcase.
    destruct res as [e |].
    + destruct (status_is_422 e).
      * destruct (fallbackBody _ _) as [err | body].
        { destruct Hcase as (w & Hev & _). rewrite Hev in Hin.
          destruct Hin as [Heq | [Heq | []]]; [| discriminate].
          injection Heq as <- _. reflexivity. }
        destruct Hcase as (res' & w & Hev & _). rewrite Hev in Hin.
        destruct Hin as [Heq | [Heq | [Heq | Hin]]]; try discriminate.
        -- injection Heq as <- _. reflexivity.
        -- destruct res'; [destruct Hin | destruct Hin as [Heq | []]; discriminate].
      * destruct Hcase as (Hev & _). rewrite Hev in Hin.
        destruct Hin as [Heq | []]. injection Heq as <- _. reflexivity.
    + destruct Hcase as (Hev & _). rewrite Hev in Hin.
      destruct Hin as [Heq | [Heq | []]]; [| discriminate].
      injection Heq as <- _. reflexivity.
Qed.

Lemma reviewSummary_count (githubComments : list GithubComment) :
  contains (reviewSummary githubComments)
    ("I've left " ++ string_of_nat (List.length githubComments)
     ++ " specific comments on the changes.")%string.
Proof.
  eapply contains_trans.
  - unfold reviewSummary. apply In_unlines. do 3 right. left. reflexivity.
  - exists "    "%string,
           (" Please check the marked lines in the " ++ dq ++ "Files changed" ++ dq
            ++ " tab.")%string.
    rewrite !append_assoc. reflexivity.
Qed.

(** X11.  A review announces as many comments as it carries: the body of
    every review that [postReviewComments] creates says
    [I've left N specific comments on the changes.] with [N] the number of
    its inline comments, which is the number of findings. *)
Theorem review_announces_its_comments (octokit : Octokit) (owner repo : string)
    (pull_number issue_number : Z) (v : JValue) (h : Trace) (raw : JValue)
    (review : ReviewArgs) (answer : option JsError) :
  In (EvCreateReview review answer)
     (emitted (postReviewComments octokit owner repo pull_number issue_number v h raw)) ->
  contains (rv_body review)
    ("I've left " ++ string_of_nat (List.length (rv_comments review))
     ++ " specific comments on the changes.")%string /\
  exists elems,
    v = JArr elems /\ List.length (rv_comments review) = List.length elems.
Proof.
  intros Hin.
  destruct (review_events octokit owner repo pull_number issue_number v h raw
              review answer Hin) as (elems & Hv & _ & ->).
  split.
  - apply reviewSummary_count.
  - exists elems. split; [exact Hv | apply length_map].
Qed.

(** X12.  An attempt says why it failed.  On a response whose status is
    not ok the attempt throws [API error: ] followed by the status text,
    without reading the body; on an ok response whose JSON body yields no
    text payload (no candidates, no parts, an empty text) it throws
    [No text found in Gemini response].  In both cases [rawJsonText] keeps
    its value and only the request was emitted. *)
Theorem failed_attempt_says_why (env : Env) (apiKey model codeDiff : string)
    (h : Trace) (raw : JValue) (response : Response) :
  let req := gemini_request env apiKey model codeDiff in
  fetch env h req = inr response ->
  (resp_ok response = false ->
   gemini_try env apiKey model codeDiff h raw
   = mkOutcome [EvFetch req (inr response)] raw
       (inl (Error ("API error: " ++ resp_statusText response)%string))) /\
  (forall result,
      resp_ok response = true -> resp_json response = inr result ->
      nullish result = false -> response_text (inr response) = None ->
      gemini_try env apiKey model codeDiff h raw
      = mkOutcome [EvFetch req (inr response)] raw
          (inl (Error "No text found in Gemini response"))).
Proof.
  intros req Hfetch.
  pose proof (gemini_try_exact env apiKey model codeDiff h raw) as He.
  cbv zeta in He. fold req in He. rewrite Hfetch in He. split.
  - intros Hok. rewrite He.
    assert (Ht : response_text (inr response) = None).
    { unfold response_text. rewrite Hok. reflexivity. }
    unfold raw_next, attempt_outcome. rewrite Ht, Hok. reflexivity.
  - intros result Hok Hjson Hres Ht. rewrite He.
    unfold raw_next, attempt_outcome. rewrite Ht, Hok, Hjson. cbn [negb and_then].
    rewrite Hres. reflexivity.
Qed.

(* ===================================================================== *)
(** * The earlier script *)
(* ===================================================================== *)

Local Arguments Legacy.reviewSummary : simpl never.
Local Arguments Legacy.fallbackBody : simpl never.
Local Arguments Legacy.NO_ISSUES_BODY : simpl never.
Local Arguments Legacy.request : simpl never.

(** One attempt of the earlier script, as a function of what [fetch]
    delivers. *)
Lemma legacy_try_spec (env : Env) (apiKey model codeDiff : string)
    (h : Trace) (raw : JValue) :
  let req := Legacy.request env apiKey model codeDiff in
  let res := fetch env h req in
  exists e,
    Legacy.gemini_try env apiKey model codeDiff h raw =
    match Legacy.attempt_findings env res with
    | Some v => mkOutcome [EvFetch req res] (raw_next raw res) (inr (Some v))
    | None => mkOutcome [EvFetch req res] (raw_next raw res) (inl e)
    end.
Proof.
  intros req res. subst res.
  unfold Legacy.attempt_findings, raw_next, Legacy.gemini_try, bind, await_fetch.
  fold req. clearbody req.
  generalize (fetch env h req) as res. intros res.
  unfold response_text.
  destruct res as [e | response]; cbn; [eexists; reflexivity |].
  destruct (resp_ok response); cbn; [| eexists; reflexivity].
  destruct (resp_json response) as [e | result]; cbn; [eexists; reflexivity |].
  unfold member at 1. destruct (nullish result) eqn:Hres; cbn; [eexists; reflexivity |].
  set (candidate := opt_index0 (prop result "candidates")).
  set (text := opt_prop (opt_index0 (opt_prop (prop candidate "content") "parts")) "text").
  destruct (truthy candidate && truthy text) eqn:Hcond; cbn; [| eexists; reflexivity].
  apply andb_prop in Hcond. destruct Hcond as [Hc Ht].
  pose proof (truthy_not_nullish _ Hc) as Hc'.
  pose proof (truthy_not_nullish _ Ht) as Ht'.
  pose proof (opt_prop_not_nullish _ _ Ht') as Hpart.
  pose proof (opt_index0_not_nullish _ Hpart) as Hparts.
  pose proof (opt_prop_not_nullish _ _ Hparts) as Hcontent.
  unfold member, member0.
  rewrite Hc'. cbn. rewrite Hcontent. cbn.
  rewrite <- (opt_prop_defined _ "parts" Hcontent). rewrite Hparts. cbn.
  rewrite <- (opt_index0_defined _ Hparts). rewrite Hpart. cbn.
  rewrite <- (opt_prop_defined _ "text" Hpart). fold text.
  destruct (JSON_parse_value env text) as [e | comments]; cbn.
  - eexists; reflexivity.
  - exists (Error EmptyString). reflexivity.
Qed.

Local Arguments Legacy.gemini_try : simpl never.

Lemma legacy_iteration_spec (env : Env) (apiKey model codeDiff : string) (i : Z)
    (h : Trace) (raw : JValue) :
  let req := Legacy.request env apiKey model codeDiff in
  let res := fetch env h req in
  exists warning,
    try_catch (Legacy.gemini_try env apiKey model codeDiff) (Legacy.gemini_catch i) h raw =
    match Legacy.attempt_findings env res with
    | Some v => mkOutcome [EvFetch req res] (raw_next raw res) (inr (Some v))
    | None =>
        if (i =? 2)%Z
        then mkOutcome [EvFetch req res; EvWarning warning] (raw_next raw res)
               (inl (Legacy.exhaustion_error (raw_next raw res)))
        else mkOutcome [EvFetch req res; EvWarning warning; EvSleep (2000 * (i + 1))]
               (raw_next raw res) (inr None)
    end.
Proof.
  intros req res. unfold try_catch.
  destruct (legacy_try_spec env apiKey model codeDiff h raw) as [err He].
  cbv zeta in He. fold req in He. fold res in He.
  exists ("Versuch " ++ string_of_Z (i + 1) ++ " fehlgeschlagen (Gemini/JSON-Parsing): "
          ++ err_message err)%string.
  rewrite He. clear He.
  destruct (Legacy.attempt_findings env res) as [v |]; [reflexivity |].
  unfold Legacy.gemini_catch, bind, core_warning, emit, await_timeout, get_rawJsonText,
    Legacy.exhaustion_error.
  destruct (i =? 2)%Z; [| reflexivity].
  cbn. destruct (ToString (raw_next raw res)); reflexivity.
Qed.

Ltac legacy_iteration :=
  match goal with
  | |- context [try_catch (Legacy.gemini_try ?e ?k ?m ?d) (Legacy.gemini_catch ?i) ?h ?r] =>
      let warning := fresh "warning" in
      let Hi := fresh "Hi" in
      let res := fresh "res" in
      let Hf := fresh "Hfind" in
      destruct (legacy_iteration_spec e k m d i h r) as (warning & Hi);
      cbv zeta in Hi; rewrite Hi; clear Hi;
      generalize (fetch e h (Legacy.request e k m d)); intros res;
      destruct (Legacy.attempt_findings e res) eqn:Hf; cbn
  end.

(** The retry loop of the earlier script. *)
Lemma legacy_loop_cases (env : Env) (apiKey model codeDiff : string)
    (h : Trace) (raw : JValue) :
  let o := Legacy.for_i_lt_3 3 0
             (fun i => try_catch (Legacy.gemini_try env apiKey model codeDiff)
                         (Legacy.gemini_catch i))
             (JArr []) h raw in
  let rs := fetch_results (emitted o) in
  raw_after o = last_raw raw rs /\
  Forall (model_call_event (Legacy.request env apiKey model codeDiff)) (emitted o) /\
  ((exists a v,
       rs = [a] /\ Legacy.attempt_findings env a = Some v /\ result o = inr v /\
       ticks (emitted o) = [Attempt])
   \/ (exists a b v,
       rs = [a; b] /\ Legacy.attempt_findings env a = None /\
       Legacy.attempt_findings env b = Some v /\ result o = inr v /\
       ticks (emitted o) = [Attempt; Wait 2000; Attempt])
   \/ (exists a b c v,
       rs = [a; b; c] /\ Legacy.attempt_findings env a = None /\
       Legacy.attempt_findings env b = None /\
       Legacy.attempt_findings env c = Some v /\ result o = inr v /\
       ticks (emitted o) = [Attempt; Wait 2000; Attempt; Wait 4000; Attempt])
   \/ (exists a b c,
       rs = [a; b; c] /\ Legacy.attempt_findings env a = None /\
       Legacy.attempt_findings env b = None /\
       Legacy.attempt_findings env c = None /\
       result o = inl (Legacy.exhaustion_error (raw_after o)) /\
       ticks (emitted o) = [Attempt; Wait 2000; Attempt; Wait 4000; Attempt])).
Proof.
  unfold Legacy.for_i_lt_3. unfold bind. cbn.
  repeat legacy_iteration.
  all: (split; [ rewrite ?last_raw_cons; reflexivity | ]).
  all: (split; [ repeat constructor | ]).
  all: first
         [ left; do 2 eexists; repeat split; solve [ eassumption | reflexivity ]
         | right; left; do 3 eexists; repeat split; solve [ eassumption | reflexivity ]
         | right; right; left; do 4 eexists; repeat split; solve [ eassumption | reflexivity ]
         | right; right; right; do 3 eexists; repeat split; solve [ eassumption | reflexivity ] ].
Qed.

(** Posting in the earlier script: only logs and posting calls, one of
    which went through whenever it returns. *)
Lemma legacy_post_shape (octokit : Octokit) (owner repo : string) (n : Z)
    (v : JValue) (h : Trace) (raw : JValue) :
  let o := Legacy.post octokit owner repo n v h raw in
  Forall posting_event (emitted o) /\
  Forall (addressed_to owner repo n n) (emitted o) /\
  (forall u, result o = inr u -> List.length (resolved_posts (emitted o)) = 1%nat) /\
  (forall e, result o = inl e -> resolved_posts (emitted o) = []) /\
  (posts (emitted o) <> [] -> exists elems, v = JArr elems /\ no_nullish elems = true).
Proof.
  unfold Legacy.post, bind, array_map.
  destruct v as [| | b | z | shown | s | elems | fields]; cbn;
    try (repeat split; [constructor | constructor | discriminate | congruence]).
  rewrite mapM_to_githubComment_exact.
  destruct (List.find nullish elems) as [c |] eqn:Hfind; cbn.
  { repeat split; [constructor | constructor | discriminate | congruence]. }
  assert (Harray : exists elems', JArr elems = JArr elems' /\ no_nullish elems' = true).
  { exists elems. split; [reflexivity |]. apply forallb_forall. intros c Hin.
    rewrite (find_none _ _ Hfind c Hin). reflexivity. }
  destruct elems as [| c tl]; cbn [map List.length Nat.eqb].
  - unfold octokit_issues_createComment, core_info, emit. cbn.
    destruct (issues_createComment octokit _ _); cbn;
      repeat split; repeat constructor; try discriminate; intros _; exact Harray.
  - unfold try_catch, bind, octokit_pulls_createReview, octokit_issues_createComment,
      core_info, core_warning, emit. cbn.
    destruct (pulls_createReview octokit _ _) as [e |]; cbn.
    + destruct (status_is_422 e); cbn.
      * destruct (Legacy.fallbackBody _ _) as [err | body]; cbn.
        { repeat split; repeat constructor; try discriminate; intros _; exact Harray. }
        destruct (issues_createComment octokit _ _); cbn;
          repeat split; repeat constructor; try discriminate; intros _; exact Harray.
      * repeat split; repeat constructor; try discriminate; intros _; exact Harray.
    + repeat split; repeat constructor; try discriminate; intros _; exact Harray.
Qed.

Local Arguments Legacy.for_i_lt_3 : simpl never.
Local Arguments Legacy.post : simpl never.

(** Steps 2 to 5 of the earlier script, for a significant diff. *)
Lemma legacy_review_shape (env : Env) (octokit : Octokit)
    (apiKey model owner repo : string) (n : Z) (codeDiff : string)
    (h : Trace) (raw : JValue) :
  let o := Legacy.review env octokit apiKey model owner repo n codeDiff h raw in
  let rs := fetch_results (emitted o) in
  requests (emitted o)
  = repeat (Legacy.request env apiKey model codeDiff) (List.length rs) /\
  (1 <= List.length rs <= 3)%nat /\
  ticks (emitted o)
  = firstn (2 * List.length rs - 1)
      [Attempt; Wait 2000; Attempt; Wait 4000; Attempt] /\
  pulls_gets (emitted o) = [] /\ failures (emitted o) = [] /\
  Forall (addressed_to owner repo n n) (emitted o) /\
  (List.length (resolved_posts (emitted o)) <= 1)%nat /\
  (forall e, result o = inl e -> resolved_posts (emitted o) = []) /\
  (forall res v,
      In res rs -> Legacy.attempt_findings env res = Some v ->
      (exists failed, rs = failed ++ [res]) /\
      (nullish v = true ->
       result o = inl (TypeError_read v "length") /\ posts (emitted o) = [])).
Proof.
  unfold Legacy.review, bind, core_info, emit, set_rawJsonText. cbn.
  match goal with
  | |- context [Legacy.for_i_lt_3 3 0 ?body (JArr []) ?hl ?rl] =>
      pose proof (legacy_loop_cases env apiKey model codeDiff hl rl) as Hloop;
      cbv zeta in Hloop;
      destruct (Legacy.for_i_lt_3 3 0 body (JArr []) hl rl) as [evl rawl resl]
  end.
  cbn [emitted raw_after result] in Hloop.
  destruct Hloop as (_ & Hkind & Hcases).
  pose proof (model_events_quiet _ _ Hkind) as (Hpl & _ & _ & Hreq).
  pose proof (model_events_silent _ _ Hkind) as (Hfl & Hrl & Hgl).
  pose proof (addressed_to_other owner repo n n _ Hpl) as Hal.
  assert (Hshape : (1 <= List.length (fetch_results evl) <= 3)%nat /\
                   ticks evl = firstn (2 * List.length (fetch_results evl) - 1)
                                 [Attempt; Wait 2000; Attempt; Wait 4000; Attempt] /\
                   forall res v,
                     In res (fetch_results evl) ->
                     Legacy.attempt_findings env res = Some v ->
                     (exists failed, fetch_results evl = failed ++ [res]) /\
                     resl = inr v).
  { destruct Hcases as [(a & v & Hl & Hf & Hr & Ht)
                       | [(a & b & v & Hl & Hfa & Hf & Hr & Ht)
                         | [(a & b & c & v & Hl & Hfa & Hfb & Hf & Hr & Ht)
                           | (a & b & c & Hl & Hfa & Hfb & Hfc & Hr & Ht)]]];
      rewrite Hl, Ht; cbn [List.length]; (split; [lia |]); (split; [reflexivity |]);
      intros res w Hin Hw.
    - destruct Hin as [<- | []]. split; [exists []; reflexivity | congruence].
    - destruct Hin as [<- | [<- | []]]; [congruence |].
      split; [exists [a]; reflexivity | congruence].
    - destruct Hin as [<- | [<- | [<- | []]]]; [congruence | congruence |].
      split; [exists [a; b]; reflexivity | congruence].
    - destruct Hin as [<- | [<- | [<- | []]]]; congruence. }
  destruct Hshape as (Hlen & Hticks & Hlast).
  clear Hcases.
  unfold fetch_results, requests, ticks, pulls_gets, failures, resolved_posts, posts in *.
  destruct resl as [e | v]; cbn.
  { rewrite Hfl, Hrl, Hgl, Hreq, Hticks, Hpl.
    split; [reflexivity |]. split; [exact Hlen |]. split; [reflexivity |].
    split; [reflexivity |]. split; [reflexivity |].
    split; [constructor; [exact I | exact Hal] |].
    split; [cbn; lia |]. split; [reflexivity |].
    intros res w Hin Hw. destruct (Hlast res w Hin Hw) as (_ & Habs). discriminate. }
  unfold member. destruct (nullish v) eqn:Hv; cbn.
  { rewrite ?flat_map_app, ?filter_app. cbn.
    rewrite ?app_nil_r, Hfl, Hrl, Hgl, Hreq, Hticks, Hpl.
    split; [reflexivity |]. split; [exact Hlen |]. split; [reflexivity |].
    split; [reflexivity |]. split; [reflexivity |].
    split; [constructor; [exact I |]; rewrite ?app_nil_r; exact Hal |].
    split; [cbn; lia |]. split; [reflexivity |].
    intros res w Hin Hw. destruct (Hlast res w Hin Hw) as (Hl & Heq).
    split; [exact Hl |]. injection Heq as <-. intros _. split; reflexivity. }
  destruct (ToString (prop v "length")) as [e | shown]; cbn.
  { rewrite ?flat_map_app, ?filter_app. cbn.
    rewrite ?app_nil_r, Hfl, Hrl, Hgl, Hreq, Hticks, Hpl.
    split; [reflexivity |]. split; [exact Hlen |]. split; [reflexivity |].
    split; [reflexivity |]. split; [reflexivity |].
    split; [constructor; [exact I |]; rewrite ?app_nil_r; exact Hal |].
    split; [cbn; lia |]. split; [reflexivity |].
    intros res w Hin Hw. destruct (Hlast res w Hin Hw) as (Hl & Heq).
    split; [exact Hl |]. injection Heq as <-. congruence. }
  match goal with
  | |- context [Legacy.post octokit owner repo n v ?hp ?rp] =>
      pose proof (legacy_post_shape octokit owner repo n v hp rp) as Hpost;
      cbv zeta in Hpost;
      destruct (Legacy.post octokit owner repo n v hp rp) as [evp rawp resp]
  end.
  cbn [emitted raw_after result] in Hpost.
  destruct Hpost as (Hkp & Hap & Hone & Hnone & _).
  pose proof (posting_events_quiet _ Hkp) as (Hfp & Htp & _ & _).
  pose proof (posting_events_silent _ Hkp) as (Hflp & Hgp & Hrp).
  unfold fetch_results, requests, ticks, pulls_gets, failures, resolved_posts, posts in *.
  cbn. rewrite ?flat_map_app, ?filter_app. cbn.
  rewrite Hfp, Hrp, Htp, Hgp, Hflp, Hfl, Hrl, Hgl, ?app_nil_r. cbn [app].
  split; [exact Hreq |]. split; [exact Hlen |]. split; [exact Hticks |].
  split; [reflexivity |]. split; [reflexivity |].
  split.
  { constructor; [exact I |]. apply Forall_app. split; [exact Hal |].
    constructor; [exact I | exact Hap]. }
  split.
  { destruct resp as [e | u]; [rewrite (Hnone e eq_refl); cbn; lia |].
    rewrite (Hone u eq_refl). lia. }
  split; [exact Hnone |].
  intros res w Hin Hw. destruct (Hlast res w Hin Hw) as (Hl & Heq).
  split; [exact Hl |]. injection Heq as <-. congruence.
Qed.

Local Arguments Legacy.review : simpl never.

(** The anatomy of a run of the earlier script. *)
Lemma legacy_run_anatomy (env : Env) (h : Trace) (raw : JValue) :
  let o := Legacy.run env h raw in
  let owner := context_owner env in
  let repo := context_repo env in
  let n := context_issue_number env in
  let args := diff_request owner repo n in
  result o = inr tt /\
  ((exists msg, emitted o = [EvSetFailed msg])
   \/ (exists e, emitted o = [EvPullsGet args (inl e); EvSetFailed (err_message e)])
   \/ (exists data msg,
         not_significant data /\ emitted o = [EvPullsGet args (inr data); EvInfo msg])
   \/ exists octokit diff msg hr rawr,
        (10 <= js_length diff)%nat /\
        let r := Legacy.review env octokit (getInput env "gemini-api-key")
                   (getInput env "model") owner repo n diff hr rawr in
        emitted o = [EvPullsGet args (inr (Some diff)); EvInfo msg] ++ emitted r ++
                    match result r with
                    | inl e => [EvSetFailed (err_message e)]
                    | inr _ => []
                    end).
Proof.
  unfold Legacy.run, try_catch, bind, core_setFailed, core_info, emit, octokit_pulls_get,
    diff_request.
  destruct (negb (context_eventName env =? "pull_request")); cbn.
  { split; [reflexivity |]. left. eexists. reflexivity. }
  destruct (getOctokit env (getInput env "github-token")) as [e | octokit]; cbn.
  { split; [reflexivity |]. left. eexists. reflexivity. }
  destruct (pulls_get octokit _ _) as [e | data]; cbn.
  { split; [reflexivity |]. right. left. eexists. reflexivity. }
  destruct (falsy_text data || (text_length data <? 10)%nat) eqn:Hs; cbn.
  { split; [reflexivity |]. right. right. left. exists data. eexists.
    split; [apply not_significant_iff; exact Hs | reflexivity]. }
  apply orb_false_elim in Hs. destruct Hs as (_ & Hlen). apply Nat.ltb_ge in Hlen.
  destruct data as [diff |]; [| cbn in Hlen; lia]. cbn in Hlen. cbn [text_of text_length].
  match goal with
  | |- context [Legacy.review env octokit ?k ?m ?ow ?re ?nn diff ?hr ?rr] =>
      destruct (Legacy.review env octokit k m ow re nn diff hr rr)
        as [evr rawr [e | []]] eqn:Hr
  end; cbn.
  - split; [reflexivity |]. right. right. right.
    exists octokit, diff. do 3 eexists. split; [exact Hlen |].
    rewrite Hr. cbn. reflexivity.
  - split; [reflexivity |]. right. right. right.
    exists octokit, diff. do 3 eexists. split; [exact Hlen |].
    rewrite Hr. cbn. rewrite !app_nil_r. reflexivity.
Qed.

(** X13.  The earlier script sends the API key in the URL: every model call
    of its [run] is a POST to the model's [generateContent] URL with the
    configured key as the [key] query parameter, and its only header is the
    content type. *)
Theorem legacy_key_travels_in_the_url (env : Env) (h : Trace) (raw : JValue)
    (req : Request) :
  In req (requests (emitted (Legacy.run env h raw))) ->
  req_method req = "POST" /\
  req_url req
  = ("https://generativelanguage.googleapis.com/v1beta/models/" ++ getInput env "model"
     ++ ":generateContent?key=" ++ getInput env "gemini-api-key")%string /\
  contains (req_url req) ("?key=" ++ getInput env "gemini-api-key")%string /\
  req_headers req = [("Content-Type", "application/json")].
Proof.
  intros Hin.
  assert (Hreq : exists diff,
             req = Legacy.request env (getInput env "gemini-api-key")
                     (getInput env "model") diff).
  { destruct (legacy_run_anatomy env h raw) as (_ & Hc). cbv zeta in Hc.
    destruct Hc as [(msg & Hev) | [(e & Hev) | [(data & msg & _ & Hev)
                   | (octokit & diff & msg & hr & rawr & _ & Hev)]]];
      rewrite Hev in Hin; try (destruct Hin; fail).
    destruct (legacy_review_shape env octokit (getInput env "gemini-api-key")
                (getInput env "model") (context_owner env) (context_repo env)
                (context_issue_number env) diff hr rawr) as (Hrq & _).
    cbv zeta in Hrq.
    rewrite !requests_app in Hin. cbn [requests flat_map app] in Hin.
    rewrite Hrq in Hin.
    apply in_app_or in Hin. destruct Hin as [Hin | Hin].
    - apply repeat_spec in Hin. exists diff. exact Hin.
    - destruct (result (Legacy.review _ _ _ _ _ _ _ _ _ _)); destruct Hin. }
  destruct Hreq as (diff & ->). cbn.
  split; [reflexivity |]. split; [reflexivity |]. split; [| reflexivity].
  unfold Legacy.apiUrl.
  exists ("https://generativelanguage.googleapis.com/v1beta/models/"
          ++ getInput env "model" ++ ":generateContent")%string, EmptyString.
  rewrite append_empty_r, !append_assoc. reflexivity.
Qed.

(** X14.  In the earlier script a model answer whose text parses ends the
    retry loop whatever the parsed value is: no call of the model follows it.
    When that value is [null] the run is not retried but fails after the loop,
    at the read of [length]: nothing is posted and the last event is
    [setFailed] with the message of that [TypeError]. *)
Theorem legacy_parsed_answer_is_final (env : Env) (h : Trace) (raw : JValue)
    (res : JsError + Response) (v : JValue) :
  let o := Legacy.run env h raw in
  In res (fetch_results (emitted o)) ->
  Legacy.attempt_findings env res = Some v ->
  (exists failed, fetch_results (emitted o) = failed ++ [res]) /\
  (nullish v = true ->
   posts (emitted o) = [] /\
   exists before,
     emitted o = before ++ [EvSetFailed (err_message (TypeError_read v "length"))]).
Proof.
  intros o Hin Hv. subst o.
  destruct (legacy_run_anatomy env h raw) as (_ & Hc). cbv zeta in Hc.
  destruct Hc as [(msg & Hev) | [(e & Hev) | [(data & msg & _ & Hev)
                 | (octokit & diff & msg & hr & rawr & _ & Hev)]]];
    rewrite Hev in Hin |- *; try (destruct Hin; fail).
  destruct (legacy_review_shape env octokit (getInput env "gemini-api-key")
              (getInput env "model") (context_owner env) (context_repo env)
              (context_issue_number env) diff hr rawr)
    as (_ & _ & _ & _ & _ & _ & _ & _ & Hlast).
  cbv zeta in Hlast.
  set (r := Legacy.review env octokit (getInput env "gemini-api-key")
              (getInput env "model") (context_owner env) (context_repo env)
              (context_issue_number env) diff hr rawr) in *.
  destruct (result r) as [e | u] eqn:Hr.
  - rewrite !fetch_results_app in Hin |- *.
    cbn [fetch_results flat_map app] in Hin |- *.
    rewrite app_nil_r in Hin |- *.
    destruct (Hlast res v Hin Hv) as (Hfin & Hnull).
    split; [exact Hfin |].
    intros Hn. destruct (Hnull Hn) as (Hres & Hposts).
    assert (e = TypeError_read v "length") as -> by congruence.
    split.
    + unfold posts in *. cbn [filter is_post]. rewrite filter_app, Hposts. reflexivity.
    + eexists (_ :: _ :: emitted r). reflexivity.
  - rewrite !fetch_results_app in Hin |- *.
    cbn [fetch_results flat_map app] in Hin |- *.
    rewrite app_nil_r in Hin |- *.
    destruct (Hlast res v Hin Hv) as (Hfin & Hnull).
    split; [exact Hfin |].
    intros Hn. destruct (Hnull Hn) as (Hres & _). congruence.
Qed.

(** X15.  A run of the earlier script never throws.  It asks for the diff at
    most once, with the owner, repository and number of the event; its model
    calls follow the schedule attempt, 2000 ms, attempt, 4000 ms, attempt;
    every posting call goes to the pull request of the event; at most one
    posting call goes through; and a failure is reported at most once, as the
    last event, after a run in which no posting call went through. *)
Theorem legacy_run_is_contained (env : Env) (h : Trace) (raw : JValue) :
  let o := Legacy.run env h raw in
  let n := context_issue_number env in
  result o = inr tt /\
  (map fst (pulls_gets (emitted o)) = []
   \/ map fst (pulls_gets (emitted o))
      = [diff_request (context_owner env) (context_repo env) n]) /\
  (List.length (fetch_results (emitted o)) <= 3)%nat /\
  ticks (emitted o)
  = firstn (2 * List.length (fetch_results (emitted o)) - 1)
      [Attempt; Wait 2000; Attempt; Wait 4000; Attempt] /\
  Forall (addressed_to (context_owner env) (context_repo env) n n) (emitted o) /\
  (List.length (resolved_posts (emitted o)) <= 1)%nat /\
  (failures (emitted o) = []
   \/ exists before msg,
        emitted o = before ++ [EvSetFailed msg] /\
        failures before = [] /\ resolved_posts before = []).
Proof.
  cbv zeta.
  destruct (legacy_run_anatomy env h raw) as (Hres & Hc). cbv zeta in Hc.
  split; [exact Hres |].
  destruct Hc as [(msg & Hev) | [(e & Hev) | [(data & msg & _ & Hev)
                 | (octokit & diff & msg & hr & rawr & _ & Hev)]]];
    rewrite Hev.
  - split; [left; reflexivity |]. split; [cbn; lia |]. split; [reflexivity |].
    split; [repeat constructor |]. split; [cbn; lia |].
    right. exists [], msg. repeat split.
  - split; [right; reflexivity |]. split; [cbn; lia |]. split; [reflexivity |].
    split; [repeat constructor |]. split; [cbn; lia |].
    right. eexists [_], _. repeat split.
  - split; [right; reflexivity |]. split; [cbn; lia |]. split; [reflexivity |].
    split; [repeat constructor |]. split; [cbn; lia |].
    left. reflexivity.
  - destruct (legacy_review_shape env octokit (getInput env "gemini-api-key")
                (getInput env "model") (context_owner env) (context_repo env)
                (context_issue_number env) diff hr rawr)
      as (_ & Hlen & Hticks & Hpg & Hfl & Haddr & Hone & Hnone & _).
    cbv zeta in Hlen, Hticks, Hnone.
    set (r := Legacy.review env octokit (getInput env "gemini-api-key")
                (getInput env "model") (context_owner env) (context_repo env)
                (context_issue_number env) diff hr rawr) in *.
    rewrite !pulls_gets_app, !fetch_results_app, !ticks_app, !resolved_posts_app,
      !failures_app, Hpg, Hfl.
    destruct (result r) as [e |] eqn:Hr.
    + cbn [pulls_gets fetch_results ticks resolved_posts failures flat_map app].
      rewrite !app_nil_r.
      split; [right; reflexivity |]. split; [lia |]. split; [exact Hticks |].
      split.
      { repeat (apply Forall_cons; [exact I |]).
        apply Forall_app. split; [exact Haddr | repeat constructor]. }
      rewrite (Hnone e eq_refl).
      split; [cbn; lia |].
      right. eexists (_ :: _ :: emitted r), _.
      split; [reflexivity |].
      split.
      * change (failures (EvPullsGet ?a ?b :: EvInfo ?m :: emitted r))
          with (failures (emitted r)). exact Hfl.
      * change (resolved_posts (EvPullsGet ?a ?b :: EvInfo ?m :: emitted r))
          with (resolved_posts (emitted r)). exact (Hnone e eq_refl).
    + cbn [pulls_gets fetch_results ticks resolved_posts failures flat_map app].
      rewrite !app_nil_r.
      split; [right; reflexivity |]. split; [lia |]. split; [exact Hticks |].
      split.
      { repeat (apply Forall_cons; [exact I |]). exact Haddr. }
      split; [exact Hone |].
      left. reflexivity.
Qed.

(* ===================================================================== *)
(** * The further facts on concrete runs *)
(* ===================================================================== *)

(** A push event, and a pull-request event on which no client can be made. *)
Lemma run_cannot_initialise_witness :
  ((context_eventName Cases.push_env =? "pull_request")%string = false /\
   run Cases.push_env [] JUndefined
   = mkOutcome [EvSetFailed "This action is only available for pull requests!"]
       JUndefined (inr tt)) /\
  ((context_eventName Cases.no_client_env =? "pull_request")%string = true /\
   getOctokit Cases.no_client_env (getInput Cases.no_client_env "github-token")
   = inl Cases.bad_token /\
   run Cases.no_client_env [] JUndefined
   = mkOutcome [EvSetFailed "A token is required"] JUndefined (inr tt)).
Proof.
  split.
  - split; [reflexivity |].
    exact (proj1 (run_cannot_initialise Cases.push_env [] JUndefined) eq_refl).
  - split; [reflexivity |]. split; [reflexivity |].
    exact (proj2 (run_cannot_initialise Cases.no_client_env [] JUndefined)
             Cases.bad_token eq_refl eq_refl).
Defined.

(** The diff request is rejected with status 404. *)
Lemma diff_is_requested_once_witness :
  In (diff_request "octo" "demo" 7, inl Cases.not_found)
     (pulls_gets (emitted (run Cases.offline_env [] JUndefined))) /\
  emitted (run Cases.offline_env [] JUndefined)
  = [EvInfo "Fetching diffs from GitHub...";
     EvPullsGet (diff_request "octo" "demo" 7) (inl Cases.not_found);
     EvSetFailed "Not Found"].
Proof.
  split; [vm_compute; left; reflexivity |].
  apply (proj2 (diff_is_requested_once Cases.offline_env [] JUndefined) Cases.not_found).
  vm_compute. left. reflexivity.
Defined.

(** Two failed attempts, then one finding, which is posted. *)
Lemma posting_needs_an_array_of_findings_witness :
  posts (emitted (run Demo.flaky_env [] JUndefined)) <> [] /\
  exists failed res elems,
    fetch_results (emitted (run Demo.flaky_env [] JUndefined)) = failed ++ [res] /\
    Forall (fun r => attempt_findings Demo.flaky_env r = None) failed /\
    attempt_findings Demo.flaky_env res = Some (JArr elems) /\
    no_nullish elems = true.
Proof.
  assert (H : posts (emitted (run Demo.flaky_env [] JUndefined)) <> [])
    by (vm_compute; discriminate).
  split; [exact H |].
  exact (posting_needs_an_array_of_findings Demo.flaky_env [] JUndefined H).
Defined.

(** The third attempt brings one finding; the model of [Cases.clean_env]
    brings none. *)
Lemma run_posts_what_the_model_found_witness :
  (In (inr (Demo.text_response Demo.one_finding_text))
      (fetch_results (emitted (run Demo.flaky_env [] JUndefined))) /\
   attempt_findings Demo.flaky_env (inr (Demo.text_response Demo.one_finding_text))
   = Some (JArr [Cases.finding]) /\
   no_nullish [Cases.finding] = true /\
   exists answer later,
     posts (emitted (run Demo.flaky_env [] JUndefined))
     = EvCreateReview
         (mkReviewArgs "octo" "demo" 7 "COMMENT"
            (reviewSummary (map github_comment_of [Cases.finding]))
            (map github_comment_of [Cases.finding]))
         answer :: later) /\
  (In (inr (Demo.text_response "[]"))
      (fetch_results (emitted (run Cases.clean_env [] JUndefined))) /\
   attempt_findings Cases.clean_env (inr (Demo.text_response "[]")) = Some (JArr []) /\
   exists answer,
     posts (emitted (run Cases.clean_env [] JUndefined))
     = [EvCreateComment (mkCommentArgs "octo" "demo" 7 NO_ISSUES_BODY) answer]).
Proof.
  split.
  - assert (Hin : In (inr (Demo.text_response Demo.one_finding_text))
                    (fetch_results (emitted (run Demo.flaky_env [] JUndefined))))
      by (vm_compute; right; right; left; reflexivity).
    split; [exact Hin |]. split; [reflexivity |]. split; [reflexivity |].
    exact (run_posts_what_the_model_found Demo.flaky_env [] JUndefined
             (inr (Demo.text_response Demo.one_finding_text)) [Cases.finding]
             Hin eq_refl eq_refl).
  - assert (Hin : In (inr (Demo.text_response "[]"))
                    (fetch_results (emitted (run Cases.clean_env [] JUndefined))))
      by (vm_compute; left; reflexivity).
    split; [exact Hin |]. split; [reflexivity |].
    exact (run_posts_what_the_model_found Cases.clean_env [] JUndefined
             (inr (Demo.text_response "[]")) [] Hin eq_refl eq_refl).
Defined.

(** Three answers that parse to an object whose [length] has no primitive
    value: each attempt fails at the log line and is warned about. *)
Lemma failed_attempts_are_warned_about_witness :
  attempt_outcome Demo.opaque_length_env
    (inr (Demo.text_response Demo.opaque_length_text))
  = inl TypeError_primitive /\
  warnings (emitted (getGeminiReview Demo.opaque_length_env "secret-key"
                       "gemini-2.5-flash" Demo.long_diff [] JUndefined))
  = [ "Try 1 failed (Gemini/JSON-Parsing): Cannot convert object to primitive value";
      "Try 2 failed (Gemini/JSON-Parsing): Cannot convert object to primitive value";
      "Try 3 failed (Gemini/JSON-Parsing): Cannot convert object to primitive value" ].
Proof.
  split; [reflexivity |].
  rewrite (proj1 (failed_attempts_are_warned_about Demo.opaque_length_env "secret-key"
                    "gemini-2.5-flash" Demo.long_diff [] JUndefined)).
  reflexivity.
Defined.

(** A finding followed by [null]. *)
Lemma null_finding_stops_posting_witness :
  no_nullish [Cases.finding; JNull] = false /\
  exists c,
    In c [Cases.finding; JNull] /\ nullish c = true /\
    postReviewComments Demo.accepting "octo" "demo" 7 7 (JArr [Cases.finding; JNull])
      [] JUndefined
    = mkOutcome [] JUndefined (inl (TypeError_read c "path")).
Proof.
  split; [reflexivity |].
  exact (null_finding_stops_posting Demo.accepting "octo" "demo" 7 7
           [Cases.finding; JNull] [] JUndefined eq_refl).
Defined.

(** The review of one finding. *)
Lemma review_announces_its_comments_witness :
  let comments := map github_comment_of [Cases.finding] in
  let review := mkReviewArgs "octo" "demo" 7 "COMMENT" (reviewSummary comments) comments in
  In (EvCreateReview review None)
     (emitted (postReviewComments Demo.accepting "octo" "demo" 7 7 Demo.one_finding
                 [] JUndefined)) /\
  contains (rv_body review) "I've left 1 specific comments on the changes.".
Proof.
  cbv zeta.
  assert (Hin : In (EvCreateReview
                      (mkReviewArgs "octo" "demo" 7 "COMMENT"
                         (reviewSummary (map github_comment_of [Cases.finding]))
                         (map github_comment_of [Cases.finding])) None)
                   (emitted (postReviewComments Demo.accepting "octo" "demo" 7 7
                               Demo.one_finding [] JUndefined)))
    by (vm_compute; left; reflexivity).
  split; [exact Hin |].
  exact (proj1 (review_announces_its_comments Demo.accepting "octo" "demo" 7 7
                  Demo.one_finding [] JUndefined _ None Hin)).
Defined.

(** An unavailable service at the first call, a response without
    candidates at the second. *)
Lemma failed_attempt_says_why_witness :
  let req := gemini_request Cases.failing_env "secret-key" "gemini-2.5-flash" Demo.long_diff in
  (fetch Cases.failing_env [] req = inr Demo.unavailable /\
   resp_ok Demo.unavailable = false /\
   gemini_try Cases.failing_env "secret-key" "gemini-2.5-flash" Demo.long_diff [] JUndefined
   = mkOutcome [EvFetch req (inr Demo.unavailable)] JUndefined
       (inl (Error "API error: Service Unavailable"))) /\
  (fetch Cases.failing_env [EvFetch req (inr Demo.unavailable)] req = inr Demo.no_candidates /\
   response_text (inr Demo.no_candidates) = None /\
   gemini_try Cases.failing_env "secret-key" "gemini-2.5-flash" Demo.long_diff
     [EvFetch req (inr Demo.unavailable)] JUndefined
   = mkOutcome [EvFetch req (inr Demo.no_candidates)] JUndefined
       (inl (Error "No text found in Gemini response"))).
Proof.
  cbv zeta. split.
  - split; [reflexivity |]. split; [reflexivity |].
    exact (proj1 (failed_attempt_says_why Cases.failing_env "secret-key" "gemini-2.5-flash"
                    Demo.long_diff [] JUndefined Demo.unavailable eq_refl) eq_refl).
  - split; [reflexivity |]. split; [reflexivity |].
    exact (proj2 (failed_attempt_says_why Cases.failing_env "secret-key" "gemini-2.5-flash"
                    Demo.long_diff
                    [EvFetch (gemini_request Cases.failing_env "secret-key"
                                "gemini-2.5-flash" Demo.long_diff) (inr Demo.unavailable)]
                    JUndefined Demo.no_candidates eq_refl)
             _ eq_refl eq_refl eq_refl eq_refl).
Defined.

(** The earlier script on the run of two failures and a finding. *)
Lemma legacy_key_travels_in_the_url_witness :
  let req := Legacy.request Demo.flaky_env "secret-key" "gemini-2.5-flash" Demo.long_diff in
  In req (requests (emitted (Legacy.run Demo.flaky_env [] JUndefined))) /\
  req_url req
  = "https://generativelanguage.googleapis.com/v1beta/models/gemini-2.5-flash:generateContent?key=secret-key" /\
  req_headers req = [("Content-Type", "application/json")].
Proof.
  cbv zeta.
  assert (Hin : In (Legacy.request Demo.flaky_env "secret-key" "gemini-2.5-flash"
                      Demo.long_diff)
                   (requests (emitted (Legacy.run Demo.flaky_env [] JUndefined))))
    by (vm_compute; left; reflexivity).
  split; [exact Hin |].
  destruct (legacy_key_travels_in_the_url Demo.flaky_env [] JUndefined _ Hin)
    as (_ & Hurl & _ & Hheaders).
  split; [exact Hurl | exact Hheaders].
Defined.

(** The earlier script on a model that answers the text [null]. *)
Lemma legacy_parsed_answer_is_final_witness :
  In (inr (Demo.text_response "null"))
     (fetch_results (emitted (Legacy.run Demo.null_env [] JUndefined))) /\
  Legacy.attempt_findings Demo.null_env (inr (Demo.text_response "null")) = Some JNull /\
  fetch_results (emitted (Legacy.run Demo.null_env [] JUndefined))
  = [inr (Demo.text_response "null")] /\
  posts (emitted (Legacy.run Demo.null_env [] JUndefined)) = [].
Proof.
  assert (Hin : In (inr (Demo.text_response "null"))
                  (fetch_results (emitted (Legacy.run Demo.null_env [] JUndefined))))
    by (vm_compute; left; reflexivity).
  split; [exact Hin |]. split; [reflexivity |].
  split; [vm_compute; reflexivity |].
  exact (proj1 (proj2 (legacy_parsed_answer_is_final Demo.null_env [] JUndefined
                         (inr (Demo.text_response "null")) JNull Hin eq_refl) eq_refl)).
Defined.
